(** * nonebot-plugin-ddcheck: [data_source.py]

    A shallow embedding of the plugin's data source: the WBI signing-key
    cache, the WBI request signature, the paginated follow-list fetch, the
    registry refresh from the vtbs.moe mirrors and the numbers of the report;
    further on, the search of a user by name, the colours of a medal and
    the matching of the follows against the registry.

    Conventions of the embedding.
    - A Python [str] is a Rocq [string]; a character stands for the code
      point of the same number, so the strings covered are those whose code
      points are below 256.  Their UTF-8 encoding is written out
      ([utf8_encode]).
    - Python [int] is [Z].  [time.time()] is a rational number of seconds:
      the rounding of floating-point arithmetic is not part of the model.
    - Exceptions are values of [exn]; code that raises returns [Raise e].
    - The process-wide state (the key cache, the registry file), the clock
      and the network are fields of [world]; effectful functions are
      computations of the monad [M].
    - A JSON answer can hold, as an escape, a lone surrogate, which UTF-8
      cannot encode and which no string of the model shows.  The field
      [unencodable] of the world tells which values hold one; it is false
      everywhere for answers made of the strings covered. *)

From Stdlib Require Import ZArith QArith Qround List String Ascii Bool Lia.
From Stdlib Require Import Permutation Sorted DecimalString OrderedTypeEx.
Import ListNotations.

Local Open Scope string_scope.
Local Open Scope list_scope.
Local Open Scope Z_scope.

(* ================================================================== *)
(** ** Python strings and the builtins the source calls *)

Module Py.

Definition ord (c : ascii) : Z := Z.of_N (N_of_ascii c).

Definition chr (n : Z) : ascii := ascii_of_N (Z.to_N n).

(** [s.encode('utf-8')], for code points below 256: one byte below 128,
    two bytes from 128 on. *)
Definition utf8_char (c : ascii) : list Z :=
  let n := ord c in
  if n <? 128 then [n]
  else [Z.lor 192 (Z.shiftr n 6); Z.lor 128 (Z.land n 63)].

Fixpoint utf8_encode (s : string) : list Z :=
  match s with
  | EmptyString => []
  | String c s' => utf8_char c ++ utf8_encode s'
  end.

(** [str(n)] for an [int]. *)
Definition str_of_int (n : Z) : string :=
  NilZero.string_of_int (Z.to_int n).

(** [sep.join(parts)]. *)
Fixpoint join (sep : string) (parts : list string) : string :=
  match parts with
  | [] => ""
  | [p] => p
  | p :: rest => (p ++ sep ++ join sep rest)%string
  end.

(** [s.split(sep)] for a separator of one character: the pieces between
    the occurrences of [sep]; there is always at least one piece. *)
Fixpoint split (sep : ascii) (s : string) : list string :=
  match s with
  | EmptyString => [""]
  | String c s' =>
      if Ascii.eqb c sep then "" :: split sep s'
      else match split sep s' with
           | [] => [String c ""]
           | p :: ps => String c p :: ps
           end
  end.

(** [s[i]]: a negative index counts from the end; [None] stands for
    [IndexError]. *)
Definition index (s : string) (i : Z) : option ascii :=
  let n := Z.of_nat (String.length s) in
  let j := if i <? 0 then i + n else i in
  if (0 <=? j) && (j <? n) then String.get (Z.to_nat j) s else None.

End Py.

(* ================================================================== *)
(** ** [hashlib.md5(data).hexdigest()] (RFC 1321) *)

Module MD5.

Definition w32 : Z := 2 ^ 32.

Definition add32 (a b : Z) : Z := (a + b) mod w32.

Definition not32 (a : Z) : Z := Z.lxor a (w32 - 1).

Definition rotl32 (x c : Z) : Z :=
  Z.lor (Z.shiftl x c mod w32) (Z.shiftr x (32 - c)).

Definition shifts : list Z :=
  [7; 12; 17; 22; 7; 12; 17; 22; 7; 12; 17; 22; 7; 12; 17; 22;
   5; 9; 14; 20; 5; 9; 14; 20; 5; 9; 14; 20; 5; 9; 14; 20;
   4; 11; 16; 23; 4; 11; 16; 23; 4; 11; 16; 23; 4; 11; 16; 23;
   6; 10; 15; 21; 6; 10; 15; 21; 6; 10; 15; 21; 6; 10; 15; 21].

(** [K i = floor (2^32 * abs (sin (i + 1)))]. *)
Definition K : list Z :=
  [0xd76aa478; 0xe8c7b756; 0x242070db; 0xc1bdceee;
   0xf57c0faf; 0x4787c62a; 0xa8304613; 0xfd469501;
   0x698098d8; 0x8b44f7af; 0xffff5bb1; 0x895cd7be;
   0x6b901122; 0xfd987193; 0xa679438e; 0x49b40821;
   0xf61e2562; 0xc040b340; 0x265e5a51; 0xe9b6c7aa;
   0xd62f105d; 0x02441453; 0xd8a1e681; 0xe7d3fbc8;
   0x21e1cde6; 0xc33707d6; 0xf4d50d87; 0x455a14ed;
   0xa9e3e905; 0xfcefa3f8; 0x676f02d9; 0x8d2a4c8a;
   0xfffa3942; 0x8771f681; 0x6d9d6122; 0xfde5380c;
   0xa4beea44; 0x4bdecfa9; 0xf6bb4b60; 0xbebfbc70;
   0x289b7ec6; 0xeaa127fa; 0xd4ef3085; 0x04881d05;
   0xd9d4d039; 0xe6db99e5; 0x1fa27cf8; 0xc4ac5665;
   0xf4292244; 0x432aff97; 0xab9423a7; 0xfc93a039;
   0x655b59c3; 0x8f0ccc92; 0xffeff47d; 0x85845dd1;
   0x6fa87e4f; 0xfe2ce6e0; 0xa3014314; 0x4e0811a1;
   0xf7537e82; 0xbd3af235; 0x2ad7d2bb; 0xeb86d391].

Record state := mk_state { sa : Z; sb : Z; sc : Z; sd : Z }.

Definition init : state :=
  mk_state 0x67452301 0xefcdab89 0x98badcfe 0x10325476.

(** The padded message: a byte 0x80, zero bytes up to 56 modulo 64, and
    the length in bits as 8 little-endian bytes. *)
Definition le_bytes (n : nat) (x : Z) : list Z :=
  map (fun i => Z.land (Z.shiftr x (8 * Z.of_nat i)) 255) (seq 0 n).

Definition pad (msg : list Z) : list Z :=
  let len := Z.of_nat (List.length msg) in
  msg ++ [128] ++ repeat 0 (Z.to_nat ((55 - len) mod 64))
      ++ le_bytes 8 ((8 * len) mod 2 ^ 64).

Definition le_word (bs : list Z) : Z :=
  fold_right (fun b acc => b + 256 * acc) 0 bs.

Fixpoint words (n : nat) (bs : list Z) : list Z :=
  match n with
  | O => []
  | S n' => le_word (firstn 4 bs) :: words n' (skipn 4 bs)
  end.

Definition step (m : list Z) (st : state) (i : nat) : state :=
  let zi := Z.of_nat i in
  let '(mk_state a b c d) := st in
  let '(f, g) :=
    if zi <? 16 then (Z.lor (Z.land b c) (Z.land (not32 b) d), zi)
    else if zi <? 32 then
      (Z.lor (Z.land d b) (Z.land (not32 d) c), (5 * zi + 1) mod 16)
    else if zi <? 48 then (Z.lxor (Z.lxor b c) d, (3 * zi + 5) mod 16)
    else (Z.lxor c (Z.lor b (not32 d)), (7 * zi) mod 16) in
  let f' := add32 (add32 (add32 f a) (nth i K 0)) (nth (Z.to_nat g) m 0) in
  mk_state d (add32 b (rotl32 f' (nth i shifts 0))) b c.

Definition block (st : state) (bs : list Z) : state :=
  let r := fold_left (step (words 16 bs)) (seq 0 64) st in
  mk_state (add32 (sa st) (sa r)) (add32 (sb st) (sb r))
           (add32 (sc st) (sc r)) (add32 (sd st) (sd r)).

Fixpoint blocks (n : nat) (st : state) (bs : list Z) : state :=
  match n with
  | O => st
  | S n' => blocks n' (block st (firstn 64 bs)) (skipn 64 bs)
  end.

Definition digest (msg : list Z) : list Z :=
  let p := pad msg in
  let r := blocks (List.length p / 64) init p in
  le_bytes 4 (sa r) ++ le_bytes 4 (sb r) ++ le_bytes 4 (sc r)
          ++ le_bytes 4 (sd r).

Definition hex_digit (n : Z) : ascii :=
  if n <? 10 then Py.chr (48 + n) else Py.chr (87 + n).

Fixpoint hex (bs : list Z) : string :=
  match bs with
  | [] => ""
  | b :: bs' => String (hex_digit (b / 16)) (String (hex_digit (b mod 16)) (hex bs'))
  end.

Definition hexdigest (msg : list Z) : string := hex (digest msg).

End MD5.

Arguments MD5.hexdigest : simpl never.

(* ================================================================== *)
(** ** Exceptions and results *)

Inductive exn : Type :=
| IndexError
| KeyError (key : string)
| TypeError
| AttributeError
| ValueError
| ZeroDivisionError
| TimeoutException            (* httpx.TimeoutException *)
| TransportError              (* any other failure of a request *)
| HTTPStatusError (status : Z)
| JSONDecodeError
| UnicodeEncodeError
| UnicodeDecodeError.

(** The result of code that has no effect but may raise. *)
Inductive res (A : Type) : Type :=
| Ok (a : A)
| Err (e : exn).
Arguments Ok {A} a.
Arguments Err {A} e.

Definition res_bind {A B} (r : res A) (k : A -> res B) : res B :=
  match r with
  | Ok a => k a
  | Err e => Err e
  end.

Declare Scope res_scope.
Delimit Scope res_scope with res.
Notation "x <- r ;; k" := (res_bind r (fun x => k))
  (at level 61, r at next level, right associativity) : res_scope.

(* ================================================================== *)
(** ** Python dicts with string keys

    A dict is the list of its items in insertion order.  Its keys are
    pairwise distinct ([wf_dict]); [dict_set] keeps that. *)

Definition dict (A : Type) : Type := list (string * A).

Definition keys {A} (d : dict A) : list string := map fst d.

Definition wf_dict {A} (d : dict A) : Prop := NoDup (keys d).

(** [d.get(k)]: [None] when the key is absent. *)
Fixpoint dict_get {A} (d : dict A) (k : string) : option A :=
  match d with
  | [] => None
  | (k', v) :: d' => if String.eqb k' k then Some v else dict_get d' k
  end.

(** [d[k] = v]: a key already present keeps its place and takes the new
    value, a new key goes to the end. *)
Fixpoint dict_set {A} (d : dict A) (k : string) (v : A) : dict A :=
  match d with
  | [] => [(k, v)]
  | (k', v') :: d' =>
      if String.eqb k' k then (k', v) :: d'
      else (k', v') :: dict_set d' k v
  end.

(** [dict(sorted(d.items()))]: the items in ascending order of their keys
    (code point order, the order of the UTF-8 bytes as well).  Python
    compares the items as pairs; the keys of a dict being distinct, the
    values are never compared.  [sorted] is stable. *)
Fixpoint insert_item {A} (x : string * A) (l : dict A) : dict A :=
  match l with
  | [] => [x]
  | y :: l' =>
      if String.leb (fst x) (fst y) then x :: l else y :: insert_item x l'
  end.

Fixpoint sorted_items {A} (d : dict A) : dict A :=
  match d with
  | [] => []
  | x :: d' => insert_item x (sorted_items d')
  end.

(* ================================================================== *)
(** ** JSON values, as [resp.json()] gives them *)

#[local] Set Warnings "-register-all".

Inductive json : Type :=
| JNull
| JBool (b : bool)
| JInt (n : Z)
| JFloat (q : Q)
| JStr (s : string)
| JList (l : list json)
| JDict (d : list (string * json)).

(** The truth value of an object ([if x:], [x and y]). *)
Definition truthy (j : json) : bool :=
  match j with
  | JNull => false
  | JBool b => b
  | JInt n => negb (n =? 0)
  | JFloat q => negb (Qeq_bool q 0)
  | JStr s => negb (String.eqb s "")
  | JList l => match l with [] => false | _ => true end
  | JDict d => match d with [] => false | _ => true end
  end.

(** [j[k]] with a string key. *)
Definition getitem (j : json) (k : string) : res json :=
  match j with
  | JDict d =>
      match dict_get d k with
      | Some v => Ok v
      | None => Err (KeyError k)
      end
  | _ => Err TypeError
  end.

(** [j.get(k, None)]: only a dict has the method. *)
Definition get_or_none (j : json) (k : string) : res json :=
  match j with
  | JDict d =>
      match dict_get d k with
      | Some v => Ok v
      | None => Ok JNull
      end
  | _ => Err AttributeError
  end.

(** [for x in j]: the elements of a list, the characters of a string, the
    keys of a dict. *)
Definition iterate (j : json) : res (list json) :=
  match j with
  | JList l => Ok l
  | JStr s => Ok (map (fun c => JStr (String c "")) (list_ascii_of_string s))
  | JDict d => Ok (map (fun kv => JStr (fst kv)) d)
  | _ => Err TypeError
  end.

(** [len(j)]. *)
Definition len (j : json) : res Z :=
  match j with
  | JList l => Ok (Z.of_nat (List.length l))
  | JStr s => Ok (Z.of_nat (String.length s))
  | JDict d => Ok (Z.of_nat (List.length d))
  | _ => Err TypeError
  end.

(* ================================================================== *)
(** ** [urllib.parse.quote_plus] *)

Module Urllib.

(** The bytes [quote] never escapes: ASCII letters, digits and [_.-~]. *)
Definition always_safe (b : Z) : bool :=
  ((65 <=? b) && (b <=? 90)) || ((97 <=? b) && (b <=? 122))
  || ((48 <=? b) && (b <=? 57))
  || (b =? 95) || (b =? 46) || (b =? 45) || (b =? 126).

Definition upper_hex_digit (n : Z) : ascii :=
  if n <? 10 then Py.chr (48 + n) else Py.chr (55 + n).

(** One byte of the UTF-8 encoding: kept when safe, [+] for a space,
    [%XX] with upper-case digits otherwise. *)
Definition quote_byte (b : Z) : string :=
  if always_safe b then String (Py.chr b) ""
  else if b =? 32 then "+"
  else String "%" (String (upper_hex_digit (b / 16))
                     (String (upper_hex_digit (b mod 16)) "")).

Definition quote_plus (s : string) : string :=
  String.concat "" (map quote_byte (Py.utf8_encode s)).

End Urllib.

(* ================================================================== *)
(** ** The world: process state, clock and network *)

(** [_cached_wbi_keys]. *)
Record wbi_cache : Type := mk_cache {
  img_key : string;
  sub_key : string;
  last_fetch : Q
}.

(** The value of a request parameter: the source passes [int]s and [str]s. *)
Inductive param : Type :=
| PInt (n : Z)
| PStr (s : string).

(** [str(value)]. *)
Definition str (v : param) : string :=
  match v with
  | PInt n => Py.str_of_int n
  | PStr s => s
  end.

Record request : Type := mk_request {
  req_url : string;
  req_params : dict param
}.

(** What a request gives when it does not raise: the status code and the
    body, [None] when the body is not JSON. *)
Record response : Type := mk_response {
  status_code : Z;
  body : option json
}.

(** The file [vtb_list.json]: absent, a text that is not JSON ([Corrupt]),
    bytes that are not UTF-8 ([Undecodable]), or the text of a JSON
    value. *)
Inductive file : Type :=
| Absent
| Corrupt
| Undecodable
| Content (j : json).

(** [clock k] is what the [k]-th call of [time.time()] returns, [net k] what
    the [k]-th request gets; [ticks] counts the calls of the clock and [sent]
    lists the requests issued so far, oldest first.  [unencodable j] tells
    that the value [j] of an answer holds a string with a lone surrogate. *)
Record world : Type := mk_world {
  cached_wbi_keys : wbi_cache;
  vtb_list_file : file;
  clock : nat -> Q;
  ticks : nat;
  net : nat -> res response;
  sent : list request;
  unencodable : json -> bool
}.

Definition set_cache (c : wbi_cache) (w : world) : world :=
  mk_world c (vtb_list_file w) (clock w) (ticks w) (net w) (sent w)
           (unencodable w).

Definition set_file (f : file) (w : world) : world :=
  mk_world (cached_wbi_keys w) f (clock w) (ticks w) (net w) (sent w)
           (unencodable w).

(** The outcome of a computation: a value, an exception, or a loop that the
    fuel given did not let finish. *)
Inductive outcome (A : Type) : Type :=
| Return (a : A)
| Raise (e : exn)
| OutOfFuel.
Arguments Return {A} a.
Arguments Raise {A} e.
Arguments OutOfFuel {A}.

Definition M (A : Type) : Type := world -> outcome A * world.

Definition ret {A} (a : A) : M A := fun w => (Return a, w).

Definition raise {A} (e : exn) : M A := fun w => (Raise e, w).

Definition bind {A B} (m : M A) (k : A -> M B) : M B :=
  fun w =>
    match m w with
    | (Return a, w') => k a w'
    | (Raise e, w') => (Raise e, w')
    | (OutOfFuel, w') => (OutOfFuel, w')
    end.

(** [try: m  except Exception as e: h e]. *)
Definition try_except {A} (m : M A) (h : exn -> M A) : M A :=
  fun w =>
    match m w with
    | (Raise e, w') => h e w'
    | r => r
    end.

Definition lift {A} (r : res A) : M A :=
  match r with
  | Ok a => ret a
  | Err e => raise e
  end.

Declare Scope M_scope.
Delimit Scope M_scope with M.
Notation "x <- m ;; k" := (bind m (fun x => k))
  (at level 61, m at next level, right associativity) : M_scope.
Notation "m ;; k" := (bind m (fun _ => k))
  (at level 61, right associativity) : M_scope.

(** The world after one call of the clock. *)
Definition tick (w : world) : world :=
  mk_world (cached_wbi_keys w) (vtb_list_file w) (clock w) (S (ticks w))
           (net w) (sent w) (unencodable w).

(** [time.time()]. *)
Definition time_time : M Q :=
  fun w => (Return (clock w (ticks w)), tick w).

(** [int(x)] for a float: the fraction is dropped, towards zero. *)
Definition int_of_float (t : Q) : Z := Z.quot (Qnum t) (Z.pos (Qden t)).

(** [await client.get(url, params=...)]: the request is issued and the
    network answers or the call raises. *)
Definition client_get (url : string) (params : dict param) : M response :=
  fun w =>
    let w' := mk_world (cached_wbi_keys w) (vtb_list_file w) (clock w)
                       (ticks w) (net w)
                       (sent w ++ [mk_request url params])
                       (unencodable w) in
    match net w (List.length (sent w)) with
    | Ok r => (Return r, w')
    | Err e => (Raise e, w')
    end.

(** [resp.raise_for_status()]: any status outside 2xx raises. *)
Definition raise_for_status (r : response) : M unit :=
  if (200 <=? status_code r) && (status_code r <=? 299) then ret tt
  else raise (HTTPStatusError (status_code r)).

(** [resp.json()]. *)
Definition resp_json (r : response) : M json :=
  match body r with
  | Some j => ret j
  | None => raise JSONDecodeError
  end.

Definition read_cache : M wbi_cache :=
  fun w => (Return (cached_wbi_keys w), w).

(* ================================================================== *)
(** ** [get_wbi_keys] *)

Definition wbi_url : string := "https://api.bilibili.com/x/web-interface/nav".

Definition Qltb (a b : Q) : bool := negb (Qle_bool b a).

(** [url.split("/")[-1].split(".")[0]]; only a [str] has [split]. *)
Definition key_of_url (url : json) : res string :=
  match url with
  | JStr s => Ok (hd "" (Py.split "." (last (Py.split "/" s) "")))
  | _ => Err AttributeError
  end.

Definition set_img_key (k : string) : M unit :=
  fun w =>
    let c := cached_wbi_keys w in
    (Return tt, set_cache (mk_cache k (sub_key c) (last_fetch c)) w).

Definition set_sub_key (k : string) : M unit :=
  fun w =>
    let c := cached_wbi_keys w in
    (Return tt, set_cache (mk_cache (img_key c) k (last_fetch c)) w).

Definition set_last_fetch (t : Q) : M unit :=
  fun w =>
    let c := cached_wbi_keys w in
    (Return tt, set_cache (mk_cache (img_key c) (sub_key c) t) w).

Definition get_wbi_keys : M (string * string) :=
  (current_time <- time_time ;;
   cache <- read_cache ;;
   if Qltb (current_time - last_fetch cache) 1800
   then ret (img_key cache, sub_key cache)
   else
     try_except
       (resp <- client_get wbi_url [] ;;
        raise_for_status resp ;;
        j <- resp_json resp ;;
        data <- lift (getitem j "data") ;;
        wbi_img <- lift (getitem data "wbi_img") ;;
        wbi_img_url <- lift (getitem wbi_img "img_url") ;;
        wbi_img' <- lift (getitem data "wbi_img") ;;
        wbi_sub_url <- lift (getitem wbi_img' "sub_url") ;;
        img <- lift (key_of_url wbi_img_url) ;;
        sub <- lift (key_of_url wbi_sub_url) ;;
        set_img_key img ;;
        set_sub_key sub ;;
        set_last_fetch current_time ;;
        ret (img, sub))
       (fun e => raise e))%M.

(* ================================================================== *)
(** ** [get_wbi_sign_params] *)

Definition mixinKeyEncTab : list Z :=
  [46; 47; 18; 2; 53; 8; 23; 32; 15; 50; 10; 31; 58; 3; 45; 35; 27; 43; 5; 49;
   33; 9; 42; 19; 29; 28; 14; 36; 17; 20; 34; 44; 57; 16; 26; 56; 1; 40; 52; 37;
   55; 11; 41; 4; 22; 24; 21; 25; 54; 59; 7; 60; 6; 61; 51; 62; 2; 53; 8; 23; 32;
   15; 50; 10; 31; 58; 3; 45; 35; 27; 43; 5; 49; 33; 9; 42; 19; 29; 28; 14; 36;
   17; 20; 34; 44; 57; 16; 26; 56; 1; 40; 52; 37; 55; 11; 41; 4; 22; 24; 21; 25;
   54; 59; 7; 60; 6; 61; 51; 62].

(** [[orig_key[i] for i in idx]], then joined: the characters are taken in
    the order of [idx] and the first index out of range raises. *)
Fixpoint pick_chars (orig_key : string) (idx : list Z) : res string :=
  match idx with
  | [] => Ok ""
  | i :: rest =>
      match Py.index orig_key i with
      | Some c =>
          match pick_chars orig_key rest with
          | Ok s => Ok (String c s)
          | Err e => Err e
          end
      | None => Err IndexError
      end
  end.

Definition get_mixin_key (orig_key : string) : res string :=
  pick_chars orig_key (firstn 64 mixinKeyEncTab).

(** ["&".join([f"{key}={quote_plus(str(value))}" for key, value in ...])]. *)
Definition query_field (kv : string * param) : string :=
  (fst kv ++ "=" ++ Urllib.quote_plus (str (snd kv)))%string.

Definition query_string (sorted_params : dict param) : string :=
  Py.join "&" (map query_field sorted_params).

(** The caller's [params] is a dict built for the call and not used again,
    so the assignment of [wts] to it is modelled on a local value. *)
Definition get_wbi_sign_params (params : dict param) : M (dict param) :=
  (cache <- read_cache ;;
   mixin_key <- lift (get_mixin_key (img_key cache ++ sub_key cache)%string) ;;
   now <- time_time ;;
   let params := dict_set params "wts" (PInt (int_of_float now)) in
   let sorted_params := sorted_items params in
   let query := query_string sorted_params in
   let hash_value :=
     MD5.hexdigest (Py.utf8_encode (query ++ mixin_key)%string) in
   ret (dict_set sorted_params "w_rid" (PStr hash_value)))%M.

(* ================================================================== *)
(** ** [int(x)] on a JSON value *)

Module PyInt.

(** The white space [int] strips, among the code points below 256: tab to
    carriage return, the space, U+0085 and U+00A0.  The separators U+001C to
    U+001F, white space for [str.isspace], are not stripped. *)
Definition is_space (c : ascii) : bool :=
  let n := Py.ord c in
  ((9 <=? n) && (n <=? 13)) || (n =? 32) || (n =? 133) || (n =? 160).

Definition is_digit (c : ascii) : bool :=
  (48 <=? Py.ord c) && (Py.ord c <=? 57).

Fixpoint lstrip (l : list ascii) : list ascii :=
  match l with
  | c :: l' => if is_space c then lstrip l' else l
  | [] => []
  end.

Definition strip (l : list ascii) : list ascii :=
  rev (lstrip (rev (lstrip l))).

(** Decimal digits, with single underscores between digits only;
    [after_digit] tells that the character before was a digit. *)
Fixpoint digits (acc : Z) (after_digit : bool) (l : list ascii) : option Z :=
  match l with
  | [] => if after_digit then Some acc else None
  | c :: l' =>
      if is_digit c then digits (10 * acc + (Py.ord c - 48)) true l'
      else if Ascii.eqb c "_" then
        if after_digit then digits acc false l' else None
      else None
  end.

(** The most digits [int] takes from a string: [sys.int_max_str_digits],
    which is 4300 unless the process sets it. *)
Definition max_str_digits : nat := 4300.

Definition count_digits (l : list ascii) : nat :=
  List.length (filter is_digit l).

(** The sign and the digits, without the limit. *)
Definition signed_digits (l : list ascii) : option Z :=
  match l with
  | c :: l' =>
      if Ascii.eqb c "-" then option_map Z.opp (digits 0 false l')
      else if Ascii.eqb c "+" then digits 0 false l'
      else digits 0 false l
  | [] => None
  end.

Definition of_str (s : string) : option Z :=
  let l := strip (list_ascii_of_string s) in
  if (max_str_digits <? count_digits l)%nat then None
  else signed_digits l.

End PyInt.

(** [int(j)]: a string that is not a decimal number, or one of more than
    4300 digits, raises [ValueError].  The floats of the model are numbers;
    [nan] and the infinities are not among them. *)
Definition py_int (j : json) : res Z :=
  match j with
  | JInt n => Ok n
  | JBool b => Ok (if b then 1 else 0)
  | JFloat q => Ok (int_of_float q)
  | JStr s =>
      match PyInt.of_str s with
      | Some n => Ok n
      | None => Err ValueError
      end
  | _ => Err TypeError
  end.

(* ================================================================== *)
(** ** The registry: [update_vtb_list], [dump_vtb_list], [load_vtb_list] *)

Definition urls : list string :=
  ["https://api.vtbs.moe/v1/short";
   "https://cfapi.vtbs.moe/v1/short";
   "https://hkapi.vtbs.moe/v1/short";
   "https://kr.vtbs.moe/v1/short"].

(** [info.get(a, None) and info.get(b, None)], as a truth value: the second
    operand is evaluated only when the first is true. *)
Definition has_both (info : json) (a b : string) : res bool :=
  (x <- get_or_none info a ;;
   if truthy x then (y <- get_or_none info b ;; Ok (truthy y))
   else Ok false)%res.

(** The first [if] of the loop body. *)
Definition add_uid_shape (info : json) (vtb_list : list json)
  : res (list json) :=
  (c <- has_both info "uid" "uname" ;;
   if c : bool then
     uid <- getitem info "uid" ;;
     mid <- py_int uid ;;
     uname <- getitem info "uname" ;;
     Ok (vtb_list ++ [JDict [("mid", JInt mid); ("uname", uname)]])
   else Ok vtb_list)%res.

(** The second [if] of the loop body. *)
Definition add_mid_shape (info : json) (vtb_list : list json)
  : res (list json) :=
  (c <- has_both info "mid" "uname" ;;
   Ok (if c : bool then vtb_list ++ [info] else vtb_list))%res.

(** The body of [for info in result], on the list [vtb_list] it appends to:
    the list as the body leaves it, and the exception when it raised. *)
Definition add_info (info : json) (vtb_list : list json)
  : list json * option exn :=
  match add_uid_shape info vtb_list with
  | Err e => (vtb_list, Some e)
  | Ok l1 =>
      match add_mid_shape info l1 with
      | Err e => (l1, Some e)
      | Ok l2 => (l2, None)
      end
  end.

Fixpoint add_infos (infos : list json) (vtb_list : list json)
  : list json * option exn :=
  match infos with
  | [] => (vtb_list, None)
  | info :: rest =>
      match add_info info vtb_list with
      | (l, None) => add_infos rest l
      | (l, Some e) => (l, Some e)
      end
  end.

(** How the body of [for url in urls] ends: with [break], or by going on
    to the next url ([continue], or an exception caught and logged). *)
Inductive flow : Type :=
| Break
| Next.

(** One turn of [for url in urls].  Both [except] clauses only log.  What
    the inner loop appended before an exception stays in [vtb_list]. *)
Definition try_mirror (url : string) (vtb_list : list json)
  : M (list json * flow) :=
  (try_except
     (resp <- client_get url [] ;;
      result <- resp_json resp ;;
      if negb (truthy result) then ret (vtb_list, Next)
      else
        infos <- lift (iterate result) ;;
        match add_infos infos vtb_list with
        | (l, None) => ret (l, Break)
        | (l, Some _) => ret (l, Next)
        end)
     (fun _ => ret (vtb_list, Next)))%M.

Fixpoint for_urls (us : list string) (vtb_list : list json)
  : M (list json) :=
  match us with
  | [] => ret vtb_list
  | url :: rest =>
      (r <- try_mirror url vtb_list ;;
       match r with
       | (l, Break) => ret l
       | (l, Next) => for_urls rest l
       end)%M
  end.

(** [json.dump] into the file opened for writing, as UTF-8 and with
    [ensure_ascii=False]: a record with a lone surrogate raises
    [UnicodeEncodeError] when its text is written, and the file is left
    with the text before it, which is not JSON. *)
Definition dump_vtb_list (vtb_list : list json) : M unit :=
  fun w =>
    if existsb (unencodable w) vtb_list
    then (Raise UnicodeEncodeError, set_file Corrupt w)
    else (Return tt, set_file (Content (JList vtb_list)) w).

Definition update_vtb_list : M unit :=
  (vtb_list <- for_urls urls [] ;; dump_vtb_list vtb_list)%M.

(** A text that does not parse raises [JSONDecodeError], the only
    exception caught: the file is removed and the list is empty.  Bytes that
    are not UTF-8 raise [UnicodeDecodeError] when they are read, and the
    file stays. *)
Definition load_vtb_list : M json :=
  fun w =>
    match vtb_list_file w with
    | Content j => (Return j, w)
    | Corrupt => (Return (JList []), set_file Absent w)
    | Undecodable => (Raise UnicodeDecodeError, w)
    | Absent => (Return (JList []), w)
    end.

Definition get_vtb_list : M json :=
  (vtb_list <- load_vtb_list ;;
   (if negb (truthy vtb_list) then update_vtb_list else ret tt) ;;
   load_vtb_list)%M.

(* ================================================================== *)
(** ** [get_user_attentions] *)

Definition followings_url : string :=
  "https://api.bilibili.com/x/relation/followings".

Definition page_size : Z := 50.

(** [{"mid": user["mid"], "uname": user["uname"]}]. *)
Definition attention_of (user : json) : res json :=
  (mid <- getitem user "mid" ;;
   uname <- getitem user "uname" ;;
   Ok (JDict [("mid", mid); ("uname", uname)]))%res.

(** [for user in data["list"]: attentions_data.append({...})]. *)
Fixpoint append_users (users : list json) (attentions_data : list json)
  : res (list json) :=
  match users with
  | [] => Ok attentions_data
  | user :: rest =>
      (entry <- attention_of user ;;
       append_users rest (attentions_data ++ [entry]))%res
  end.

Definition page_params (uid page : Z) : dict param :=
  [("vmid", PInt uid); ("pn", PInt page); ("ps", PInt page_size);
   ("order", PStr "desc"); ("jsonp", PStr "jsonp")].

(** The [while True] loop, from the state of its variables [page] and
    [attentions_data]; [fuel] bounds the number of turns.  The source reads
    [data["list"]] three times in a turn; it is the same value each time
    and is read once here. *)
Fixpoint fetch_pages (fuel : nat) (uid page : Z) (attentions_data : list json)
  : M (list json) :=
  match fuel with
  | O => fun w => (OutOfFuel, w)
  | S fuel' =>
      (params_signed <- get_wbi_sign_params (page_params uid page) ;;
       resp <- client_get followings_url params_signed ;;
       raise_for_status resp ;;
       j <- resp_json resp ;;
       data <- lift (getitem j "data") ;;
       lst <- lift (getitem data "list") ;;
       if truthy lst then
         users <- lift (iterate lst) ;;
         attentions_data' <- lift (append_users users attentions_data) ;;
         n <- lift (len lst) ;;
         if n <? page_size then ret attentions_data'
         else fetch_pages fuel' uid (page + 1) attentions_data'
       else ret attentions_data)%M
  end.

(** The body of the [try]. *)
Definition fetch_all (fuel : nat) (uid : Z) : M (list json) :=
  (get_wbi_keys ;; fetch_pages fuel uid 1 [])%M.

Definition get_user_attentions (fuel : nat) (uid : Z) : M (list json) :=
  try_except (fetch_all fuel uid) (fun _ => ret []).

(* ================================================================== *)
(** ** The numbers of the report ([render_ddcheck_image], lines 299-300) *)

(** [a / b] on [int]s: the true quotient, [ZeroDivisionError] for [b = 0]. *)
Definition truediv (a b : Z) : res Q :=
  if b =? 0 then Err ZeroDivisionError
  else Ok (inject_Z a / inject_Z b)%Q.

(** [vtbs_num / follows_num * 100 if follows_num else 0]. *)
Definition percent (vtbs_num follows_num : Z) : res Q :=
  if negb (follows_num =? 0) then
    (q <- truediv vtbs_num follows_num ;; Ok (q * 100)%Q)%res
  else Ok 0%Q.

(** [math.ceil(vtbs_num / math.ceil(vtbs_num / 100)) if vtbs_num else 1]. *)
Definition num_per_col (vtbs_num : Z) : res Z :=
  if negb (vtbs_num =? 0) then
    (q <- truediv vtbs_num 100 ;;
     r <- truediv vtbs_num (Qceiling q) ;;
     Ok (Qceiling r))%res
  else Ok 1.

(* ================================================================== *)
(** ** Equality and dicts keyed by JSON values *)

(** The number a JSON value stands for: [bool] is a subtype of [int]. *)
Definition number_of (j : json) : option Q :=
  match j with
  | JBool b => Some (if b then 1%Q else 0%Q)
  | JInt n => Some (inject_Z n)
  | JFloat q => Some q
  | _ => None
  end.

(** [a == b]: numbers by value, strings and [None] by identity of content,
    lists element by element, dicts key by key whatever the order. *)
Fixpoint py_eq (a b : json) : bool :=
  match a, b with
  | JNull, JNull => true
  | JStr s, JStr t => String.eqb s t
  | JList l, JList m =>
      (fix all2 (l m : list json) : bool :=
         match l, m with
         | [], [] => true
         | x :: l', y :: m' => py_eq x y && all2 l' m'
         | _, _ => false
         end) l m
  | JDict d, JDict e =>
      Nat.eqb (List.length d) (List.length e)
      && forallb (fun kv : string * json =>
                    let (k, v) := kv in
                    match dict_get e k with
                    | Some v' => py_eq v v'
                    | None => false
                    end) d
  | _, _ =>
      match number_of a, number_of b with
      | Some x, Some y => Qeq_bool x y
      | _, _ => false
      end
  end.

(** What can be the key of a dict: lists and dicts raise [TypeError]. *)
Definition hashable (k : json) : bool :=
  match k with
  | JList _ | JDict _ => false
  | _ => true
  end.

(** A dict whose keys are JSON values, as the list of its items in
    insertion order. *)
Definition jdict : Type := list (json * json).

(** [d.get(k)]: the stored key is compared with [k]. *)
Fixpoint jdict_get (d : jdict) (k : json) : option json :=
  match d with
  | [] => None
  | (k', v) :: d' => if py_eq k' k then Some v else jdict_get d' k
  end.

(** [d[k] = v]: an equal key already there keeps its place and itself and
    takes the new value; a new key goes to the end. *)
Fixpoint jdict_set (d : jdict) (k v : json) : jdict :=
  match d with
  | [] => [(k, v)]
  | (k', v') :: d' =>
      if py_eq k' k then (k', v) :: d' else (k', v') :: jdict_set d' k v
  end.

(** [{item[field]: item for item in items}], from the dict built so far. *)
Fixpoint index_by (field : string) (items : list json) (acc : jdict)
  : res jdict :=
  match items with
  | [] => Ok acc
  | item :: rest =>
      (k <- getitem item field ;;
       if hashable k then index_by field rest (jdict_set acc k item)
       else Err TypeError)%res
  end.

(* ================================================================== *)
(** ** [format_color] and [format_vtb_info] *)

Module PyFormat.

(** The upper-case hexadecimal digits of [n >= 0], the most significant
    first, put in front of [acc]; [fuel] bounds their number. *)
Fixpoint hex_upper_aux (fuel : nat) (n : Z) (acc : string) : string :=
  match fuel with
  | O => acc
  | S fuel' =>
      let acc' := String (Urllib.upper_hex_digit (n mod 16)) acc in
      if n / 16 =? 0 then acc' else hex_upper_aux fuel' (n / 16) acc'
  end.

Definition hex_upper (n : Z) : string :=
  hex_upper_aux (S (Z.to_nat (Z.log2 n))) n "".

(** Zeros in front up to [width] characters. *)
Definition zfill (width : nat) (s : string) : string :=
  (string_of_list_ascii (repeat "0"%char (width - String.length s)) ++ s)%string.

(** [format(n, "06X")]: the sign counts in the width. *)
Definition format_06X (n : Z) : string :=
  if n <? 0 then String "-" (zfill 5 (hex_upper (- n)))
  else zfill 6 (hex_upper n).

End PyFormat.

(** [f"#{color:06X}"] for an [int]. *)
Definition format_color (color : Z) : string :=
  String "#" (PyFormat.format_06X color).

(** [format_color] on what a response holds: only [int] and [bool] have the
    format code [X]. *)
Definition format_color_of (color : json) : res string :=
  match color with
  | JInt n => Ok (format_color n)
  | JBool b => Ok (format_color (if b then 1 else 0))
  | JFloat _ | JStr _ => Err ValueError
  | _ => Err TypeError
  end.

Definition format_vtb_info (info : json) (medal_dict : jdict) : res json :=
  (name <- getitem info "uname" ;;
   uid <- getitem info "mid" ;;
   if hashable name then
     match jdict_get medal_dict name with
     | Some medal =>
         medal_info <- getitem medal "medal_info" ;;
         medal_name <- getitem medal_info "medal_name" ;;
         level <- getitem medal_info "level" ;;
         border <- getitem medal_info "medal_color_border" ;;
         color_border <- format_color_of border ;;
         start <- getitem medal_info "medal_color_start" ;;
         color_start <- format_color_of start ;;
         end_ <- getitem medal_info "medal_color_end" ;;
         color_end <- format_color_of end_ ;;
         Ok (JDict [("name", name); ("uid", uid);
                    ("medal",
                     JDict [("name", medal_name); ("level", level);
                            ("color_border", JStr color_border);
                            ("color_start", JStr color_start);
                            ("color_end", JStr color_end)])])
     | None => Ok (JDict [("name", name); ("uid", uid); ("medal", JDict [])])
     end
   else Err TypeError)%res.

(* ================================================================== *)
(** ** The matches of the report ([render_ddcheck_image], lines 292-296) *)

(** [[format_vtb_info(info, medal_dict) for info in vtbs]]. *)
Fixpoint format_all (vtbs : list json) (medal_dict : jdict)
  : res (list json) :=
  match vtbs with
  | [] => Ok []
  | info :: rest =>
      (v <- format_vtb_info info medal_dict ;;
       vs <- format_all rest medal_dict ;;
       Ok (v :: vs))%res
  end.

(** [uid in attentions]: the elements are compared with [uid] in turn. *)
Definition contains (attentions : list json) (uid : json) : bool :=
  existsb (fun x => py_eq x uid) attentions.

(** The list [vtbs] of the report. *)
Definition match_vtbs (vtb_list attentions medal_list : list json)
  : res (list json) :=
  (vtb_dict <- index_by "mid" vtb_list [] ;;
   medal_dict <- index_by "target_name" medal_list [] ;;
   let vtbs :=
     map snd (filter (fun kv : json * json => contains attentions (fst kv))
                     vtb_dict) in
   format_all vtbs medal_dict)%res.

(* ================================================================== *)
(** ** [get_uid_by_name] *)

Definition search_url : string :=
  "https://api.bilibili.com/x/web-interface/wbi/search/type".

(** [result["code"] == 0 and result["data"] and result["data"]["result"]],
    as a truth value. *)
Definition search_hit (result : json) : res bool :=
  (code <- getitem result "code" ;;
   if py_eq code (JInt 0) then
     data <- getitem result "data" ;;
     if truthy data then
       r <- getitem data "result" ;;
       Ok (truthy r)
     else Ok false
   else Ok false)%res.

(** The [for] loop: the [mid] of the first user whose [uname] equals
    [name]; [None] when the loop ends without a [return]. *)
Fixpoint find_user (users : list json) (name : string) : res (option json) :=
  match users with
  | [] => Ok None
  | user :: rest =>
      (uname <- getitem user "uname" ;;
       if py_eq uname (JStr name) then
         mid <- getitem user "mid" ;;
         Ok (Some mid)
       else find_user rest name)%res
  end.

Definition search_params (name : string) : dict param :=
  [("search_type", PStr "bili_user"); ("keyword", PStr name)].

(** The key refresh and the signature are outside the [try]. *)
Definition get_uid_by_name (name : string) : M (option json) :=
  (get_wbi_keys ;;
   params_signed <- get_wbi_sign_params (search_params name) ;;
   try_except
     (resp <- client_get search_url params_signed ;;
      raise_for_status resp ;;
      result <- resp_json resp ;;
      hit <- lift (search_hit result) ;;
      if hit : bool then
        data <- lift (getitem result "data") ;;
        r <- lift (getitem data "result") ;;
        users <- lift (iterate r) ;;
        lift (find_user users name)
      else ret None)
     (fun _ => ret None))%M.

(* ================================================================== *)
(** ** Notions the statements below use *)

(** [_cached_wbi_keys] as the module sets it when it is loaded. *)
Definition initial_cache : wbi_cache := mk_cache "" "" 0.

(** The least integer not below [a / b], for [0 < b]. *)
Definition ceil_div (a b : Z) : Z := - ((- a) / b).

(** A mirror fails: the request raises (a timeout or any other exception),
    the body is not JSON, or the result is empty. *)
Definition mirror_fails (r : res response) : Prop :=
  match r with
  | Err _ => True
  | Ok resp =>
      match body resp with
      | None => True
      | Some result => truthy result = false
      end
  end.

(** The field [k] of an item is present and true. *)
Definition field_true (d : dict json) (k : string) : bool :=
  match dict_get d k with
  | Some v => truthy v
  | None => false
  end.


(** The answer [r] to a request is a page of the follow list with the
    entries [users]: a status 2xx and a JSON body whose [data.list] is the
    list [users]. *)
Definition is_page (r : res response) (users : list json) : Prop :=
  exists resp j data,
    r = Ok resp
    /\ (200 <=? status_code resp) && (status_code resp <=? 299) = true
    /\ body resp = Some j
    /\ getitem j "data" = Ok data
    /\ getitem data "list" = Ok (JList users).

(** The entries of a page are well formed and [kept] is what the fetch
    keeps of them, in order. *)
Definition keeps (users kept : list json) : Prop :=
  Forall2 (fun user entry => attention_of user = Ok entry) users kept.

(** [r] is the request for page [page] of the follow list of [uid]. *)
Definition is_page_request (uid page : Z) (r : request) : Prop :=
  req_url r = followings_url
  /\ dict_get (req_params r) "vmid" = Some (PInt uid)
  /\ dict_get (req_params r) "pn" = Some (PInt page)
  /\ dict_get (req_params r) "ps" = Some (PInt 50).

(** The answer [r] to the request for the keys is good: a status 2xx and a
    JSON body whose [data.wbi_img] holds [img_url] and [sub_url]. *)
Definition nav_answer (r : res response) (img_url sub_url : json) : Prop :=
  exists resp j data wbi_img,
    r = Ok resp
    /\ (200 <=? status_code resp) && (status_code resp <=? 299) = true
    /\ body resp = Some j
    /\ getitem j "data" = Ok data
    /\ getitem data "wbi_img" = Ok wbi_img
    /\ getitem wbi_img "img_url" = Ok img_url
    /\ getitem wbi_img "sub_url" = Ok sub_url.

(* ================================================================== *)
(** ** Notions for the further properties *)

(** Every character of [s] passes the test [p]. *)
Fixpoint string_all (p : ascii -> bool) (s : string) : bool :=
  match s with
  | EmptyString => true
  | String c s' => p c && string_all p s'
  end.

Definition is_decimal_digit (c : ascii) : bool :=
  (48 <=? Py.ord c) && (Py.ord c <=? 57).

Definition is_lower_hex (c : ascii) : bool :=
  is_decimal_digit c || ((97 <=? Py.ord c) && (Py.ord c <=? 102)).

Definition is_upper_hex (c : ascii) : bool :=
  is_decimal_digit c || ((65 <=? Py.ord c) && (Py.ord c <=? 70)).

(** An ASCII character that [quote] never escapes. *)
Definition is_unreserved (c : ascii) : bool :=
  Urllib.always_safe (Py.ord c) && (Py.ord c <? 128).

(** The characters a quoted value is made of: the unreserved ones, [+] and
    [%]. *)
Definition url_safe (c : ascii) : bool :=
  is_unreserved c || (Py.ord c =? 43) || (Py.ord c =? 37).

(** The number a string of upper-case hexadecimal digits writes. *)
Definition upper_hex_value (c : ascii) : option Z :=
  let n := Py.ord c in
  if (48 <=? n) && (n <=? 57) then Some (n - 48)
  else if (65 <=? n) && (n <=? 70) then Some (n - 55)
  else None.

Fixpoint hex_value_from (acc : Z) (s : string) : option Z :=
  match s with
  | EmptyString => Some acc
  | String c s' =>
      match upper_hex_value c with
      | Some d => hex_value_from (16 * acc + d) s'
      | None => None
      end
  end.

Definition hex_value (s : string) : option Z :=
  match s with
  | EmptyString => None
  | _ => hex_value_from 0 s
  end.

(** A record of the registry that the report can read: a dict with a [mid]
    and a true [uname]. *)
Definition registry_record (j : json) : Prop :=
  exists d mid,
    j = JDict d /\ dict_get d "mid" = Some mid /\ field_true d "uname" = true.

(** An entry of the follow list as the fetch builds it. *)
Definition attention_entry (j : json) : Prop :=
  exists mid uname, j = JDict [("mid", mid); ("uname", uname)].

(** The request a refresh of the registry sends to a mirror. *)
Definition mirror_request (url : string) : request := mk_request url [].

(** The string [s] has no character [sep]. *)
Definition lacks (sep : ascii) (s : string) : bool :=
  string_all (fun c => negb (Ascii.eqb c sep)) s.

(** The world after the requests [reqs] have been sent. *)
Definition after_requests (w : world) (reqs : list request) : world :=
  mk_world (cached_wbi_keys w) (vtb_list_file w) (clock w) (ticks w) (net w)
           (sent w ++ reqs) (unencodable w).


(** The keys of a dict keyed by JSON values. *)
Definition jkeys (d : jdict) : list json := map fst d.

(** No two keys of the dict are equal. *)
Definition distinct_keys (d : jdict) : Prop :=
  ForallOrdPairs (fun k1 k2 => py_eq k1 k2 = false) (jkeys d).

(** The item has the value [k] in the field [field], up to [==]. *)
Definition has_key (field : string) (k : json) (item : json) : bool :=
  match getitem item field with
  | Ok t => py_eq t k
  | Err _ => false
  end.

(** The identifiers of two entries of the report differ. *)
Definition other_uid (v1 v2 : json) : Prop :=
  forall u1 u2,
    getitem v1 "uid" = Ok u1 -> getitem v2 "uid" = Ok u2 ->
    py_eq u1 u2 = false.

(** A record the report can index and format: a dict whose [mid] and
    [uname] are scalars. *)
Definition readable_record (info : json) : Prop :=
  exists d mid uname,
    info = JDict d
    /\ dict_get d "mid" = Some mid /\ hashable mid = true
    /\ dict_get d "uname" = Some uname /\ hashable uname = true.

(** An entry of an index by [field] of the list [all_items]: its value is
    an item of the list, and its key equals the field of that item, a
    scalar. *)
Definition entry_ok (field : string) (all_items : list json)
           (kv : json * json) : Prop :=
  In (snd kv) all_items
  /\ exists mid,
       getitem (snd kv) field = Ok mid
       /\ hashable mid = true
       /\ py_eq (fst kv) mid = true.

(* ================================================================== *)
(** ** Sample data for the worked examples *)

Module Sample.

Definition image_key : string := "7cd084941338484aae1ad9425b84077c".
Definition sub_key : string := "4932caff0ff746eab6f01bf08b70ac45".

Definition mixed : string :=
  "ea1db124af3c7062474693fa704ced34ba88c01a08f8459bf04a9c04db124af3".

(** The clock stands at 1702204169.5 seconds. *)
Definition clock : nat -> Q := fun _ => 3404408339 # 2.

Definition no_network : nat -> res response :=
  fun _ => Err TimeoutException.

(** No value of an answer holds a lone surrogate. *)
Definition no_surrogate : json -> bool := fun _ => false.

(** Keys fetched 169.5 seconds ago. *)
Definition fresh_world : world :=
  mk_world (mk_cache image_key sub_key (1702204000 # 1)) Absent clock 0
           no_network [] no_surrogate.

(** The answer of the navigation endpoint. *)
Definition nav_response : response :=
  mk_response 200
    (Some (JDict
       [("code", JInt 0);
        ("data", JDict
           [("isLogin", JBool true);
            ("wbi_img", JDict
               [("img_url", JStr "https://i0.hdslb.com/bfs/wbi/7cd084941338484aae1ad9425b84077c.png");
                ("sub_url", JStr "https://i0.hdslb.com/bfs/wbi/4932caff0ff746eab6f01bf08b70ac45.png")])])])).

(** The cache as the module starts with it; the first request is answered
    by [nav_response], the others time out. *)
Definition initial_world : world :=
  mk_world initial_cache Absent clock 0
           (fun k => match k with
                     | O => Ok nav_response
                     | S _ => Err TimeoutException
                     end) [] no_surrogate.

(** The same with a navigation endpoint that answers 412. *)
Definition refused_world : world :=
  mk_world (mk_cache image_key sub_key (1702200000 # 1)) Absent clock 0
           (fun _ => Ok (mk_response 412 None)) [] no_surrogate.

Definition params : dict param :=
  [("foo", PStr "114"); ("bar", PStr "514"); ("zab", PInt 1919810)].

(** An entry of a page of the follow list, with a field the fetch drops. *)
Definition user (i : nat) : json :=
  JDict [("mid", JInt (Z.of_nat i)); ("attribute", JInt 2);
         ("uname", JStr "someone")].

Definition kept (i : nat) : json :=
  JDict [("mid", JInt (Z.of_nat i)); ("uname", JStr "someone")].

Definition page (first count : nat) : response :=
  mk_response 200
    (Some (JDict [("code", JInt 0);
                  ("data", JDict [("list",
                                   JList (map user (seq first count)));
                                  ("total", JInt 53)])])).

(** Fresh keys; a full page, then a page of three entries. *)
Definition two_pages_world : world :=
  mk_world (mk_cache image_key sub_key (1702204000 # 1)) Absent clock 0
           (fun k => match k with
                     | O => Ok (page 1 50)
                     | S O => Ok (page 51 3)
                     | _ => Err TimeoutException
                     end) [] no_surrogate.

(** Fresh keys; a full page, then a request that times out. *)
Definition broken_world : world :=
  mk_world (mk_cache image_key sub_key (1702204000 # 1)) Absent clock 0
           (fun k => match k with
                     | O => Ok (page 1 50)
                     | _ => Err TimeoutException
                     end) [] no_surrogate.

(** A stored registry of one entry, and mirrors that all time out. *)
Definition stored_world : world :=
  mk_world initial_cache
           (Content (JList [JDict [("mid", JInt 349991143);
                                   ("uname", JStr "kagura_mea")]]))
           clock 0 no_network [] no_surrogate.

(** The three shapes of an item of a mirror. *)
Definition uid_item : json :=
  JDict [("uid", JStr "349991143"); ("uname", JStr "kagura_mea")].

Definition mid_item : json :=
  JDict [("mid", JInt 349991143); ("uname", JStr "kagura_mea");
         ("roomid", JInt 12235923)].

Definition both_item : json :=
  JDict [("uid", JInt 349991143); ("mid", JInt 349991143);
         ("uname", JStr "kagura_mea")].

(** An item whose [uid] starts with the separator U+001C, which [int] does
    not strip. *)
Definition separator_item : json :=
  JDict [("uid", JStr (String (Py.chr 28) "5")); ("uname", JStr "kagura_mea")].

(** The first mirror times out, the second answers with three items. *)
Definition mirror_world : world :=
  mk_world initial_cache Absent clock 0
           (fun k => match k with
                     | S O => Ok (mk_response 200
                                    (Some (JList [uid_item; mid_item;
                                                  both_item])))
                     | _ => Err TimeoutException
                     end) [] no_surrogate.

End Sample.

(* ================================================================== *)
(** ** More sample data *)

Module SignSample.

(** Parameters that already hold [wts] and [w_rid], and a value that needs
    quoting. *)
Definition params : dict param :=
  [("wts", PInt 1); ("w_rid", PStr "x"); ("keyword", PStr "a b&c")].

Definition signed : dict param :=
  [("keyword", PStr "a b&c");
   ("w_rid", PStr "990b7278146dbbf0fec8d625ad1bf89e");
   ("wts", PInt 1702204169)].

End SignSample.

Module SearchSample.

(** The answer of the search endpoint: the name sought comes second and
    third, after a name that only starts like it. *)
Definition found : response :=
  mk_response 200
    (Some (JDict
       [("code", JInt 0);
        ("data", JDict
           [("result",
             JList [JDict [("uname", JStr "kagura"); ("mid", JInt 1)];
                    JDict [("uname", JStr "kagura_mea");
                           ("mid", JInt 349991143)];
                    JDict [("uname", JStr "kagura_mea"); ("mid", JInt 2)]])])])).

(** Fresh keys; the search is answered by [found]. *)
Definition answered_world : world :=
  mk_world (mk_cache Sample.image_key Sample.sub_key (1702204000 # 1)) Absent
           Sample.clock 0 (fun _ => Ok found) [] Sample.no_surrogate.

(** Fresh keys that are too short to sign with. *)
Definition short_keys_world : world :=
  mk_world (mk_cache "abc" "def" (1702204000 # 1)) Absent
           Sample.clock 0 (fun _ => Ok found) [] Sample.no_surrogate.

End SearchSample.

Module ReportSample.

(** A registry that holds one account three times, as a refresh can leave
    it, and another account. *)
Definition vtb_list : list json :=
  [JDict [("mid", JInt 349991143); ("uname", JStr "kagura_mea")];
   Sample.mid_item;
   JDict [("mid", JInt 2); ("uname", JStr "someone")];
   Sample.both_item].

Definition attentions : list json := [JInt 5; JInt 349991143].

Definition medal (name : string) (level : Z) : json :=
  JDict [("target_name", JStr name);
         ("medal_info",
          JDict [("medal_name", JStr "mea"); ("level", JInt level);
                 ("medal_color_border", JInt 6126494);
                 ("medal_color_start", JInt 255);
                 ("medal_color_end", JInt 0)])].

Definition medal_list : list json :=
  [medal "kagura_mea" 3; medal "nobody" 9; medal "kagura_mea" 21].

Definition vtbs : list json :=
  [JDict [("name", JStr "kagura_mea"); ("uid", JInt 349991143);
          ("medal",
           JDict [("name", JStr "mea"); ("level", JInt 21);
                  ("color_border", JStr "#5D7B9E");
                  ("color_start", JStr "#0000FF");
                  ("color_end", JStr "#000000")])]].

End ReportSample.

Module PartialSample.

(** The first mirror sends a list that breaks off at its second item, the
    second mirror sends a good list. *)
Definition broken_then_good : world :=
  mk_world initial_cache Absent Sample.clock 0
           (fun k => match k with
                     | O => Ok (mk_response 200
                                  (Some (JList [Sample.mid_item; JInt 5])))
                     | _ => Ok (mk_response 200
                                  (Some (JList [Sample.uid_item])))
                     end) [] Sample.no_surrogate.

End PartialSample.

Module SurrogateSample.

(** The first mirror answers two items, and the second of them holds a lone
    surrogate. *)
Definition surrogate_world : world :=
  mk_world initial_cache Absent Sample.clock 0
           (fun _ => Ok (mk_response 200
                           (Some (JList [Sample.uid_item; Sample.mid_item]))))
           [] (fun j => py_eq j Sample.mid_item).

(** The first mirror answers an item whose [uid] is not a number for
    [int]; the other mirrors time out. *)
Definition separator_world : world :=
  mk_world initial_cache Absent Sample.clock 0
           (fun k => match k with
                     | O => Ok (mk_response 200
                                  (Some (JList [Sample.separator_item])))
                     | S _ => Err TimeoutException
                     end) [] Sample.no_surrogate.

End SurrogateSample.

(* ================================================================== *)
(** * Running computations of [M] *)

(** One step of symbolic execution: the operations of the monad and the
    primitive effects are unfolded, the fields of a built world are read. *)
Ltac run :=
  cbv beta iota zeta delta
      [bind ret raise lift try_except time_time read_cache
       client_get raise_for_status resp_json
       set_img_key set_sub_key set_last_fetch set_cache set_file
       dump_vtb_list tick];
  cbn [fst snd cached_wbi_keys vtb_list_file clock ticks net sent
       unencodable img_key sub_key last_fetch status_code body req_url
       req_params].

(* ================================================================== *)
(** * Checks of the library models against known values *)

(** Test vectors of RFC 1321 and a message of two blocks. *)
Example md5_empty :
  MD5.hexdigest [] = "d41d8cd98f00b204e9800998ecf8427e".
Proof. vm_compute. reflexivity. Qed.

Example md5_abc :
  MD5.hexdigest (Py.utf8_encode "abc") = "900150983cd24fb0d6963f7d28e17f72".
Proof. vm_compute. reflexivity. Qed.

Example md5_two_blocks :
  MD5.hexdigest (repeat 97 70) = "0f5c6c4e740bfcc08c3c26ccb2673d46".
Proof. vm_compute. reflexivity. Qed.

Example quote_plus_example :
  Urllib.quote_plus "a b~c/d+e=&_.-" = "a+b~c%2Fd%2Be%3D%26_.-".
Proof. reflexivity. Qed.

Example quote_plus_latin1 :
  Urllib.quote_plus (String (Py.chr 233) "") = "%C3%A9".
Proof. reflexivity. Qed.

Example key_of_url_example :
  key_of_url (JStr "https://i0.hdslb.com/bfs/wbi/7cd084941338484aae1ad9425b84077c.png")
  = Ok "7cd084941338484aae1ad9425b84077c".
Proof. reflexivity. Qed.

Example py_int_examples :
  py_int (JStr " -1_000 ") = Ok (-1000) /\ py_int (JStr "1__0") = Err ValueError
  /\ py_int (JFloat (-7 # 2)) = Ok (-3) /\ py_int JNull = Err TypeError.
Proof. repeat split. Qed.

(** The separators U+001C to U+001F are not white space for [int]; U+00A0
    is. *)
Example py_int_separators :
  py_int (JStr (String (Py.chr 28) "5")) = Err ValueError
  /\ py_int (JStr (String "5" (String (Py.chr 31) ""))) = Err ValueError
  /\ py_int (JStr (String (Py.chr 160) "5")) = Ok 5.
Proof. repeat split. Qed.

(** A string of 4300 digits is converted, one of 4301 digits is not,
    whatever the digits; underscores and the sign do not count. *)
Example py_int_digit_limit :
  let ones n := string_of_list_ascii (repeat "1"%char n) in
  (exists n, py_int (JStr (ones 4300%nat)) = Ok n)
  /\ py_int (JStr (ones 4301%nat)) = Err ValueError
  /\ (exists n, py_int (JStr (String "-" (ones 4300%nat))) = Ok n)
  /\ py_int (JStr (string_of_list_ascii (repeat "0"%char 4301%nat)))
     = Err ValueError.
Proof.
  cbv zeta. split; [|split; [|split]].
  - eexists. vm_compute. reflexivity.
  - vm_compute. reflexivity.
  - eexists. vm_compute. reflexivity.
  - vm_compute. reflexivity.
Qed.

(* ================================================================== *)
(** * The mixed signing secret *)

Section MixinKey.

Lemma get_in_range (s : string) :
  forall n, (n < String.length s)%nat -> exists c, String.get n s = Some c.
Proof.
  induction s as [|a s IH]; simpl; intros n Hn; [lia|].
  destruct n as [|n]; [now exists a|].
  apply IH. lia.
Qed.

Lemma index_in_range (s : string) (i : Z) :
  0 <= i < Z.of_nat (String.length s) ->
  Py.index s i = String.get (Z.to_nat i) s.
Proof.
  intros [H0 H1]. unfold Py.index.
  destruct (Z.ltb_spec i 0); [lia|].
  destruct (Z.leb_spec 0 i); [|lia].
  destruct (Z.ltb_spec i (Z.of_nat (String.length s))); [|lia].
  reflexivity.
Qed.

Lemma index_out_of_range (s : string) (i : Z) :
  Z.of_nat (String.length s) <= i -> Py.index s i = None.
Proof.
  intros H. unfold Py.index.
  destruct (Z.ltb_spec i 0); [lia|].
  destruct (Z.ltb_spec i (Z.of_nat (String.length s))); [lia|].
  now rewrite andb_false_r.
Qed.

(** The only exception of the comprehension is [IndexError]. *)
Lemma pick_chars_error (s : string) (idx : list Z) (e : exn) :
  pick_chars s idx = Err e -> e = IndexError.
Proof.
  induction idx as [|i idx IH]; simpl; [discriminate|].
  destruct (Py.index s i); [|now intros [= <-]].
  destruct (pick_chars s idx); [discriminate|].
  intros [= <-]. now apply IH.
Qed.

Lemma pick_chars_ok (s : string) (idx : list Z) :
  Forall (fun i => 0 <= i < Z.of_nat (String.length s)) idx ->
  exists r,
    pick_chars s idx = Ok r
    /\ String.length r = List.length idx
    /\ forall j, (j < List.length idx)%nat ->
                 String.get j r = Py.index s (nth j idx 0).
Proof.
  induction 1 as [|i idx Hi _ IH]; simpl.
  - exists "". repeat split. intros j Hj. lia.
  - destruct IH as (r & Hr & Hlen & Hget).
    destruct (get_in_range s (Z.to_nat i)) as [c Hc]; [lia|].
    rewrite (index_in_range s i Hi), Hc, Hr.
    exists (String c r). repeat split.
    + simpl. now rewrite Hlen.
    + intros [|j] Hj; simpl.
      * now rewrite (index_in_range s i Hi).
      * apply Hget. lia.
Qed.

Lemma pick_chars_out_of_range (s : string) (idx : list Z) (i : Z) :
  In i idx -> Z.of_nat (String.length s) <= i ->
  pick_chars s idx = Err IndexError.
Proof.
  intros Hin Hi.
  destruct (pick_chars s idx) as [r|e] eqn:E.
  - exfalso. revert r E. induction idx as [|k idx IH]; [easy|].
    simpl. intros r. destruct Hin as [->|Hin].
    + now rewrite (index_out_of_range s i Hi).
    + destruct (Py.index s k); [|discriminate].
      destruct (pick_chars s idx) as [r'|]; [|discriminate].
      intros _. now apply (IH Hin r').
  - now rewrite (pick_chars_error _ _ _ E).
Qed.

(** The 64 entries the code uses lie between 0 and 62, and 62 is one. *)
Lemma table_prefix_bounds :
  Forall (fun i => 0 <= i <= 62) (firstn 64 mixinKeyEncTab).
Proof.
  apply Forall_forall. intros i Hi.
  assert (H : forallb (fun i => (0 <=? i) && (i <=? 62))
                      (firstn 64 mixinKeyEncTab) = true) by reflexivity.
  rewrite forallb_forall in H. specialize (H i Hi).
  apply andb_true_iff in H. destruct H as [H0 H1].
  split; [now apply Z.leb_le | now apply Z.leb_le].
Qed.

Lemma table_prefix_has_62 : In 62 (firstn 64 mixinKeyEncTab).
Proof. simpl. do 55 right. now left. Qed.

(** With 63 characters or more every index used is in range. *)
Lemma get_mixin_key_ok (orig_key : string) :
  (63 <= String.length orig_key)%nat ->
  exists mixed,
    get_mixin_key orig_key = Ok mixed
    /\ String.length mixed = 64%nat
    /\ forall j, (j < 64)%nat ->
         String.get j mixed = Py.index orig_key (nth j mixinKeyEncTab 0).
Proof.
  intros Hlen. unfold get_mixin_key.
  destruct (pick_chars_ok orig_key (firstn 64 mixinKeyEncTab))
    as (r & Hr & Hl & Hget).
  - eapply Forall_impl; [|apply table_prefix_bounds].
    simpl. intros i Hi. lia.
  - exists r. split; [exact Hr|]. split; [exact Hl|].
    intros j Hj. rewrite Hget by (simpl; lia).
    rewrite nth_firstn.
    destruct (Nat.ltb_spec j 64); [reflexivity|lia].
Qed.

End MixinKey.

(** C3. When the concatenation [image_key + sub_key] has at least 63
    characters, the mixed secret is the string of 64 characters whose
    [j]-th character is the character of the concatenation at the index
    given by the [j]-th entry of the table, in table order. *)
Theorem get_mixin_key_permutes (image_key sub_key : string) :
  (63 <= String.length (image_key ++ sub_key))%nat ->
  exists mixed,
    get_mixin_key (image_key ++ sub_key) = Ok mixed
    /\ String.length mixed = 64%nat
    /\ forall j, (j < 64)%nat ->
         String.get j mixed
         = Py.index (image_key ++ sub_key) (nth j mixinKeyEncTab 0)
         /\ String.get j mixed <> None.
Proof.
  intros Hlen.
  destruct (get_mixin_key_ok (image_key ++ sub_key) Hlen)
    as (r & Hr & Hl & Hget).
  exists r. split; [exact Hr|]. split; [exact Hl|].
  intros j Hj. split; [now apply Hget|].
  destruct (get_in_range r j) as [c Hc]; [rewrite Hl; lia|].
  now rewrite Hc.
Qed.

Lemma get_mixin_key_permutes_witness :
  exists mixed,
    get_mixin_key ("7cd084941338484aae1ad9425b84077c"
                   ++ "4932caff0ff746eab6f01bf08b70ac45") = Ok mixed
    /\ String.length mixed = 64%nat
    /\ forall j, (j < 64)%nat ->
         String.get j mixed
         = Py.index ("7cd084941338484aae1ad9425b84077c"
                     ++ "4932caff0ff746eab6f01bf08b70ac45")
                    (nth j mixinKeyEncTab 0)
         /\ String.get j mixed <> None.
Proof.
  apply (get_mixin_key_permutes "7cd084941338484aae1ad9425b84077c"
                                "4932caff0ff746eab6f01bf08b70ac45").
  simpl. lia.
Defined.

(** The value of the secret for the keys of the witness. *)
Example get_mixin_key_golden :
  get_mixin_key ("7cd084941338484aae1ad9425b84077c"
                 ++ "4932caff0ff746eab6f01bf08b70ac45")
  = Ok "ea1db124af3c7062474693fa704ced34ba88c01a08f8459bf04a9c04db124af3".
Proof. reflexivity. Qed.

(* ================================================================== *)
(** * Dicts and their sorting *)

Section Dicts.

Context {A : Type}.
Implicit Types (d : dict A) (k : string) (v : A).



Lemma keys_dict_set d k v k' :
  In k' (keys (dict_set d k v)) <-> k' = k \/ In k' (keys d).
Proof.
  induction d as [|[k0 v0] d IH]; simpl.
  - split; [intros [E|[]]; now left | intros [E|[]]; now left].
  - destruct (String.eqb_spec k0 k) as [->|Hne]; simpl.
    + split; intros H; intuition congruence.
    + rewrite IH. split; intros H; intuition congruence.
Qed.

Lemma wf_dict_set d k v : wf_dict d -> wf_dict (dict_set d k v).
Proof.
  unfold wf_dict. induction d as [|[k0 v0] d IH]; simpl; intros Hd.
  - constructor; [easy|constructor].
  - inversion Hd as [|? ? Hnin Hd']; subst.
    destruct (String.eqb_spec k0 k) as [->|Hne]; simpl.
    + now constructor.
    + constructor; [|now apply IH].
      rewrite keys_dict_set. intros [E|E]; [congruence|tauto].
Qed.

Lemma dict_get_set_other d k v k' :
  k <> k' -> dict_get (dict_set d k v) k' = dict_get d k'.
Proof.
  intros Hne. induction d as [|[k0 v0] d IH]; simpl.
  - now destruct (String.eqb_spec k k').
  - destruct (String.eqb_spec k0 k) as [->|Hk]; simpl.
    + now destruct (String.eqb_spec k k').
    + now rewrite IH.
Qed.

Lemma insert_item_perm (x : string * A) d :
  Permutation (insert_item x d) (x :: d).
Proof.
  induction d as [|y d IH]; simpl; [reflexivity|].
  destruct (String.leb (fst x) (fst y)); [reflexivity|].
  rewrite IH. apply perm_swap.
Qed.

Lemma sorted_items_perm d : Permutation (sorted_items d) d.
Proof.
  induction d as [|x d IH]; simpl; [reflexivity|].
  rewrite insert_item_perm. now constructor.
Qed.







End Dicts.

(* ================================================================== *)
(** * The signature *)

(** What [get_wbi_sign_params] computes, in one equation. *)
Lemma get_wbi_sign_params_eq (params : dict param) (w : world) :
  get_wbi_sign_params params w =
  let c := cached_wbi_keys w in
  match get_mixin_key (img_key c ++ sub_key c) with
  | Err e => (Raise e, w)
  | Ok mixin_key =>
      let sorted_params :=
        sorted_items
          (dict_set params "wts" (PInt (int_of_float (clock w (ticks w))))) in
      (Return
         (dict_set sorted_params "w_rid"
            (PStr (MD5.hexdigest
                     (Py.utf8_encode
                        (query_string sorted_params ++ mixin_key))))),
       tick w)
  end.
Proof.
  unfold get_wbi_sign_params, bind, read_cache, lift.
  cbv zeta.
  destruct (get_mixin_key _); reflexivity.
Qed.

(** C10. With a cached key pair whose concatenation has 62 characters or
    fewer, as in the initial state of the cache, signing raises
    [IndexError] and returns no signed parameters; the world is as it was. *)
Theorem get_wbi_sign_params_short_keys (w : world) (params : dict param) :
  (String.length (img_key (cached_wbi_keys w) ++ sub_key (cached_wbi_keys w))
   <= 62)%nat ->
  get_wbi_sign_params params w = (Raise IndexError, w).
Proof.
  intros Hlen. rewrite get_wbi_sign_params_eq. cbv zeta.
  unfold get_mixin_key.
  rewrite (pick_chars_out_of_range _ _ 62 table_prefix_has_62); [reflexivity|].
  lia.
Qed.

Lemma get_wbi_sign_params_short_keys_witness :
  let w := mk_world initial_cache Absent (fun _ => 1702204169 # 1) 0
                    (fun _ => Err TimeoutException) []
                    Sample.no_surrogate in
  get_wbi_sign_params [("keyword", PStr "name")] w = (Raise IndexError, w).
Proof.
  intros w.
  apply (get_wbi_sign_params_short_keys w [("keyword", PStr "name")]).
  simpl. lia.
Defined.



(** The signed parameters of the sample, as Python computes them. *)
Example get_wbi_sign_params_golden :
  fst (get_wbi_sign_params Sample.params Sample.fresh_world)
  = Return [("bar", PStr "514"); ("foo", PStr "114");
            ("wts", PInt 1702204169); ("zab", PInt 1919810);
            ("w_rid", PStr "9766f99e9eb6b07bb560f1c19c7ebae8")].
Proof. vm_compute. reflexivity. Qed.


(* ================================================================== *)
(** * The key cache *)

Lemma Qltb_true (a b : Q) : Qltb a b = true <-> (a < b)%Q.
Proof.
  unfold Qltb. rewrite negb_true_iff. split.
  - intros H. apply Qnot_le_lt. intros Hle.
    apply Qle_bool_iff in Hle. congruence.
  - intros H. destruct (Qle_bool b a) eqn:E; [|reflexivity].
    apply Qle_bool_iff in E. exfalso. now apply (Qlt_not_le _ _ H).
Qed.

Lemma Qltb_false (a b : Q) : Qltb a b = false <-> (b <= a)%Q.
Proof.
  unfold Qltb. rewrite negb_false_iff. apply Qle_bool_iff.
Qed.

(** A good answer has one pair of urls. *)
Lemma nav_answer_fun (r : res response) (iu su iu' su' : json) :
  nav_answer r iu su -> nav_answer r iu' su' -> iu = iu' /\ su = su'.
Proof.
  intros (resp & j & data & wbi & -> & _ & Hb & Hd & Hw & Hi & Hs)
         (resp' & j' & data' & wbi' & [= <-] & _ & Hb' & Hd' & Hw' & Hi' & Hs').
  split; congruence.
Qed.

(** A refresh of a stale cache, with the whole world after it: either the
    answer is good, its urls give the keys and the cache takes them with
    the time read at the start, or the call raises and the cache is as it
    was. *)
Lemma get_wbi_keys_stale (w : world) :
  let now := clock w (ticks w) in
  let c := cached_wbi_keys w in
  let answer := net w (List.length (sent w)) in
  let after c' :=
    mk_world c' (vtb_list_file w) (clock w) (S (ticks w)) (net w)
             (sent w ++ [mk_request wbi_url []]) (unencodable w) in
  Qltb (now - last_fetch c) 1800 = false ->
  (exists iu su i s,
      nav_answer answer iu su
      /\ key_of_url iu = Ok i /\ key_of_url su = Ok s
      /\ get_wbi_keys w = (Return (i, s), after (mk_cache i s now)))
  \/ (exists e,
        get_wbi_keys w = (Raise e, after c)
        /\ (forall iu su i s,
              nav_answer answer iu su ->
              key_of_url iu = Ok i -> key_of_url su = Ok s -> False)
        /\ (forall e', answer = Err e' -> e = e')
        /\ (forall resp,
              answer = Ok resp ->
              (200 <=? status_code resp) && (status_code resp <=? 299) = false ->
              e = HTTPStatusError (status_code resp))).
Proof.
  cbv zeta. intros Hage.
  assert (Hbad : forall (e : exn),
             (forall iu su i s,
                 nav_answer (net w (List.length (sent w))) iu su ->
                 key_of_url iu = Ok i -> key_of_url su = Ok s -> False) ->
             (forall e', net w (List.length (sent w)) = Err e' -> e = e') ->
             (forall resp,
                 net w (List.length (sent w)) = Ok resp ->
                 (200 <=? status_code resp) && (status_code resp <=? 299)
                 = false ->
                 e = HTTPStatusError (status_code resp)) ->
             forall x,
               x = (Raise e,
                    mk_world (cached_wbi_keys w) (vtb_list_file w) (clock w)
                             (S (ticks w)) (net w)
                             (sent w ++ [mk_request wbi_url []])
                             (unencodable w)) ->
               (exists iu su i s,
                   nav_answer (net w (List.length (sent w))) iu su
                   /\ key_of_url iu = Ok i /\ key_of_url su = Ok s
                   /\ x = (Return (i, s),
                           mk_world (mk_cache i s (clock w (ticks w)))
                                    (vtb_list_file w) (clock w) (S (ticks w))
                                    (net w)
                                    (sent w ++ [mk_request wbi_url []])
                                    (unencodable w)))
               \/ (exists e0,
                     x = (Raise e0,
                          mk_world (cached_wbi_keys w) (vtb_list_file w)
                                   (clock w) (S (ticks w)) (net w)
                                   (sent w ++ [mk_request wbi_url []])
                                   (unencodable w))
                     /\ (forall iu su i s,
                           nav_answer (net w (List.length (sent w))) iu su ->
                           key_of_url iu = Ok i -> key_of_url su = Ok s ->
                           False)
                     /\ (forall e', net w (List.length (sent w)) = Err e' ->
                                    e0 = e')
                     /\ (forall resp,
                           net w (List.length (sent w)) = Ok resp ->
                           (200 <=? status_code resp)
                           && (status_code resp <=? 299) = false ->
                           e0 = HTTPStatusError (status_code resp)))).
  { intros e H1 H2 H3 x ->. right. exists e. now repeat split. }
  unfold get_wbi_keys. run. rewrite Hage. run.
  destruct (net w (List.length (sent w))) as [resp|e] eqn:Enet; run.
  2:{ apply (Hbad e); try reflexivity.
      - intros iu su i s (resp' & ? & ? & ? & Hr & _). discriminate Hr.
      - now intros e' [= ->].
      - discriminate. }
  destruct ((200 <=? status_code resp) && (status_code resp <=? 299))
    eqn:Est; run.
  2:{ apply (Hbad (HTTPStatusError (status_code resp))); try reflexivity.
      - intros iu su i s (resp' & ? & ? & ? & [= <-] & Hs & _). congruence.
      - discriminate.
      - now intros resp' [= <-]. }
  destruct (body resp) as [j|] eqn:Eb; run.
  2:{ apply (Hbad JSONDecodeError); try reflexivity.
      - intros iu su i s (resp' & ? & ? & ? & [= <-] & _ & Hb & _). congruence.
      - discriminate.
      - intros resp' [= <-]. congruence. }
  destruct (getitem j "data") as [data|e] eqn:Ed; run.
  2:{ apply (Hbad e); try reflexivity.
      - intros iu su i s (resp' & ? & ? & ? & [= <-] & _ & Hb & Hd & _).
        congruence.
      - discriminate.
      - intros resp' [= <-]. congruence. }
  destruct (getitem data "wbi_img") as [wbi_img|e] eqn:Ew; run.
  2:{ apply (Hbad e); try reflexivity.
      - intros iu su i s
               (resp' & ? & ? & ? & [= <-] & _ & Hb & Hd & Hw & _).
        congruence.
      - discriminate.
      - intros resp' [= <-]. congruence. }
  destruct (getitem wbi_img "img_url") as [iu|e] eqn:Ei; run.
  2:{ apply (Hbad e); try reflexivity.
      - intros iu su i s
               (resp' & ? & ? & ? & [= <-] & _ & Hb & Hd & Hw & Hi & _).
        congruence.
      - discriminate.
      - intros resp' [= <-]. congruence. }
  destruct (getitem wbi_img "sub_url") as [su|e] eqn:Es; run.
  2:{ apply (Hbad e); try reflexivity.
      - intros iu' su i s
               (resp' & ? & ? & ? & [= <-] & _ & Hb & Hd & Hw & Hi & Hs).
        congruence.
      - discriminate.
      - intros resp' [= <-]. congruence. }
  assert (Hnav : nav_answer (Ok resp) iu su).
  { now exists resp, j, data, wbi_img. }
  destruct (key_of_url iu) as [ik|e] eqn:Eik; run.
  2:{ apply (Hbad e); try reflexivity.
      - intros iu' su' i s Hnav' Hi' Hs'.
        destruct (nav_answer_fun _ _ _ _ _ Hnav Hnav') as [<- <-]. congruence.
      - discriminate.
      - intros resp' [= <-]. congruence. }
  destruct (key_of_url su) as [sk|e] eqn:Esk; run.
  2:{ apply (Hbad e); try reflexivity.
      - intros iu' su' i s Hnav' Hi' Hs'.
        destruct (nav_answer_fun _ _ _ _ _ Hnav Hnav') as [<- <-]. congruence.
      - discriminate.
      - intros resp' [= <-]. congruence. }
  left. exists iu, su, ik, sk. now repeat split.
Qed.

(** C6. While the age of the cached pair is below 1800 seconds the call
    returns the cached pair, issues no request and leaves the cache as it
    is.  From 1800 seconds on it issues exactly one request, to the
    navigation endpoint.  When the answer is good, the call returns the
    keys that the two urls of the answer give, and the cache holds that pair
    together with the time read at the start of the call; the call returns
    in no other case.  Otherwise it raises and the cache is as it was: an
    exception of the request is the exception of the call, and a status
    outside 2xx raises [HTTPStatusError]. *)
Theorem get_wbi_keys_ttl (w : world) :
  let now := clock w (ticks w) in
  let c := cached_wbi_keys w in
  let answer := net w (List.length (sent w)) in
  let r := fst (get_wbi_keys w) in
  let w' := snd (get_wbi_keys w) in
  ((now - last_fetch c < 1800)%Q ->
   r = Return (img_key c, sub_key c)
   /\ sent w' = sent w
   /\ cached_wbi_keys w' = c)
  /\ ((1800 <= now - last_fetch c)%Q ->
      sent w' = sent w ++ [mk_request wbi_url []]
      /\ (forall img_url sub_url i s,
            nav_answer answer img_url sub_url ->
            key_of_url img_url = Ok i -> key_of_url sub_url = Ok s ->
            r = Return (i, s) /\ cached_wbi_keys w' = mk_cache i s now)
      /\ (forall i s,
            r = Return (i, s) ->
            cached_wbi_keys w' = mk_cache i s now
            /\ exists img_url sub_url,
                 nav_answer answer img_url sub_url
                 /\ key_of_url img_url = Ok i /\ key_of_url sub_url = Ok s)
      /\ (forall e, r = Raise e -> cached_wbi_keys w' = c)
      /\ r <> OutOfFuel
      /\ (forall e, answer = Err e -> r = Raise e)
      /\ (forall resp,
            answer = Ok resp ->
            (200 <=? status_code resp) && (status_code resp <=? 299) = false ->
            r = Raise (HTTPStatusError (status_code resp)))).
Proof.
  cbv zeta. split.
  - intros Hage. apply Qltb_true in Hage.
    unfold get_wbi_keys. run. rewrite Hage. run. auto.
  - intros Hage. apply Qltb_false in Hage.
    destruct (get_wbi_keys_stale w Hage)
      as [(iu & su & i & s & Hnav & Hi & Hs & E)
         |(e & E & Hno & Herr & Hst)];
      rewrite E; cbn [fst snd sent cached_wbi_keys].
    + split; [reflexivity|]. split.
      { intros iu' su' i' s' Hnav' Hi' Hs'.
        destruct (nav_answer_fun _ _ _ _ _ Hnav Hnav') as [<- <-].
        split; congruence. }
      split.
      { intros i' s' [= <- <-]. split; [reflexivity|]. now exists iu, su. }
      split; [discriminate|]. split; [discriminate|].
      destruct Hnav as (resp & j & data & wbi & Hr & Hok & _).
      split.
      * intros e He. congruence.
      * intros resp' Hr' Hbad. congruence.
    + split; [reflexivity|]. split.
      { intros iu su i s Hnav Hi Hs. destruct (Hno iu su i s Hnav Hi Hs). }
      split; [discriminate|]. split; [reflexivity|]. split; [discriminate|].
      split.
      * intros e' He. now rewrite (Herr e' He).
      * intros resp Hr Hbad. now rewrite (Hst resp Hr Hbad).
Qed.

Lemma get_wbi_keys_ttl_witness :
  (fst (get_wbi_keys Sample.fresh_world)
   = Return (Sample.image_key, Sample.sub_key)
   /\ sent (snd (get_wbi_keys Sample.fresh_world)) = []
   /\ cached_wbi_keys (snd (get_wbi_keys Sample.fresh_world))
      = cached_wbi_keys Sample.fresh_world)
  /\ (fst (get_wbi_keys Sample.initial_world)
      = Return (Sample.image_key, Sample.sub_key)
      /\ cached_wbi_keys (snd (get_wbi_keys Sample.initial_world))
         = mk_cache Sample.image_key Sample.sub_key (Sample.clock 0%nat))
  /\ fst (get_wbi_keys Sample.refused_world) = Raise (HTTPStatusError 412)
  /\ cached_wbi_keys (snd (get_wbi_keys Sample.refused_world))
     = cached_wbi_keys Sample.refused_world.
Proof.
  split; [|split; [|split]].
  - apply (proj1 (get_wbi_keys_ttl Sample.fresh_world)). reflexivity.
  - assert (Hstale : (1800 <= clock Sample.initial_world
                                 (ticks Sample.initial_world)
                              - last_fetch (cached_wbi_keys
                                              Sample.initial_world))%Q).
    { unfold Qle. simpl. lia. }
    destruct (proj2 (get_wbi_keys_ttl Sample.initial_world) Hstale)
      as (_ & H & _).
    apply (H (JStr "https://i0.hdslb.com/bfs/wbi/7cd084941338484aae1ad9425b84077c.png")
             (JStr "https://i0.hdslb.com/bfs/wbi/4932caff0ff746eab6f01bf08b70ac45.png")).
    + do 4 eexists. repeat split; reflexivity.
    + reflexivity.
    + reflexivity.
  - assert (Hstale : (1800 <= clock Sample.refused_world
                                 (ticks Sample.refused_world)
                              - last_fetch (cached_wbi_keys
                                              Sample.refused_world))%Q).
    { unfold Qle. simpl. lia. }
    destruct (proj2 (get_wbi_keys_ttl Sample.refused_world) Hstale)
      as (_ & _ & _ & _ & _ & _ & H).
    apply (H (mk_response 412 None)); reflexivity.
  - assert (Hstale : (1800 <= clock Sample.refused_world
                                 (ticks Sample.refused_world)
                              - last_fetch (cached_wbi_keys
                                              Sample.refused_world))%Q).
    { unfold Qle. simpl. lia. }
    destruct (proj2 (get_wbi_keys_ttl Sample.refused_world) Hstale)
      as (_ & _ & _ & H & _).
    apply (H (HTTPStatusError 412)). reflexivity.
Defined.

(** The refresh from the initial cache takes the file stems of both urls. *)
Example get_wbi_keys_refresh :
  get_wbi_keys Sample.initial_world
  = (Return (Sample.image_key, Sample.sub_key),
     mk_world (mk_cache Sample.image_key Sample.sub_key (Sample.clock 0%nat))
              Absent Sample.clock 1 (net Sample.initial_world)
              [mk_request wbi_url []] Sample.no_surrogate).
Proof. reflexivity. Qed.

(** A refused refresh raises and keeps the stale pair. *)
Example get_wbi_keys_refused :
  fst (get_wbi_keys Sample.refused_world) = Raise (HTTPStatusError 412)
  /\ cached_wbi_keys (snd (get_wbi_keys Sample.refused_world))
     = cached_wbi_keys Sample.refused_world.
Proof. split; reflexivity. Qed.

(* ================================================================== *)
(** * The numbers of the report *)

Lemma ceil_div_spec (a b : Z) :
  0 < b -> b * (ceil_div a b - 1) < a <= b * ceil_div a b.
Proof.
  intros Hb. unfold ceil_div.
  pose proof (Z.div_mod (- a) b ltac:(lia)) as Hdm.
  pose proof (Z.mod_pos_bound (- a) b Hb) as Hm.
  nia.
Qed.

Lemma Qceiling_truediv (a b : Z) :
  Qceiling (inject_Z a / inject_Z b) = ceil_div a b.
Proof.
  unfold Qceiling, ceil_div. f_equal.
  rewrite Zdiv_Qdiv. apply Qfloor_comp.
  rewrite inject_Z_opp. unfold Qdiv. ring.
Qed.

(** C8. The percentage is the quotient of the two counts times 100 when
    the number of follows is not zero, and 0 when it is zero; the division
    is never reached with a zero divisor, so the computation does not raise
    [ZeroDivisionError].  The quotient is the exact rational one. *)
Theorem percent_guarded (vtbs_num follows_num : Z) :
  (follows_num <> 0 ->
   percent vtbs_num follows_num
   = Ok (inject_Z vtbs_num / inject_Z follows_num * 100)%Q)
  /\ (follows_num = 0 -> percent vtbs_num follows_num = Ok 0%Q)
  /\ (forall e, percent vtbs_num follows_num <> Err e).
Proof.
  unfold percent, truediv.
  destruct (Z.eqb_spec follows_num 0) as [E|E]; simpl.
  - repeat split; [contradiction | discriminate].
  - repeat split; [contradiction | discriminate].
Qed.

Lemma percent_guarded_witness :
  percent 3 7 = Ok (inject_Z 3 / inject_Z 7 * 100)%Q
  /\ percent 3 0 = Ok 0%Q.
Proof.
  split.
  - apply (proj1 (percent_guarded 3 7)). discriminate.
  - apply (proj1 (proj2 (percent_guarded 3 0))). reflexivity.
Defined.

(** C9. For a positive number [m] of matches the number of rows per column
    is the ceiling of [m] over the ceiling of [m / 100]; for no match it
    is 1. *)
Theorem num_per_col_formula (vtbs_num : Z) :
  0 <= vtbs_num ->
  num_per_col vtbs_num
  = Ok (if vtbs_num =? 0 then 1
        else ceil_div vtbs_num (ceil_div vtbs_num 100)).
Proof.
  intros Hm. unfold num_per_col.
  destruct (Z.eqb_spec vtbs_num 0) as [E|E]; simpl; [reflexivity|].
  unfold truediv at 1. simpl. rewrite Qceiling_truediv.
  pose proof (ceil_div_spec vtbs_num 100 ltac:(lia)) as Hc.
  unfold truediv.
  destruct (Z.eqb_spec (ceil_div vtbs_num 100) 0) as [E0|E0]; [lia|].
  simpl. now rewrite Qceiling_truediv.
Qed.

Lemma num_per_col_formula_witness :
  num_per_col 250 = Ok 84 /\ num_per_col 0 = Ok 1.
Proof.
  split.
  - apply (num_per_col_formula 250). lia.
  - apply (num_per_col_formula 0). lia.
Defined.

(** No column has more than 100 rows. *)
Lemma num_per_col_bound (vtbs_num : Z) :
  0 <= vtbs_num ->
  exists n, num_per_col vtbs_num = Ok n /\ 1 <= n <= 100.
Proof.
  intros Hm. unfold num_per_col.
  destruct (Z.eqb_spec vtbs_num 0) as [E|E]; simpl.
  - exists 1. split; [reflexivity|lia].
  - unfold truediv at 1. simpl. rewrite Qceiling_truediv.
    pose proof (ceil_div_spec vtbs_num 100 ltac:(lia)) as Hc.
    unfold truediv.
    destruct (Z.eqb_spec (ceil_div vtbs_num 100) 0) as [E0|E0]; [lia|].
    simpl. rewrite Qceiling_truediv.
    eexists. split; [reflexivity|].
    pose proof (ceil_div_spec vtbs_num (ceil_div vtbs_num 100) ltac:(lia)).
    nia.
Qed.

(* ================================================================== *)
(** * The registry *)

(** The world after a request with no parameters to [url]. *)
Lemma client_get_sent (url : string) (params : dict param) (w : world) :
  sent (snd (client_get url params w)) = sent w ++ [mk_request url params]
  /\ net (snd (client_get url params w)) = net w
  /\ vtb_list_file (snd (client_get url params w)) = vtb_list_file w
  /\ cached_wbi_keys (snd (client_get url params w)) = cached_wbi_keys w.
Proof.
  unfold client_get. destruct (net w (List.length (sent w))); repeat split.
Qed.

(** A mirror that fails leaves [vtb_list] as it is and the loop goes on. *)
Lemma try_mirror_fails (url : string) (vtb_list : list json) (w : world) :
  mirror_fails (net w (List.length (sent w))) ->
  try_mirror url vtb_list w
  = (Return (vtb_list, Next), snd (client_get url [] w)).
Proof.
  unfold mirror_fails, try_mirror. run.
  destruct (net w (List.length (sent w))) as [resp|e]; run; [|reflexivity].
  destruct (body resp) as [result|]; run; [|reflexivity].
  now intros ->.
Qed.

Lemma for_urls_cons (url : string) (us : list string) (vtb_list : list json)
      (w : world) :
  for_urls (url :: us) vtb_list w =
  match try_mirror url vtb_list w with
  | (Return (l, Break), w') => (Return l, w')
  | (Return (l, Next), w') => for_urls us l w'
  | (Raise e, w') => (Raise e, w')
  | (OutOfFuel, w') => (OutOfFuel, w')
  end.
Proof.
  simpl. unfold bind.
  destruct (try_mirror url vtb_list w) as [[[l []]| |] w']; reflexivity.
Qed.

Lemma for_urls_all_fail (us : list string) :
  forall (vtb_list : list json) (w : world),
    (forall k, (k < List.length us)%nat ->
               mirror_fails (net w (List.length (sent w) + k))) ->
    fst (for_urls us vtb_list w) = Return vtb_list
    /\ sent (snd (for_urls us vtb_list w))
       = sent w ++ map (fun u => mk_request u []) us
    /\ cached_wbi_keys (snd (for_urls us vtb_list w)) = cached_wbi_keys w.
Proof.
  induction us as [|url us IH]; intros vtb_list w Hfail.
  - simpl. now rewrite app_nil_r.
  - rewrite for_urls_cons, try_mirror_fails.
    2:{ specialize (Hfail 0%nat ltac:(simpl; lia)).
        now rewrite Nat.add_0_r in Hfail. }
    destruct (client_get_sent url [] w) as (Hs & Hn & _ & Hc).
    destruct (IH vtb_list (snd (client_get url [] w))) as (H1 & H2 & H3).
    { intros k Hk. rewrite Hs, Hn, length_app. simpl.
      replace (List.length (sent w) + 1 + k)%nat
        with (List.length (sent w) + S k)%nat by lia.
      apply Hfail. simpl. lia. }
    split; [exact H1|]. split.
    + rewrite H2, Hs, <- app_assoc. reflexivity.
    + now rewrite H3.
Qed.

(** C1, amended. When each of the four mirrors fails, by a request that
    raises, by a body that is not JSON or by an empty result, the refresh
    writes the empty list to the registry file, whatever the file held
    before; the four mirrors have been asked in order. *)
Theorem update_vtb_list_total_failure (w : world) :
  (forall k, (k < 4)%nat ->
             mirror_fails (net w (List.length (sent w) + k))) ->
  fst (update_vtb_list w) = Return tt
  /\ vtb_list_file (snd (update_vtb_list w)) = Content (JList [])
  /\ sent (snd (update_vtb_list w))
     = sent w ++ map (fun u => mk_request u []) urls.
Proof.
  intros Hfail.
  destruct (for_urls_all_fail urls [] w Hfail) as (H1 & H2 & _).
  unfold update_vtb_list, bind.
  destruct (for_urls urls [] w) as [r w1]. simpl in H1, H2. subst r.
  run. repeat split. exact H2.
Qed.

Lemma update_vtb_list_total_failure_witness :
  fst (update_vtb_list Sample.stored_world) = Return tt
  /\ vtb_list_file (snd (update_vtb_list Sample.stored_world))
     = Content (JList [])
  /\ sent (snd (update_vtb_list Sample.stored_world))
     = sent Sample.stored_world ++ map (fun u => mk_request u []) urls.
Proof.
  apply (update_vtb_list_total_failure Sample.stored_world).
  intros k _. exact I.
Defined.

(** C1 as stated fails: a registry of one entry is replaced by the empty
    list when the four mirrors time out. *)
Lemma update_vtb_list_wipes_registry :
  vtb_list_file Sample.stored_world
  = Content (JList [JDict [("mid", JInt 349991143);
                           ("uname", JStr "kagura_mea")]])
  /\ (forall k, net Sample.stored_world k = Err TimeoutException)
  /\ vtb_list_file (snd (update_vtb_list Sample.stored_world))
     = Content (JList [])
  /\ vtb_list_file (snd (update_vtb_list Sample.stored_world))
     <> vtb_list_file Sample.stored_world.
Proof.
  repeat split. discriminate.
Qed.

(** After such a refresh the registry loads as the empty list. *)
Example load_after_total_failure :
  fst (load_vtb_list (snd (update_vtb_list Sample.stored_world)))
  = Return (JList []).
Proof. reflexivity. Qed.

Lemma has_both_dict (d : dict json) (a b : string) :
  has_both (JDict d) a b = Ok (field_true d a && field_true d b).
Proof.
  unfold has_both, field_true, get_or_none, res_bind.
  destruct (dict_get d a) as [x|]; [|reflexivity].
  destruct (truthy x); [|reflexivity].
  destruct (dict_get d b) as [y|]; reflexivity.
Qed.

(** C7, amended. An item that has a true [uid] and a true [uname] and no
    true [mid] adds exactly one record, [{mid: int(uid), uname: uname}],
    when [int(uid)] returns.  An item that has a true [mid] and a true
    [uname] and no true [uid] adds exactly one record, the item itself with
    all its fields and its [mid] as it came.  An item with a true [uid] and
    a true [uname] whose [int(uid)] raises adds nothing, and the exception
    is that of the loop body. *)
Theorem add_info_one_shape (d : dict json) (vtb_list : list json) :
  field_true d "uname" = true ->
  (forall uid uname n,
      field_true d "uid" = true -> field_true d "mid" = false ->
      dict_get d "uid" = Some uid -> dict_get d "uname" = Some uname ->
      py_int uid = Ok n ->
      add_info (JDict d) vtb_list
      = (vtb_list ++ [JDict [("mid", JInt n); ("uname", uname)]], None))
  /\ (field_true d "mid" = true -> field_true d "uid" = false ->
      add_info (JDict d) vtb_list = (vtb_list ++ [JDict d], None))
  /\ (forall uid e,
        field_true d "uid" = true ->
        dict_get d "uid" = Some uid ->
        py_int uid = Err e ->
        add_info (JDict d) vtb_list = (vtb_list, Some e)).
Proof.
  intros Hname. split; [|split].
  - intros uid uname n Huid Hmid Eu En Hint.
    unfold add_info, add_uid_shape, add_mid_shape.
    rewrite !has_both_dict, Huid, Hname, Hmid. simpl.
    rewrite Eu. simpl. rewrite Hint. simpl. rewrite En. reflexivity.
  - intros Hmid Huid.
    unfold add_info, add_uid_shape, add_mid_shape.
    rewrite !has_both_dict, Huid, Hname, Hmid. reflexivity.
  - intros uid e Huid Eu Hint.
    unfold add_info, add_uid_shape.
    rewrite has_both_dict, Huid, Hname. simpl.
    rewrite Eu. simpl. rewrite Hint. reflexivity.
Qed.

Lemma add_info_one_shape_witness :
  add_info Sample.uid_item []
  = ([] ++ [JDict [("mid", JInt 349991143); ("uname", JStr "kagura_mea")]],
     None)
  /\ add_info Sample.mid_item [] = ([] ++ [Sample.mid_item], None)
  /\ add_info Sample.separator_item [Sample.mid_item]
     = ([Sample.mid_item], Some ValueError).
Proof.
  split; [|split].
  - apply (proj1 (add_info_one_shape
                    [("uid", JStr "349991143"); ("uname", JStr "kagura_mea")]
                    [] eq_refl)
             (JStr "349991143") (JStr "kagura_mea") 349991143);
      reflexivity.
  - apply (proj1 (proj2 (add_info_one_shape
                    [("mid", JInt 349991143); ("uname", JStr "kagura_mea");
                     ("roomid", JInt 12235923)]
                    [] eq_refl)));
      reflexivity.
  - apply (proj2 (proj2 (add_info_one_shape
                    [("uid", JStr (String (Py.chr 28) "5"));
                     ("uname", JStr "kagura_mea")]
                    [Sample.mid_item] eq_refl))
             (JStr (String (Py.chr 28) "5")) ValueError);
      reflexivity.
Defined.

(** C7 as stated fails: of the three items the second mirror sends, the
    one in the [mid] shape is stored with its third field, and the one that
    has both [uid] and [mid] is stored twice; three items give four
    records. *)
Lemma update_vtb_list_not_normalized :
  net Sample.mirror_world 1
  = Ok (mk_response 200
          (Some (JList [Sample.uid_item; Sample.mid_item; Sample.both_item])))
  /\ vtb_list_file (snd (update_vtb_list Sample.mirror_world))
     = Content
         (JList
            [JDict [("mid", JInt 349991143); ("uname", JStr "kagura_mea")];
             JDict [("mid", JInt 349991143); ("uname", JStr "kagura_mea");
                    ("roomid", JInt 12235923)];
             JDict [("mid", JInt 349991143); ("uname", JStr "kagura_mea")];
             JDict [("uid", JInt 349991143); ("mid", JInt 349991143);
                    ("uname", JStr "kagura_mea")]]).
Proof. split; reflexivity. Qed.

(** An item with neither shape adds nothing; one that is not a dict stops
    the mirror, and what was appended before it stays. *)
Example add_info_other_items :
  add_info (JDict [("uname", JStr "kagura_mea")]) [] = ([], None)
  /\ add_infos [Sample.mid_item; JInt 5] []
     = ([Sample.mid_item], Some AttributeError).
Proof. split; reflexivity. Qed.

(** A mirror whose list breaks off at a bad item counts as failed and the
    next one is tried, but the records appended before the bad item are
    still in [vtb_list] when it is written. *)
Example update_vtb_list_partial :
  let w :=
    mk_world initial_cache Absent Sample.clock 0
      (fun k => match k with
                | O => Ok (mk_response 200
                             (Some (JList [Sample.mid_item; JInt 5])))
                | S _ => Err TimeoutException
                end) [] Sample.no_surrogate in
  vtb_list_file (snd (update_vtb_list w)) = Content (JList [Sample.mid_item])
  /\ List.length (sent (snd (update_vtb_list w))) = 4%nat.
Proof. split; reflexivity. Qed.

(** The first mirror that answers ends the loop: in the sample the second
    mirror answers and the last two are not asked. *)
Example update_vtb_list_first_success :
  sent (snd (update_vtb_list Sample.mirror_world))
  = [mk_request "https://api.vtbs.moe/v1/short" [];
     mk_request "https://cfapi.vtbs.moe/v1/short" []].
Proof. reflexivity. Qed.

(* ================================================================== *)
(** * The paginated fetch *)

(** The signed parameters of a page request. *)
Lemma sign_page_params (w : world) (uid page : Z) :
  (63 <= String.length (img_key (cached_wbi_keys w)
                        ++ sub_key (cached_wbi_keys w)))%nat ->
  exists wts digest,
    get_wbi_sign_params (page_params uid page) w
    = (Return [("jsonp", PStr "jsonp"); ("order", PStr "desc");
               ("pn", PInt page); ("ps", PInt page_size);
               ("vmid", PInt uid); ("wts", PInt wts);
               ("w_rid", PStr digest)],
       tick w).
Proof.
  intros Hlen.
  destruct (get_mixin_key_ok _ Hlen) as (mixed & Hmixed & _).
  rewrite get_wbi_sign_params_eq. cbv zeta. rewrite Hmixed.
  eexists. eexists. reflexivity.
Qed.

Lemma append_users_keeps (users kept : list json) :
  keeps users kept ->
  forall attentions_data,
    append_users users attentions_data = Ok (attentions_data ++ kept).
Proof.
  induction 1 as [|user entry users kept Hentry _ IH]; intros acc; simpl.
  - now rewrite app_nil_r.
  - rewrite Hentry. simpl. rewrite IH, <- app_assoc. reflexivity.
Qed.

Lemma keeps_length (users kept : list json) :
  keeps users kept -> List.length kept = List.length users.
Proof. induction 1; simpl; congruence. Qed.

(** One turn of the loop on a page that is answered and well formed: the
    request is issued and the entries are appended; the loop goes on to the
    next page when the page has 50 entries or more, and returns otherwise. *)
Lemma fetch_pages_turn (fuel : nat) (uid page : Z) (acc users kept : list json)
      (w : world) :
  (63 <= String.length (img_key (cached_wbi_keys w)
                        ++ sub_key (cached_wbi_keys w)))%nat ->
  is_page (net w (List.length (sent w))) users ->
  keeps users kept ->
  exists r w1,
    is_page_request uid page r
    /\ sent w1 = sent w ++ [r]
    /\ net w1 = net w
    /\ cached_wbi_keys w1 = cached_wbi_keys w
    /\ fetch_pages (S fuel) uid page acc w
       = if Z.of_nat (List.length users) <? page_size
         then (Return (acc ++ kept), w1)
         else fetch_pages fuel uid (page + 1) (acc ++ kept) w1.
Proof.
  intros Hlen (resp & j & data & Hnet & Hst & Hbody & Hdata & Hlist) Hkeep.
  destruct (sign_page_params w uid page Hlen) as (wts & digest & Hsign).
  set (signed := [("jsonp", PStr "jsonp"); ("order", PStr "desc");
                  ("pn", PInt page); ("ps", PInt page_size);
                  ("vmid", PInt uid); ("wts", PInt wts);
                  ("w_rid", PStr digest)]) in *.
  exists (mk_request followings_url signed).
  exists (mk_world (cached_wbi_keys w) (vtb_list_file w) (clock w)
                   (S (ticks w)) (net w)
                   (sent w ++ [mk_request followings_url signed])
                   (unencodable w)).
  split; [repeat split|]. repeat (split; [reflexivity|]).
  cbn [fetch_pages]. unfold bind at 1. rewrite Hsign. run.
  rewrite Hnet. run. rewrite Hst. run. rewrite Hbody. run.
  rewrite Hdata. run. rewrite Hlist. run.
  destruct users as [|user users].
  - inversion Hkeep; subst. cbn. now rewrite app_nil_r.
  - cbn [truthy iterate lift len]. run.
    rewrite (append_users_keeps _ _ Hkeep). run.
    destruct (Z.of_nat (List.length (user :: users)) <? page_size);
      reflexivity.
Qed.

(** The loop over full pages followed by a short one. *)
Lemma fetch_pages_run (uid : Z) (full kept_full : list (list json))
      (last kept_last : list json) :
  Forall (fun users => List.length users = 50%nat) full ->
  (List.length last < 50)%nat ->
  Forall2 keeps full kept_full ->
  keeps last kept_last ->
  forall (fuel : nat) (page : Z) (acc : list json) (w : world),
    (List.length full < fuel)%nat ->
    (63 <= String.length (img_key (cached_wbi_keys w)
                          ++ sub_key (cached_wbi_keys w)))%nat ->
    (forall k, (k <= List.length full)%nat ->
               is_page (net w (List.length (sent w) + k))
                       (nth k (full ++ [last]) [])) ->
    exists reqs w',
      fetch_pages fuel uid page acc w
      = (Return (acc ++ List.concat kept_full ++ kept_last), w')
      /\ sent w' = sent w ++ reqs
      /\ List.length reqs = S (List.length full)
      /\ forall k, (k <= List.length full)%nat ->
           exists r, nth_error reqs k = Some r
                     /\ is_page_request uid (page + Z.of_nat k) r.
Proof.
  intros Hfull Hlast Hkf Hkl. revert Hfull.
  induction Hkf as [|users kept full kept_full Hk Hkf IH];
    intros Hfull fuel page acc w Hfuel Hlen Hnet.
  - destruct fuel as [|fuel]; [simpl in Hfuel; lia|].
    destruct (fetch_pages_turn fuel uid page acc last kept_last w Hlen)
      as (r & w1 & Hr & Hs & _ & _ & Heq); [|exact Hkl|].
    { specialize (Hnet 0%nat (Nat.le_refl _)).
      now rewrite Nat.add_0_r in Hnet. }
    exists [r], w1. rewrite Heq.
    destruct (Z.ltb_spec (Z.of_nat (List.length last)) page_size) as [_|H];
      [|unfold page_size in H; lia].
    split; [reflexivity|]. split; [exact Hs|]. split; [reflexivity|].
    intros k Hk. simpl in Hk. assert (k = 0%nat) as -> by lia.
    exists r. split; [reflexivity|]. now rewrite Z.add_0_r.
  - inversion Hfull as [|? ? H50 Hfull']; subst.
    destruct fuel as [|fuel]; [simpl in Hfuel; lia|].
    destruct (fetch_pages_turn fuel uid page acc users kept w Hlen)
      as (r & w1 & Hr & Hs & Hn & Hc & Heq); [|exact Hk|].
    { specialize (Hnet 0%nat ltac:(lia)).
      now rewrite Nat.add_0_r in Hnet. }
    rewrite Heq, H50.
    destruct (Z.ltb_spec (Z.of_nat 50) page_size) as [H|_];
      [unfold page_size in H; lia|].
    destruct (IH Hfull' fuel (page + 1) (acc ++ kept) w1)
      as (reqs & w' & Hrun & Hsent & Hcount & Hreqs).
    + simpl in Hfuel. lia.
    + now rewrite Hc.
    + intros k Hk'. rewrite Hn, Hs, length_app. simpl.
      replace (List.length (sent w) + 1 + k)%nat
        with (List.length (sent w) + S k)%nat by lia.
      apply (Hnet (S k)). simpl. lia.
    + exists (r :: reqs), w'. rewrite Hrun.
      split; [simpl; now rewrite <- !app_assoc|].
      split; [rewrite Hsent, Hs, <- app_assoc; reflexivity|].
      split; [simpl; now rewrite Hcount|].
      intros [|k] Hk'.
      * exists r. split; [reflexivity|]. now rewrite Z.add_0_r.
      * destruct (Hreqs k) as (r' & Hnth & Hr'); [simpl in Hk'; lia|].
        exists r'. split; [exact Hnth|].
        replace (page + Z.of_nat (S k)) with (page + 1 + Z.of_nat k) by lia.
        exact Hr'.
Qed.

(** C5. When the keys are there and the service answers pages 1 to N-1
    with 50 well-formed entries each and page N with fewer than 50 (none,
    maybe), the fetch, given fuel for N turns, returns the entries of all
    the pages in order and has issued exactly N page requests after the key
    refresh, the [k]-th of them for page [k] with page size 50. *)
Theorem get_user_attentions_pages (fuel : nat) (uid : Z) (w0 : world)
        (full kept_full : list (list json)) (last kept_last : list json) :
  let w := snd (get_wbi_keys w0) in
  (exists ks, fst (get_wbi_keys w0) = Return ks) ->
  (63 <= String.length (img_key (cached_wbi_keys w)
                        ++ sub_key (cached_wbi_keys w)))%nat ->
  Forall (fun users => List.length users = 50%nat) full ->
  (List.length last < 50)%nat ->
  Forall2 keeps full kept_full ->
  keeps last kept_last ->
  (forall k, (k <= List.length full)%nat ->
             is_page (net w (List.length (sent w) + k))
                     (nth k (full ++ [last]) [])) ->
  (List.length full < fuel)%nat ->
  exists reqs w',
    get_user_attentions fuel uid w0
    = (Return (List.concat kept_full ++ kept_last), w')
    /\ sent w' = sent w ++ reqs
    /\ List.length reqs = S (List.length full)
    /\ forall k, (k <= List.length full)%nat ->
         exists r, nth_error reqs k = Some r
                   /\ is_page_request uid (1 + Z.of_nat k) r.
Proof.
  intros w [ks Hks] Hlen Hfull Hlast Hkf Hkl Hnet Hfuel.
  destruct (fetch_pages_run uid full kept_full last kept_last
              Hfull Hlast Hkf Hkl fuel 1 [] w Hfuel Hlen Hnet)
    as (reqs & w' & Hrun & Hrest).
  exists reqs, w'. split; [|exact Hrest].
  unfold get_user_attentions, try_except, fetch_all, bind.
  subst w. destruct (get_wbi_keys w0) as [r w1]. simpl in *. subst r.
  now rewrite Hrun.
Qed.

Lemma get_user_attentions_pages_witness :
  exists reqs w',
    get_user_attentions 2 7 Sample.two_pages_world
    = (Return (List.concat [map Sample.kept (seq 1 50)]
               ++ map Sample.kept (seq 51 3)), w')
    /\ sent w' = sent (snd (get_wbi_keys Sample.two_pages_world)) ++ reqs
    /\ List.length reqs = 2%nat
    /\ forall k, (k <= 1)%nat ->
         exists r, nth_error reqs k = Some r
                   /\ is_page_request 7 (1 + Z.of_nat k) r.
Proof.
  apply (get_user_attentions_pages 2 7 Sample.two_pages_world
           [map Sample.user (seq 1 50)] [map Sample.kept (seq 1 50)]
           (map Sample.user (seq 51 3)) (map Sample.kept (seq 51 3))).
  - eexists. reflexivity.
  - simpl. lia.
  - repeat constructor.
  - simpl. lia.
  - constructor; [|constructor]. simpl. repeat constructor.
  - simpl. repeat constructor.
  - intros k Hk. simpl in Hk.
    destruct k as [|[|k]]; [| |lia];
      eexists; eexists; eexists; repeat split; reflexivity.
  - simpl. lia.
Defined.

(** The sample of two pages gives 53 entries with two page requests. *)
Example get_user_attentions_two_pages :
  fst (get_user_attentions 2 7 Sample.two_pages_world)
  = Return (map Sample.kept (seq 1 53))
  /\ List.length (sent (snd (get_user_attentions 2 7 Sample.two_pages_world)))
     = 2%nat.
Proof. vm_compute. split; reflexivity. Qed.

(** C4. The fetch never raises, and when an exception is raised by the key
    refresh or, after it, anywhere in the loop over the pages (the
    signature, a request, the status, the body or its fields), the fetch
    returns the empty list, whatever was accumulated before. *)
Theorem get_user_attentions_fails_soft (fuel : nat) (uid : Z) (w : world) :
  (forall e, fst (get_user_attentions fuel uid w) <> Raise e)
  /\ (forall e,
         fst (get_wbi_keys w) = Raise e
         \/ (exists ks,
                fst (get_wbi_keys w) = Return ks
                /\ fst (fetch_pages fuel uid 1 [] (snd (get_wbi_keys w)))
                   = Raise e) ->
         fst (get_user_attentions fuel uid w) = Return []).
Proof.
  unfold get_user_attentions, try_except, fetch_all, bind.
  destruct (get_wbi_keys w) as [[ks| |] w1]; simpl.
  - destruct (fetch_pages fuel uid 1 [] w1) as [[l| |] w2]; simpl.
    + split; [discriminate|].
      intros e [H|(ks' & _ & H)]; discriminate.
    + split; [discriminate|reflexivity].
    + split; [discriminate|].
      intros e [H|(ks' & _ & H)]; discriminate.
  - split; [discriminate|reflexivity].
  - split; [discriminate|].
    intros e [H|(ks' & H & _)]; discriminate.
Qed.

Lemma get_user_attentions_fails_soft_witness :
  fst (get_user_attentions 2 7 Sample.broken_world) = Return []
  /\ fst (get_user_attentions 2 7 Sample.refused_world) = Return [].
Proof.
  split.
  - apply (proj2 (get_user_attentions_fails_soft 2 7 Sample.broken_world)
                 TimeoutException).
    right. exists (Sample.image_key, Sample.sub_key).
    split; [reflexivity|]. vm_compute. reflexivity.
  - apply (proj2 (get_user_attentions_fails_soft 2 7 Sample.refused_world)
                 (HTTPStatusError 412)).
    left. reflexivity.
Defined.

(** In the broken sample the first page was fetched in full before the
    second request timed out: both requests were issued, nothing is
    returned. *)
Example get_user_attentions_discards :
  let w' := snd (get_user_attentions 2 7 Sample.broken_world) in
  List.length (sent w') = 2%nat
  /\ fst (get_user_attentions 2 7 Sample.broken_world) = Return [].
Proof. vm_compute. split; reflexivity. Qed.

(* ================================================================== *)
(** * Further properties of the signature *)

Section DictLookup.

Context {A : Type}.
Implicit Types (d : dict A) (k : string) (v : A).

Lemma dict_get_set_same d k v : dict_get (dict_set d k v) k = Some v.
Proof.
  induction d as [|[k0 v0] d IH]; simpl.
  - now rewrite String.eqb_refl.
  - destruct (String.eqb_spec k0 k) as [->|Hne]; simpl.
    + now rewrite String.eqb_refl.
    + destruct (String.eqb_spec k0 k); [contradiction|exact IH].
Qed.

Lemma dict_get_in d k v :
  wf_dict d -> (dict_get d k = Some v <-> In (k, v) d).
Proof.
  unfold wf_dict. induction d as [|[k0 v0] d IH]; simpl; intros Hd.
  - split; [discriminate|tauto].
  - inversion Hd as [|? ? Hnin Hd']; subst.
    destruct (String.eqb_spec k0 k) as [->|Hne].
    + split.
      * intros [= ->]. now left.
      * intros [[= ->]|Hin]; [reflexivity|].
        exfalso. apply Hnin. change k with (fst (k, v)).
        now apply in_map.
    + rewrite (IH Hd'). split; [tauto|].
      intros [[= -> _]|Hin]; [contradiction|exact Hin].
Qed.

Lemma wf_dict_perm d d' : wf_dict d -> Permutation d d' -> wf_dict d'.
Proof.
  unfold wf_dict, keys. intros Hd Hp.
  eapply Permutation_NoDup; [|exact Hd]. now apply Permutation_map.
Qed.

Lemma dict_get_perm d d' k :
  wf_dict d -> Permutation d d' -> dict_get d k = dict_get d' k.
Proof.
  intros Hd Hp. pose proof (wf_dict_perm d d' Hd Hp) as Hd'.
  destruct (dict_get d k) as [v|] eqn:E; destruct (dict_get d' k) as [v'|] eqn:E';
    try reflexivity.
  - apply (dict_get_in d k v Hd) in E.
    apply (Permutation_in _ Hp), (dict_get_in d' k v Hd') in E. congruence.
  - apply (dict_get_in d k v Hd) in E.
    apply (Permutation_in _ Hp), (dict_get_in d' k v Hd') in E. congruence.
  - apply (dict_get_in d' k v' Hd') in E'.
    apply (Permutation_in _ (Permutation_sym Hp)), (dict_get_in d k v' Hd) in E'.
    congruence.
Qed.

Lemma dict_get_sorted d k :
  wf_dict d -> dict_get (sorted_items d) k = dict_get d k.
Proof.
  intros Hd. symmetry. apply dict_get_perm; [exact Hd|].
  apply Permutation_sym, sorted_items_perm.
Qed.

Lemma wf_dict_sorted d : wf_dict d -> wf_dict (sorted_items d).
Proof.
  intros Hd. eapply wf_dict_perm; [exact Hd|].
  apply Permutation_sym, sorted_items_perm.
Qed.

End DictLookup.

Section DigestShape.

Lemma string_all_app (p : ascii -> bool) (a b : string) :
  string_all p (a ++ b) = string_all p a && string_all p b.
Proof.
  induction a as [|c a IH]; simpl; [reflexivity|].
  now rewrite IH, andb_assoc.
Qed.

Lemma string_all_in (p : ascii -> bool) (s : string) :
  string_all p s = true <->
  forall c, In c (list_ascii_of_string s) -> p c = true.
Proof.
  induction s as [|a s IH]; simpl.
  - split; [intros _ c []|reflexivity].
  - rewrite andb_true_iff, IH. split.
    + intros [Ha Hs] c [<-|Hc]; auto.
    + intros H. split; [apply H; now left|].
      intros c Hc. apply H. now right.
Qed.

Lemma hex_digit_lower (n : Z) :
  0 <= n < 16 -> is_lower_hex (MD5.hex_digit n) = true.
Proof.
  intros Hn.
  assert (E : n = Z.of_nat (Z.to_nat n)) by lia.
  rewrite E. assert (Hk : (Z.to_nat n < 16)%nat) by lia.
  revert Hk. generalize (Z.to_nat n). intros k Hk.
  do 16 (destruct k as [|k]; [reflexivity|]). lia.
Qed.

Lemma hex_shape (bs : list Z) :
  Forall (fun b => 0 <= b < 256) bs ->
  String.length (MD5.hex bs) = (2 * List.length bs)%nat
  /\ string_all is_lower_hex (MD5.hex bs) = true.
Proof.
  induction 1 as [|b bs Hb _ [IHl IHa]]; simpl; [now split|].
  split; [rewrite IHl; lia|].
  rewrite IHa, !hex_digit_lower; [reflexivity| |].
  - apply Z.mod_pos_bound. lia.
  - split; [apply Z.div_pos; lia|apply Z.div_lt_upper_bound; lia].
Qed.

Lemma le_bytes_range (n : nat) (x : Z) :
  Forall (fun b => 0 <= b < 256) (MD5.le_bytes n x)
  /\ List.length (MD5.le_bytes n x) = n.
Proof.
  unfold MD5.le_bytes. split.
  - apply Forall_forall. intros b Hb.
    apply in_map_iff in Hb. destruct Hb as (i & <- & _).
    change 255 with (Z.ones 8). rewrite Z.land_ones by lia.
    apply Z.mod_pos_bound. reflexivity.
  - now rewrite length_map, length_seq.
Qed.

(** The hex digest is 32 lower-case hexadecimal digits. *)
Lemma hexdigest_shape (msg : list Z) :
  String.length (MD5.hexdigest msg) = 32%nat
  /\ string_all is_lower_hex (MD5.hexdigest msg) = true.
Proof.
  unfold MD5.hexdigest, MD5.digest. cbv zeta.
  set (r := MD5.blocks _ _ _).
  destruct (hex_shape (MD5.le_bytes 4 (MD5.sa r) ++ MD5.le_bytes 4 (MD5.sb r)
                       ++ MD5.le_bytes 4 (MD5.sc r)
                       ++ MD5.le_bytes 4 (MD5.sd r))) as [Hl Ha].
  - repeat (apply Forall_app; split); apply le_bytes_range.
  - split; [|exact Ha].
    rewrite Hl, !length_app.
    now rewrite !(proj2 (le_bytes_range 4 _)).
Qed.

End DigestShape.

(** The result of a signature that returns, written out. *)
Lemma get_wbi_sign_params_returns (w w' : world) (params signed : dict param) :
  get_wbi_sign_params params w = (Return signed, w') ->
  w' = tick w
  /\ exists msg,
       signed
       = dict_set
           (sorted_items
              (dict_set params "wts"
                 (PInt (int_of_float (clock w (ticks w))))))
           "w_rid" (PStr (MD5.hexdigest msg)).
Proof.
  rewrite get_wbi_sign_params_eq. cbv zeta.
  destruct (get_mixin_key _) as [mixed|e]; [|discriminate].
  intros [= <- <-]. split; [reflexivity|]. eexists. reflexivity.
Qed.

(** X1. Whatever the caller passed, a signed mapping holds [wts], the
    current time in whole seconds, and [w_rid], 32 lower-case hexadecimal
    digits; signing reads the clock once and changes nothing else. *)
Theorem get_wbi_sign_params_stamps (w w' : world)
        (params signed : dict param) :
  wf_dict params ->
  get_wbi_sign_params params w = (Return signed, w') ->
  w' = tick w
  /\ dict_get signed "wts" = Some (PInt (int_of_float (clock w (ticks w))))
  /\ exists digest,
       dict_get signed "w_rid" = Some (PStr digest)
       /\ String.length digest = 32%nat
       /\ string_all is_lower_hex digest = true.
Proof.
  intros Hwf Hsign.
  destruct (get_wbi_sign_params_returns _ _ _ _ Hsign) as (-> & msg & ->).
  split; [reflexivity|]. split.
  - rewrite dict_get_set_other by discriminate.
    rewrite dict_get_sorted by now apply wf_dict_set.
    apply dict_get_set_same.
  - exists (MD5.hexdigest msg). split; [apply dict_get_set_same|].
    apply hexdigest_shape.
Qed.

(** X2. Signing keeps every parameter of the caller other than [wts] and
    [w_rid] with its value, and the result is again a dict with distinct
    keys. *)
Theorem get_wbi_sign_params_keeps (w w' : world)
        (params signed : dict param) :
  wf_dict params ->
  get_wbi_sign_params params w = (Return signed, w') ->
  wf_dict signed
  /\ forall k, k <> "wts" -> k <> "w_rid" ->
               dict_get signed k = dict_get params k.
Proof.
  intros Hwf Hsign.
  destruct (get_wbi_sign_params_returns _ _ _ _ Hsign) as (_ & msg & ->).
  split.
  - now apply wf_dict_set, wf_dict_sorted, wf_dict_set.
  - intros k Hwts Hrid.
    rewrite dict_get_set_other by congruence.
    rewrite dict_get_sorted by now apply wf_dict_set.
    apply dict_get_set_other. congruence.
Qed.

Lemma sign_sample_wf : wf_dict SignSample.params.
Proof.
  unfold wf_dict. simpl.
  repeat (constructor; [simpl; intuition discriminate|]). constructor.
Defined.

Lemma sign_sample_run :
  get_wbi_sign_params SignSample.params Sample.fresh_world
  = (Return SignSample.signed, tick Sample.fresh_world).
Proof. vm_compute. reflexivity. Defined.

Lemma get_wbi_sign_params_stamps_witness :
  tick Sample.fresh_world = tick Sample.fresh_world
  /\ dict_get SignSample.signed "wts" = Some (PInt 1702204169)
  /\ exists digest,
       dict_get SignSample.signed "w_rid" = Some (PStr digest)
       /\ String.length digest = 32%nat
       /\ string_all is_lower_hex digest = true.
Proof.
  exact (get_wbi_sign_params_stamps Sample.fresh_world
           (tick Sample.fresh_world) SignSample.params SignSample.signed
           sign_sample_wf sign_sample_run).
Defined.

Lemma get_wbi_sign_params_keeps_witness :
  wf_dict SignSample.signed
  /\ forall k, k <> "wts" -> k <> "w_rid" ->
               dict_get SignSample.signed k = dict_get SignSample.params k.
Proof.
  exact (get_wbi_sign_params_keeps Sample.fresh_world
           (tick Sample.fresh_world) SignSample.params SignSample.signed
           sign_sample_wf sign_sample_run).
Defined.

(* ================================================================== *)
(** * The quoting of the values *)

Section Quoting.

Lemma append_empty_r (s : string) : (s ++ "")%string = s.
Proof. induction s as [|c s IH]; simpl; [reflexivity|now rewrite IH]. Qed.

Lemma concat_empty_cons (x : string) (l : list string) :
  String.concat "" (x :: l) = (x ++ String.concat "" l)%string.
Proof.
  destruct l as [|y l]; simpl; [now rewrite append_empty_r|reflexivity].
Qed.

Lemma concat_empty_app (l1 l2 : list string) :
  String.concat "" (l1 ++ l2)
  = (String.concat "" l1 ++ String.concat "" l2)%string.
Proof.
  induction l1 as [|x l1 IH]; [reflexivity|].
  change ((x :: l1) ++ l2) with (x :: (l1 ++ l2)).
  rewrite !concat_empty_cons, IH.
  induction x as [|c x IHx]; simpl; [reflexivity|now rewrite IHx].
Qed.

Lemma quote_plus_cons (c : ascii) (s : string) :
  Urllib.quote_plus (String c s)
  = (Urllib.quote_plus (String c "") ++ Urllib.quote_plus s)%string.
Proof.
  unfold Urllib.quote_plus. simpl Py.utf8_encode.
  now rewrite app_nil_r, map_app, concat_empty_app.
Qed.

(** One character quoted: 256 cases. *)
Lemma quote_char_safe (c : ascii) :
  string_all url_safe (Urllib.quote_plus (String c "")) = true.
Proof.
  destruct c as [[|] [|] [|] [|] [|] [|] [|] [|]]; reflexivity.
Qed.

Lemma quote_char_unreserved (c : ascii) :
  is_unreserved c = true -> Urllib.quote_plus (String c "") = String c "".
Proof.
  destruct c as [[|] [|] [|] [|] [|] [|] [|] [|]];
    solve [reflexivity | discriminate].
Qed.

Lemma quote_plus_safe (s : string) :
  string_all url_safe (Urllib.quote_plus s) = true.
Proof.
  induction s as [|c s IH]; [reflexivity|].
  now rewrite quote_plus_cons, string_all_app, quote_char_safe, IH.
Qed.

Lemma quote_plus_unreserved (s : string) :
  string_all is_unreserved s = true -> Urllib.quote_plus s = s.
Proof.
  induction s as [|c s IH]; [reflexivity|]. simpl.
  intros H. apply andb_true_iff in H. destruct H as [Hc Hs].
  now rewrite quote_plus_cons, (quote_char_unreserved c Hc), (IH Hs).
Qed.

Lemma string_of_uint_unreserved (d : Decimal.uint) :
  string_all is_unreserved (NilEmpty.string_of_uint d) = true.
Proof. induction d; simpl; auto. Qed.

Lemma str_of_int_unreserved (n : Z) :
  string_all is_unreserved (Py.str_of_int n) = true.
Proof.
  unfold Py.str_of_int, NilZero.string_of_int.
  destruct (Z.to_int n) as [d|d]; simpl;
    unfold NilZero.string_of_uint;
    destruct d; try reflexivity; apply string_of_uint_unreserved.
Qed.

End Quoting.

(** X3. The quoted value of a parameter is made of ASCII letters, digits
    and the characters [_.-~+%] only; it holds no [&], no [=] and no
    space, so the fields of the query string stay apart. *)
Theorem query_value_safe (v : param) (c : ascii) :
  In c (list_ascii_of_string (Urllib.quote_plus (str v))) ->
  url_safe c = true
  /\ c <> "&"%char /\ c <> "="%char /\ c <> " "%char
  /\ Py.ord c < 128.
Proof.
  intros Hc.
  assert (H : url_safe c = true)
    by (apply (proj1 (string_all_in url_safe _) (quote_plus_safe (str v)) c Hc)).
  split; [exact H|].
  repeat split; try (intros ->; discriminate H).
  clear Hc. revert H.
  destruct c as [[|] [|] [|] [|] [|] [|] [|] [|]];
    solve [reflexivity | discriminate].
Qed.

Lemma query_value_safe_witness :
  url_safe "+"%char = true
  /\ "+"%char <> "&"%char /\ "+"%char <> "="%char /\ "+"%char <> " "%char
  /\ Py.ord "+"%char < 128.
Proof.
  apply (query_value_safe (PStr "a b&c") "+"%char).
  simpl. right. now left.
Defined.

(** X4. A value made of unreserved characters is quoted as itself, and so
    is every integer, negative ones too: the fields [vmid], [pn], [ps] and
    [wts] enter the digested string as plain decimal numbers. *)
Theorem query_field_plain (key : string) :
  (forall n, query_field (key, PInt n)
             = (key ++ "=" ++ Py.str_of_int n)%string)
  /\ (forall s, string_all is_unreserved s = true ->
                query_field (key, PStr s) = (key ++ "=" ++ s)%string).
Proof.
  unfold query_field. simpl. split.
  - intros n. now rewrite quote_plus_unreserved by apply str_of_int_unreserved.
  - intros s Hs. now rewrite quote_plus_unreserved.
Qed.

Lemma query_field_plain_witness :
  query_field ("wts", PInt (-1702204169)) = "wts=-1702204169"
  /\ query_field ("order", PStr "desc") = "order=desc".
Proof.
  split.
  - apply (proj1 (query_field_plain "wts") (-1702204169)).
  - apply (proj2 (query_field_plain "order") "desc"). reflexivity.
Defined.

(* ================================================================== *)
(** * Further properties of the key cache *)

Section Splitting.

Variable sep : ascii.

Lemma split_nonempty (s : string) : Py.split sep s <> [].
Proof.
  destruct s as [|c s]; simpl; [discriminate|].
  destruct (Ascii.eqb c sep); [discriminate|].
  destruct (Py.split sep s); discriminate.
Qed.

(** The pieces of a string keep a property of its characters. *)
Lemma split_all (p : ascii -> bool) (s : string) :
  string_all p s = true ->
  Forall (fun piece => string_all p piece = true) (Py.split sep s).
Proof.
  induction s as [|c s IH]; simpl; intros H.
  - now constructor.
  - apply andb_true_iff in H. destruct H as [Hc Hs].
    specialize (IH Hs).
    destruct (Ascii.eqb c sep); [now constructor|].
    destruct (Py.split sep s) as [|piece ps].
    + constructor; [simpl; now rewrite Hc|constructor].
    + inversion IH; subst. constructor; [simpl|assumption].
      now rewrite Hc.
Qed.

(** No piece holds the separator. *)
Lemma split_lacks (s : string) :
  Forall (fun piece => lacks sep piece = true) (Py.split sep s).
Proof.
  induction s as [|c s IH]; simpl.
  - now constructor.
  - destruct (Ascii.eqb c sep) eqn:E; [now constructor|].
    destruct (Py.split sep s) as [|piece ps].
    + constructor; [|constructor]. unfold lacks. simpl. now rewrite E.
    + inversion IH; subst. constructor; [|assumption].
      unfold lacks in *. simpl. now rewrite E.
Qed.

(** What follows the last separator is the last piece. *)
Lemma split_last (a b : string) :
  lacks sep b = true ->
  exists pieces,
    pieces <> [] /\ Py.split sep (a ++ String sep b) = pieces ++ [b].
Proof.
  intros Hb.
  assert (Eb : Py.split sep b = [b]).
  { clear a. induction b as [|c b IH]; [reflexivity|].
    unfold lacks in Hb. simpl in Hb.
    apply andb_true_iff in Hb. destruct Hb as [Hc Hb].
    simpl. apply negb_true_iff in Hc. rewrite Hc, (IH Hb). reflexivity. }
  induction a as [|c a (pieces & Hne & IH)]; simpl.
  - rewrite Ascii.eqb_refl, Eb. exists [""]. split; [discriminate|reflexivity].
  - destruct (Ascii.eqb c sep).
    + exists ("" :: pieces). split; [discriminate|]. now rewrite IH.
    + rewrite IH. destruct pieces as [|q qs]; [contradiction|].
      exists (String c q :: qs). split; [discriminate|reflexivity].
Qed.

(** What comes before the first separator, or the whole string when there
    is none, is the first piece. *)
Lemma split_hd (a rest : string) :
  lacks sep a = true ->
  (rest = "" \/ exists b, rest = String sep b) ->
  hd "" (Py.split sep (a ++ rest)) = a.
Proof.
  intros Ha Hrest. induction a as [|c a IH]; simpl.
  - destruct Hrest as [->|[b ->]]; simpl; [reflexivity|].
    now rewrite Ascii.eqb_refl.
  - unfold lacks in Ha. simpl in Ha.
    apply andb_true_iff in Ha. destruct Ha as [Hc Ha].
    apply negb_true_iff in Hc. rewrite Hc.
    specialize (IH Ha).
    destruct (Py.split sep (a ++ rest)) as [|q qs] eqn:E.
    + now destruct (split_nonempty _ E).
    + simpl in *. now rewrite IH.
Qed.

End Splitting.

(** X5. The key taken from a url string holds neither [/] nor [.].  It is
    the file stem: for a url [dir/stem.ext], or [dir/stem] with no
    extension, where the stem has no [/] and no [.] and the extension has
    no [/], the key is [stem]. *)
Theorem key_of_url_stem (dir stem ext : string) :
  lacks "/" stem = true -> lacks "." stem = true -> lacks "/" ext = true ->
  key_of_url (JStr (dir ++ "/" ++ stem ++ "." ++ ext)) = Ok stem
  /\ key_of_url (JStr (dir ++ "/" ++ stem)) = Ok stem
  /\ forall url key,
       key_of_url (JStr url) = Ok key ->
       lacks "/" key = true /\ lacks "." key = true.
Proof.
  intros Hs1 Hs2 He. unfold key_of_url. repeat split.
  - assert (Hl : lacks "/" (stem ++ "." ++ ext) = true).
    { unfold lacks in *. rewrite string_all_app, Hs1. simpl. now rewrite He. }
    destruct (split_last "/" dir _ Hl) as (pieces & _ & E).
    change (dir ++ "/" ++ stem ++ "." ++ ext)%string
      with (dir ++ String "/" (stem ++ "." ++ ext))%string.
    rewrite E, last_last.
    f_equal. apply split_hd; [exact Hs2|]. right. now exists ext.
  - destruct (split_last "/" dir stem Hs1) as (pieces & _ & E).
    change (dir ++ "/" ++ stem)%string with (dir ++ String "/" stem)%string.
    rewrite E, last_last. f_equal.
    rewrite <- (append_empty_r stem) at 1.
    apply split_hd; [exact Hs2|now left].
  - injection H as <-.
    set (file := last (Py.split "/" url) "").
    assert (Hfile : lacks "/" file = true).
    { pose proof (split_lacks "/" url) as Hall.
      rewrite Forall_forall in Hall. apply Hall.
      destruct (exists_last (split_nonempty "/" url)) as (l & x & E).
      unfold file. rewrite E, last_last, <- E. rewrite E.
      apply in_or_app. right. now left. }
    pose proof (split_all "." _ file Hfile) as Hall.
    destruct (Py.split "." file) as [|p ps] eqn:E;
      [now destruct (split_nonempty _ _ E)|].
    inversion Hall; subst. assumption.
  - injection H as <-.
    pose proof (split_lacks "." (last (Py.split "/" url) "")) as Hall.
    destruct (Py.split "." (last (Py.split "/" url) "")) as [|p ps] eqn:E;
      [now destruct (split_nonempty _ _ E)|].
    inversion Hall; subst. assumption.
Qed.

Lemma key_of_url_stem_witness :
  key_of_url (JStr ("https://i0.hdslb.com/bfs/wbi" ++ "/"
                    ++ "7cd084941338484aae1ad9425b84077c" ++ "." ++ "png"))
  = Ok "7cd084941338484aae1ad9425b84077c"
  /\ key_of_url (JStr ("https://i0.hdslb.com/bfs/wbi" ++ "/"
                       ++ "7cd084941338484aae1ad9425b84077c"))
     = Ok "7cd084941338484aae1ad9425b84077c"
  /\ forall url key,
       key_of_url (JStr url) = Ok key ->
       lacks "/" key = true /\ lacks "." key = true.
Proof.
  apply (key_of_url_stem "https://i0.hdslb.com/bfs/wbi"
           "7cd084941338484aae1ad9425b84077c" "png"); reflexivity.
Defined.

(** A stem with a dot in it is cut at its first dot. *)
Example key_of_url_dotted :
  key_of_url (JStr "https://i0.hdslb.com/bfs/wbi/abc.def.png") = Ok "abc".
Proof. reflexivity. Qed.

(** The two ways a call of [get_wbi_keys] goes, with the whole world after
    it: the clock has been read once, and a refresh has sent one request;
    the registry file, the clock and the network are as before. *)
Lemma get_wbi_keys_cases (w : world) :
  let now := clock w (ticks w) in
  let c := cached_wbi_keys w in
  (Qltb (now - last_fetch c) 1800 = true
   /\ get_wbi_keys w = (Return (img_key c, sub_key c), tick w))
  \/ (Qltb (now - last_fetch c) 1800 = false
      /\ exists r c',
           get_wbi_keys w
           = (r, mk_world c' (vtb_list_file w) (clock w) (S (ticks w))
                          (net w) (sent w ++ [mk_request wbi_url []])
                          (unencodable w))
           /\ match r with
              | Return (i, s) => c' = mk_cache i s now
              | Raise _ => c' = c
              | OutOfFuel => False
              end).
Proof.
  cbv zeta. unfold get_wbi_keys. run.
  destruct (Qltb _ 1800) eqn:Hage; run; [left; now split|].
  right. split; [reflexivity|].
  destruct (net w (List.length (sent w))) as [resp|e]; run;
    [|now eexists; eexists; split].
  destruct ((200 <=? status_code resp) && (status_code resp <=? 299));
    run; [|now eexists; eexists; split].
  destruct (body resp) as [j|]; run; [|now eexists; eexists; split].
  destruct (getitem j "data") as [data|]; run;
    [|now eexists; eexists; split].
  destruct (getitem data "wbi_img") as [wbi_img|]; run;
    [|now eexists; eexists; split].
  destruct (getitem wbi_img "img_url") as [iu|]; run;
    [|now eexists; eexists; split].
  destruct (getitem wbi_img "sub_url") as [su|]; run;
    [|now eexists; eexists; split].
  destruct (key_of_url iu) as [ik|]; run; [|now eexists; eexists; split].
  destruct (key_of_url su) as [sk|]; run; now eexists; eexists; split.
Qed.

(** X6. A refresh that returned is good for 1800 seconds: a second call
    whose clock reading is less than 1800 seconds after the first returns
    the same pair, sends no request and only reads the clock. *)
Theorem get_wbi_keys_then_cached (w w1 : world) (ks : string * string) :
  (1800 <= clock w (ticks w) - last_fetch (cached_wbi_keys w))%Q ->
  get_wbi_keys w = (Return ks, w1) ->
  (clock w (S (ticks w)) - clock w (ticks w) < 1800)%Q ->
  get_wbi_keys w1 = (Return ks, tick w1)
  /\ sent w1 = sent w ++ [mk_request wbi_url []].
Proof.
  intros Hstale Hfirst Hfresh.
  apply Qltb_false in Hstale. apply Qltb_true in Hfresh.
  destruct (get_wbi_keys_cases w) as [[Hage _]|(_ & r & c' & Heq & Hr)];
    [congruence|].
  rewrite Heq in Hfirst. injection Hfirst as -> <-.
  destruct ks as [i s]. subst c'.
  split; [|reflexivity].
  set (w1 := mk_world _ _ _ _ _ _ _).
  destruct (get_wbi_keys_cases w1) as [[_ Heq1]|[Hage1 _]].
  - exact Heq1.
  - unfold w1 in Hage1. cbn [clock ticks cached_wbi_keys last_fetch] in Hage1.
    congruence.
Qed.

Lemma get_wbi_keys_then_cached_witness :
  get_wbi_keys (snd (get_wbi_keys Sample.initial_world))
  = (Return (Sample.image_key, Sample.sub_key),
     tick (snd (get_wbi_keys Sample.initial_world)))
  /\ sent (snd (get_wbi_keys Sample.initial_world))
     = sent Sample.initial_world ++ [mk_request wbi_url []].
Proof.
  apply (get_wbi_keys_then_cached Sample.initial_world
           (snd (get_wbi_keys Sample.initial_world))
           (Sample.image_key, Sample.sub_key)).
  - unfold Qle. simpl. lia.
  - reflexivity.
  - reflexivity.
Defined.

(* ================================================================== *)
(** * Further properties of the registry *)

Lemma client_get_world (url : string) (params : dict param) (w : world) :
  snd (client_get url params w) = after_requests w [mk_request url params].
Proof.
  unfold client_get. now destruct (net w (List.length (sent w))).
Qed.

Lemma after_requests_app (w : world) (r1 r2 : list request) :
  after_requests (after_requests w r1) r2 = after_requests w (r1 ++ r2).
Proof. unfold after_requests. simpl. now rewrite app_assoc. Qed.

Lemma after_requests_nil (w : world) : after_requests w [] = w.
Proof. destruct w. unfold after_requests. simpl. now rewrite app_nil_r. Qed.

(** What one item adds to [vtb_list] are readable records. *)
Lemma add_info_appends (info : json) (vtb_list : list json) :
  exists added,
    fst (add_info info vtb_list) = vtb_list ++ added
    /\ Forall registry_record added.
Proof.
  unfold add_info, add_uid_shape, add_mid_shape.
  destruct info as [| | | | | |d];
    try (exists []; split; [simpl; now rewrite app_nil_r|constructor]).
  rewrite !has_both_dict. cbn [res_bind].
  assert (Hmid : field_true d "mid" && field_true d "uname" = true ->
                 registry_record (JDict d)).
  { intros H. apply andb_true_iff in H. destruct H as [Hm Hn].
    unfold field_true in Hm. destruct (dict_get d "mid") as [m|] eqn:Em;
      [|discriminate].
    now exists d, m. }
  destruct (field_true d "uid" && field_true d "uname") eqn:Huid.
  - apply andb_true_iff in Huid. destruct Huid as [Hu Hn].
    unfold field_true in Hu, Hn. unfold getitem.
    destruct (dict_get d "uid") as [uid|]; [|discriminate].
    destruct (dict_get d "uname") as [uname|] eqn:En; [|discriminate].
    cbn [res_bind].
    destruct (py_int uid) as [n|e]; cbn [res_bind fst].
    2:{ exists []. split; [now rewrite app_nil_r|constructor]. }
    assert (Hrec : registry_record (JDict [("mid", JInt n); ("uname", uname)])).
    { exists [("mid", JInt n); ("uname", uname)], (JInt n).
      repeat split. unfold field_true. simpl. exact Hn. }
    destruct (field_true d "mid" && field_true d "uname") eqn:Hm; cbn [fst].
    + exists [JDict [("mid", JInt n); ("uname", uname)]; JDict d].
      split; [now rewrite <- app_assoc|].
      constructor; [exact Hrec|]. constructor; [now apply Hmid|constructor].
    + exists [JDict [("mid", JInt n); ("uname", uname)]].
      split; [reflexivity|]. constructor; [exact Hrec|constructor].
  - cbn [fst].
    destruct (field_true d "mid" && field_true d "uname") eqn:Hm; cbn [fst].
    + exists [JDict d]. split; [reflexivity|].
      constructor; [now apply Hmid|constructor].
    + exists []. split; [now rewrite app_nil_r|constructor].
Qed.

Lemma add_infos_appends (infos : list json) :
  forall vtb_list,
  exists added,
    fst (add_infos infos vtb_list) = vtb_list ++ added
    /\ Forall registry_record added.
Proof.
  induction infos as [|info infos IH]; intros vtb_list; simpl.
  - exists []. split; [now rewrite app_nil_r|constructor].
  - destruct (add_info_appends info vtb_list) as (a1 & E1 & H1).
    destruct (add_info info vtb_list) as [l [e|]]; simpl in E1; subst l.
    + exists a1. now split.
    + destruct (IH (vtb_list ++ a1)) as (a2 & E2 & H2).
      exists (a1 ++ a2). split; [now rewrite E2, <- app_assoc|].
      apply Forall_app. now split.
Qed.

(** One turn over a mirror never raises: the request is sent, [vtb_list]
    grows by readable records. *)
Lemma try_mirror_total (url : string) (vtb_list : list json) (w : world) :
  exists added f,
    try_mirror url vtb_list w
    = (Return (vtb_list ++ added, f),
       after_requests w [mirror_request url])
    /\ Forall registry_record added.
Proof.
  pose proof (client_get_world url [] w) as Hw.
  unfold try_mirror. unfold client_get in *. run.
  destruct (net w (List.length (sent w))) as [resp|e]; run; simpl in Hw;
    rewrite Hw.
  2:{ exists [], Next. rewrite app_nil_r. split; [reflexivity|constructor]. }
  destruct (body resp) as [result|]; run.
  2:{ exists [], Next. rewrite app_nil_r. split; [reflexivity|constructor]. }
  destruct (truthy result); cbn [negb]; run.
  2:{ exists [], Next. rewrite app_nil_r. split; [reflexivity|constructor]. }
  destruct (iterate result) as [infos|e]; run.
  2:{ exists [], Next. rewrite app_nil_r. split; [reflexivity|constructor]. }
  destruct (add_infos_appends infos vtb_list) as (added & E & Hrec).
  destruct (add_infos infos vtb_list) as [l [e|]]; simpl in E; subst l; run.
  - exists added, Next. now split.
  - exists added, Break. now split.
Qed.

(** A mirror that answers a list whose items all pass ends the loop. *)
Lemma try_mirror_good (url : string) (vtb_list l : list json) (w : world)
      (resp : response) (infos : list json) :
  net w (List.length (sent w)) = Ok resp ->
  body resp = Some (JList infos) ->
  infos <> [] ->
  add_infos infos vtb_list = (l, None) ->
  try_mirror url vtb_list w
  = (Return (l, Break), after_requests w [mirror_request url]).
Proof.
  intros Hnet Hbody Hne Hadd.
  pose proof (client_get_world url [] w) as Hw.
  unfold try_mirror. unfold client_get in *. run.
  rewrite Hnet in *. run. simpl in Hw. rewrite Hw, Hbody. run.
  destruct infos as [|info infos]; [contradiction|].
  cbn [truthy negb iterate]. run. now rewrite Hadd.
Qed.

(** The loop over the mirrors never raises and asks a prefix of them. *)
Lemma for_urls_total (us : list string) :
  forall (vtb_list : list json) (w : world),
  exists added k,
    (k <= List.length us)%nat
    /\ (us <> [] -> (1 <= k)%nat)
    /\ for_urls us vtb_list w
       = (Return (vtb_list ++ added),
          after_requests w (map mirror_request (firstn k us)))
    /\ Forall registry_record added.
Proof.
  induction us as [|url us IH]; intros vtb_list w.
  - exists [], 0%nat. simpl. rewrite app_nil_r, after_requests_nil.
    repeat split; [lia|congruence|constructor].
  - rewrite for_urls_cons.
    destruct (try_mirror_total url vtb_list w) as (a1 & f & E & H1).
    rewrite E. destruct f.
    + exists a1, 1%nat. simpl. repeat split; [lia|lia|exact H1].
    + destruct (IH (vtb_list ++ a1) (after_requests w [mirror_request url]))
        as (a2 & k & Hk & _ & E2 & H2).
      exists (a1 ++ a2), (S k). rewrite E2, after_requests_app.
      simpl. rewrite <- app_assoc.
      repeat split; [lia|lia|]. apply Forall_app. now split.
Qed.

(** Mirrors that fail are passed over. *)
Lemma for_urls_skip (us1 us2 : list string) :
  forall (vtb_list : list json) (w : world),
    (forall i, (i < List.length us1)%nat ->
               mirror_fails (net w (List.length (sent w) + i))) ->
    for_urls (us1 ++ us2) vtb_list w
    = for_urls us2 vtb_list (after_requests w (map mirror_request us1)).
Proof.
  induction us1 as [|url us1 IH]; intros vtb_list w Hfail.
  - simpl. now rewrite after_requests_nil.
  - change ((url :: us1) ++ us2) with (url :: (us1 ++ us2)).
    rewrite for_urls_cons, try_mirror_fails, client_get_world.
    2:{ specialize (Hfail 0%nat ltac:(simpl; lia)).
        now rewrite Nat.add_0_r in Hfail. }
    rewrite IH.
    + now rewrite after_requests_app.
    + intros i Hi. unfold after_requests. cbn [net sent].
      rewrite length_app. simpl.
      replace (List.length (sent w) + 1 + i)%nat
        with (List.length (sent w) + S i)%nat by lia.
      apply Hfail. simpl. lia.
Qed.

Lemma update_vtb_list_eq (w : world) :
  exists l k,
    (1 <= k <= 4)%nat
    /\ for_urls urls [] w
       = (Return l, after_requests w (map mirror_request (firstn k urls)))
    /\ update_vtb_list w
       = dump_vtb_list l
           (after_requests w (map mirror_request (firstn k urls)))
    /\ Forall registry_record l.
Proof.
  destruct (for_urls_total urls [] w) as (l & k & Hk & Hk1 & E & Hrec).
  exists l, k. split; [split; [now apply Hk1|exact Hk]|].
  split; [exact E|]. split; [|exact Hrec].
  unfold update_vtb_list, bind. rewrite E. reflexivity.
Qed.

(** X7. The loop over the mirrors never raises, whatever they answer: the
    mirrors are asked in their order up to the first that passes, so
    between one and four requests are sent.  The refresh raises only at the
    dump that follows the loop, [UnicodeEncodeError] for a record with a
    lone surrogate, and then leaves a file that does not parse; otherwise
    it writes the list to the registry file.  Nothing else changes, the key
    cache in particular. *)
Theorem update_vtb_list_raises_at_dump (w : world) :
  exists l k,
    (1 <= k <= 4)%nat
    /\ for_urls urls [] w
       = (Return l, after_requests w (map mirror_request (firstn k urls)))
    /\ update_vtb_list w
       = if existsb (unencodable w) l
         then (Raise UnicodeEncodeError,
               set_file Corrupt
                 (after_requests w (map mirror_request (firstn k urls))))
         else (Return tt,
               set_file (Content (JList l))
                 (after_requests w (map mirror_request (firstn k urls)))).
Proof.
  destruct (update_vtb_list_eq w) as (l & k & Hk & Eloop & E & _).
  exists l, k. split; [exact Hk|]. split; [exact Eloop|].
  rewrite E. reflexivity.
Qed.

(** X9. Every record a refresh writes is a dict with a [mid] field and a
    true [uname] field, so reading [info["mid"]] and [info["uname"]] of a
    stored record does not raise.  The records are those of the list the
    loop over the mirrors built: the file holds that list, unless one of
    its records has a lone surrogate and the dump left a text that does
    not parse. *)
Theorem update_vtb_list_records (w : world) :
  exists l,
    vtb_list_file (snd (update_vtb_list w))
    = (if existsb (unencodable w) l then Corrupt else Content (JList l))
    /\ Forall (fun info =>
                 registry_record info
                 /\ (exists mid, getitem info "mid" = Ok mid)
                 /\ (exists uname, getitem info "uname" = Ok uname
                                   /\ truthy uname = true)) l.
Proof.
  destruct (update_vtb_list_eq w) as (l & k & _ & _ & E & Hrec).
  exists l. rewrite E. split.
  { unfold dump_vtb_list. cbn [unencodable after_requests].
    now destruct (existsb (unencodable w) l). }
  eapply Forall_impl; [|exact Hrec].
  intros info (d & mid & -> & Hmid & Hname).
  split; [now exists d, mid|]. simpl. rewrite Hmid.
  split; [now exists mid|].
  unfold field_true in Hname.
  destruct (dict_get d "uname") as [uname|]; [|discriminate].
  now exists uname.
Qed.

(** A record with a lone surrogate: the dump raises after one request, the
    file is left with a text that does not parse, and the next load removes
    it. *)
Example update_vtb_list_surrogate :
  update_vtb_list SurrogateSample.surrogate_world
  = (Raise UnicodeEncodeError,
     set_file Corrupt
       (after_requests SurrogateSample.surrogate_world
          [mirror_request "https://api.vtbs.moe/v1/short"]))
  /\ load_vtb_list (snd (update_vtb_list SurrogateSample.surrogate_world))
     = (Return (JList []),
        after_requests SurrogateSample.surrogate_world
          [mirror_request "https://api.vtbs.moe/v1/short"]).
Proof. split; reflexivity. Qed.

(** An item whose [uid] starts with U+001C makes [int] raise: its mirror is
    given up and the next ones are asked. *)
Example update_vtb_list_separator :
  update_vtb_list SurrogateSample.separator_world
  = (Return tt,
     set_file (Content (JList []))
       (after_requests SurrogateSample.separator_world
          (map mirror_request urls))).
Proof. reflexivity. Qed.

(** X8. Mirror fallback: when the first [k] mirrors fail and the next one
    answers a non-empty list whose items all pass, [k + 1] requests have
    been sent, the mirrors after it are not asked, and what that list gives
    is written to the registry file; the refresh returns, unless a record
    of the list has a lone surrogate, in which case the dump raises. *)
Theorem update_vtb_list_fallback (w : world) (k : nat) (resp : response)
        (infos l : list json) :
  (k < 4)%nat ->
  (forall i, (i < k)%nat ->
             mirror_fails (net w (List.length (sent w) + i))) ->
  net w (List.length (sent w) + k) = Ok resp ->
  body resp = Some (JList infos) ->
  infos <> [] ->
  add_infos infos [] = (l, None) ->
  update_vtb_list w
  = if existsb (unencodable w) l
    then (Raise UnicodeEncodeError,
          set_file Corrupt
            (after_requests w (map mirror_request (firstn (S k) urls))))
    else (Return tt,
          set_file (Content (JList l))
            (after_requests w (map mirror_request (firstn (S k) urls)))).
Proof.
  intros Hk Hfail Hnet Hbody Hne Hadd.
  assert (Hsplit : exists us1 url us2,
             urls = us1 ++ url :: us2 /\ List.length us1 = k
             /\ firstn (S k) urls = us1 ++ [url]).
  { exists (firstn k urls), (nth k urls ""), (skipn (S k) urls).
    do 4 (destruct k as [|k]; [repeat split; reflexivity|]). lia. }
  destruct Hsplit as (us1 & url & us2 & Eurls & Hlen & Efirst).
  unfold update_vtb_list, bind. rewrite Efirst.
  rewrite Eurls, for_urls_skip by (rewrite Hlen; exact Hfail).
  rewrite for_urls_cons.
  rewrite (try_mirror_good url [] l _ resp infos); try assumption.
  - rewrite after_requests_app, map_app. reflexivity.
  - unfold after_requests. cbn [net sent].
    now rewrite length_app, length_map, Hlen.
Qed.

Lemma update_vtb_list_fallback_witness :
  update_vtb_list Sample.mirror_world
  = (Return tt,
     set_file
       (Content
          (JList
             [JDict [("mid", JInt 349991143); ("uname", JStr "kagura_mea")];
              Sample.mid_item;
              JDict [("mid", JInt 349991143); ("uname", JStr "kagura_mea")];
              Sample.both_item]))
       (after_requests Sample.mirror_world
          (map mirror_request (firstn 2 urls)))).
Proof.
  apply (update_vtb_list_fallback Sample.mirror_world 1
           (mk_response 200
              (Some (JList [Sample.uid_item; Sample.mid_item;
                            Sample.both_item])))
           [Sample.uid_item; Sample.mid_item; Sample.both_item]
           [JDict [("mid", JInt 349991143); ("uname", JStr "kagura_mea")];
            Sample.mid_item;
            JDict [("mid", JInt 349991143); ("uname", JStr "kagura_mea")];
            Sample.both_item]).
  - lia.
  - intros i Hi. assert (i = 0%nat) as -> by lia. exact I.
  - reflexivity.
  - reflexivity.
  - discriminate.
  - reflexivity.
Defined.




(** A registry file that is not UTF-8 makes the call raise; the file stays
    and no mirror is asked. *)
Example get_vtb_list_undecodable :
  get_vtb_list (set_file Undecodable Sample.mirror_world)
  = (Raise UnicodeDecodeError, set_file Undecodable Sample.mirror_world).
Proof. reflexivity. Qed.

(** A stored registry is returned without a request; a corrupt file is
    replaced by what the second mirror sends. *)
Example get_vtb_list_examples :
  get_vtb_list Sample.stored_world
  = (Return (JList [JDict [("mid", JInt 349991143);
                           ("uname", JStr "kagura_mea")]]),
     Sample.stored_world)
  /\ List.length
       (sent (snd (get_vtb_list (set_file Corrupt Sample.mirror_world))))
     = 2%nat.
Proof. split; reflexivity. Qed.

(* ================================================================== *)
(** * Further properties of the paginated fetch *)

Lemma append_users_entries (users : list json) :
  forall acc l,
    append_users users acc = Ok l ->
    Forall attention_entry acc -> Forall attention_entry l.
Proof.
  induction users as [|user users IH]; simpl; intros acc l.
  - now intros [= <-].
  - unfold attention_of.
    destruct (getitem user "mid") as [mid|]; [|discriminate].
    destruct (getitem user "uname") as [uname|]; [|discriminate].
    cbn [res_bind]. intros Happ Hacc. apply (IH _ _ Happ).
    apply Forall_app. split; [exact Hacc|].
    constructor; [now exists mid, uname|constructor].
Qed.

(** A signature either returns, after one reading of the clock, or raises
    and leaves the world as it is. *)
Lemma get_wbi_sign_params_cases (params : dict param) (w : world) :
  (exists signed, get_wbi_sign_params params w = (Return signed, tick w))
  \/ (exists e, get_wbi_sign_params params w = (Raise e, w)).
Proof.
  rewrite get_wbi_sign_params_eq. cbv zeta.
  destruct (get_mixin_key _) as [mixed|e]; [left|right]; eexists; reflexivity.
Qed.

(** The signed parameters of a page make a page request. *)
Lemma signed_page_request (uid page : Z) (w w1 : world) (signed : dict param) :
  get_wbi_sign_params (page_params uid page) w = (Return signed, w1) ->
  is_page_request uid page (mk_request followings_url signed).
Proof.
  intros H. destruct (get_wbi_sign_params_returns _ _ _ _ H) as (_ & msg & ->).
  repeat split.
Qed.

Lemma bind_eq {A B : Type} (m : M A) (k : A -> M B) (w : world) :
  bind m k w =
  match m w with
  | (Return a, w') => k a w'
  | (Raise e, w') => (Raise e, w')
  | (OutOfFuel, w') => (OutOfFuel, w')
  end.
Proof. reflexivity. Qed.

(** Any run of the loop: the requests sent are those of consecutive pages,
    one per turn at most; the entries returned have the two fields [mid]
    and [uname]; the cache, the file and the network are not touched. *)
Lemma fetch_pages_any (fuel : nat) (uid : Z) :
  forall (page : Z) (acc : list json) (w : world),
  exists reqs,
    sent (snd (fetch_pages fuel uid page acc w)) = sent w ++ reqs
    /\ (List.length reqs <= fuel)%nat
    /\ (forall k q, nth_error reqs k = Some q ->
                    is_page_request uid (page + Z.of_nat k) q)
    /\ cached_wbi_keys (snd (fetch_pages fuel uid page acc w))
       = cached_wbi_keys w
    /\ vtb_list_file (snd (fetch_pages fuel uid page acc w))
       = vtb_list_file w
    /\ net (snd (fetch_pages fuel uid page acc w)) = net w
    /\ (Forall attention_entry acc ->
        forall l, fst (fetch_pages fuel uid page acc w) = Return l ->
                  Forall attention_entry l).
Proof.
  induction fuel as [|fuel IH]; intros page acc w.
  - exists []. simpl. rewrite app_nil_r.
    split; [reflexivity|]. split; [lia|].
    split; [intros [|k] q; discriminate|].
    do 3 (split; [reflexivity|]). intros _ l. discriminate.
  - assert (Hnone : exists reqs : list request,
               sent w = sent w ++ reqs
               /\ (List.length reqs <= S fuel)%nat
               /\ (forall k q, nth_error reqs k = Some q ->
                               is_page_request uid (page + Z.of_nat k) q)).
    { exists []. rewrite app_nil_r.
      split; [reflexivity|]. split; [simpl; lia|].
      intros [|k] q; discriminate. }
    cbn [fetch_pages]. rewrite bind_eq.
    destruct (get_wbi_sign_params_cases (page_params uid page) w)
      as [[signed Hsign]|[e Hsign]]; rewrite Hsign; cbv beta iota.
    2:{ destruct Hnone as (reqs & H1 & H2 & H3). exists reqs. cbn [fst snd].
        do 3 (split; [assumption|]). do 3 (split; [reflexivity|]).
        intros _ l. discriminate. }
    pose proof (signed_page_request _ _ _ _ _ Hsign) as Hreq.
    set (q0 := mk_request followings_url signed) in *.
    assert (Hone : forall k q, nth_error [q0] k = Some q ->
                               is_page_request uid (page + Z.of_nat k) q).
    { intros [|[|k]] q; try discriminate.
      intros [= <-]. now rewrite Z.add_0_r. }
    assert (Hstop : forall (o : outcome (list json)),
               (forall l, o = Return l -> Forall attention_entry acc ->
                          Forall attention_entry l) ->
               exists reqs,
                 sent w ++ [q0] = sent w ++ reqs
                 /\ (List.length reqs <= S fuel)%nat
                 /\ (forall k q, nth_error reqs k = Some q ->
                                 is_page_request uid (page + Z.of_nat k) q)
                 /\ cached_wbi_keys w = cached_wbi_keys w
                 /\ vtb_list_file w = vtb_list_file w
                 /\ net w = net w
                 /\ (Forall attention_entry acc ->
                     forall l, o = Return l -> Forall attention_entry l)).
    { intros o Ho. exists [q0].
      split; [reflexivity|]. split; [simpl; lia|]. split; [exact Hone|].
      do 3 (split; [reflexivity|]).
      intros Hacc l Hl. now apply Ho. }
    run. fold q0.
    destruct (net w (List.length (sent w))) as [resp|e]; run;
      [|apply Hstop; discriminate].
    destruct ((200 <=? status_code resp) && (status_code resp <=? 299));
      run; [|apply Hstop; discriminate].
    destruct (body resp) as [j|]; run; [|apply Hstop; discriminate].
    destruct (getitem j "data") as [data|]; run;
      [|apply Hstop; discriminate].
    destruct (getitem data "list") as [lst|]; run;
      [|apply Hstop; discriminate].
    destruct (truthy lst); run.
    2:{ apply Hstop. now intros l [= <-]. }
    destruct (iterate lst) as [users|]; run; [|apply Hstop; discriminate].
    destruct (append_users users acc) as [acc'|] eqn:Happ; run;
      [|apply Hstop; discriminate].
    destruct (len lst) as [n|]; run; [|apply Hstop; discriminate].
    destruct (n <? page_size).
    { apply Hstop. intros l [= <-]. now apply (append_users_entries users acc). }
    set (w2 := mk_world _ _ _ _ _ _ _).
    destruct (IH (page + 1) acc' w2) as (reqs & H1 & H2 & H3 & H4 & H5 & H6 & H7).
    exists (q0 :: reqs). rewrite H1, H4, H5, H6.
    unfold w2. cbn [sent cached_wbi_keys vtb_list_file net].
    rewrite <- app_assoc.
    split; [reflexivity|]. split; [simpl; lia|]. split.
    + intros [|k] q Hq.
      * injection Hq as <-. now rewrite Z.add_0_r.
      * replace (page + Z.of_nat (S k)) with (page + 1 + Z.of_nat k) by lia.
        now apply H3.
    + do 3 (split; [reflexivity|]).
      intros Hacc l Hl. apply (H7 (append_users_entries _ _ _ Happ Hacc) l Hl).
Qed.

(** X11. Whatever the service answers, every entry the fetch returns is a
    dict with exactly the two fields [mid] and [uname], in this order. *)
Theorem get_user_attentions_entries (fuel : nat) (uid : Z) (w : world)
        (l : list json) :
  fst (get_user_attentions fuel uid w) = Return l ->
  Forall attention_entry l.
Proof.
  unfold get_user_attentions, try_except, fetch_all, bind.
  destruct (get_wbi_keys w) as [[ks|e|] w1]; cbn [fst snd].
  - destruct (fetch_pages_any fuel uid 1 [] w1) as (_ & _ & _ & _ & _ & _ & _ & H).
    destruct (fetch_pages fuel uid 1 [] w1) as [[l'|e|] w2]; cbn [fst snd] in *.
    + intros [= <-]. now apply H.
    + intros [= <-]. constructor.
    + discriminate.
  - intros [= <-]. constructor.
  - discriminate.
Qed.

Lemma get_user_attentions_entries_witness :
  Forall attention_entry (map Sample.kept (seq 1 53)).
Proof.
  apply (get_user_attentions_entries 2 7 Sample.two_pages_world).
  vm_compute. reflexivity.
Defined.

(** X12. Whatever the service answers, what the fetch sends after the key
    refresh are the requests of the pages 1, 2, 3, ... of the follow list
    of [uid], with page size 50, one per turn of the loop and no page
    twice; the registry file is not touched. *)
Theorem get_user_attentions_requests (fuel : nat) (uid : Z) (w : world) :
  exists reqs,
    sent (snd (get_user_attentions fuel uid w))
    = sent (snd (get_wbi_keys w)) ++ reqs
    /\ (List.length reqs <= fuel)%nat
    /\ (forall k q, nth_error reqs k = Some q ->
                    is_page_request uid (1 + Z.of_nat k) q)
    /\ vtb_list_file (snd (get_user_attentions fuel uid w))
       = vtb_list_file w.
Proof.
  assert (Hfile : vtb_list_file (snd (get_wbi_keys w)) = vtb_list_file w).
  { destruct (get_wbi_keys_cases w) as [[_ E]|(_ & r & c' & E & _)];
      now rewrite E. }
  unfold get_user_attentions, try_except, fetch_all, bind.
  destruct (get_wbi_keys w) as [[ks|e|] w1]; cbn [fst snd] in *.
  - destruct (fetch_pages_any fuel uid 1 [] w1)
      as (reqs & H1 & H2 & H3 & _ & H5 & _).
    exists reqs.
    destruct (fetch_pages fuel uid 1 [] w1) as [[l'|e|] w2];
      cbn [fst snd ret] in *; rewrite H1, H5;
      (split; [reflexivity|]); (split; [exact H2|]);
      (split; [exact H3|exact Hfile]).
  - exists []. rewrite app_nil_r.
    split; [reflexivity|]. split; [simpl; lia|].
    split; [intros [|k] q; discriminate|exact Hfile].
  - exists []. rewrite app_nil_r.
    split; [reflexivity|]. split; [simpl; lia|].
    split; [intros [|k] q; discriminate|exact Hfile].
Qed.

(* ================================================================== *)
(** * The search of a user by name *)

Lemma py_eq_str (j : json) (s : string) :
  py_eq j (JStr s) = true <-> j = JStr s.
Proof.
  destruct j as [|b|n|q|t|l|d]; simpl;
    try (split; [discriminate|congruence]);
    try (destruct b; split; [discriminate|congruence]).
  rewrite String.eqb_eq. split; congruence.
Qed.

(** The loop returns the [mid] of the first user whose name is [name]. *)
Lemma find_user_some (users : list json) (name : string) (mid : json) :
  find_user users name = Ok (Some mid) ->
  exists before user after,
    users = before ++ user :: after
    /\ getitem user "uname" = Ok (JStr name)
    /\ getitem user "mid" = Ok mid
    /\ Forall (fun u => exists n, getitem u "uname" = Ok n /\ n <> JStr name)
              before.
Proof.
  induction users as [|u users IH]; simpl; [discriminate|].
  destruct (getitem u "uname") as [n|] eqn:En; [|discriminate].
  cbn [res_bind]. destruct (py_eq n (JStr name)) eqn:Eq.
  - apply py_eq_str in Eq. subst n.
    destruct (getitem u "mid") as [m|] eqn:Em; [|discriminate].
    cbn [res_bind]. intros [= <-].
    exists [], u, users. repeat split; try assumption. constructor.
  - intros H. destruct (IH H) as (before & user & after & -> & H1 & H2 & H3).
    exists (u :: before), user, after. repeat split; try assumption.
    constructor; [|exact H3]. exists n. split; [exact En|].
    intros ->. rewrite (proj2 (py_eq_str (JStr name) name) eq_refl) in Eq.
    discriminate.
Qed.

(** With a cached pair of 62 characters or fewer signing raises. *)
Lemma sign_raises_short (w : world) (params : dict param) :
  (String.length (img_key (cached_wbi_keys w) ++ sub_key (cached_wbi_keys w))
   <= 62)%nat ->
  get_wbi_sign_params params w = (Raise IndexError, w).
Proof.
  intros Hlen. rewrite get_wbi_sign_params_eq. cbv zeta.
  unfold get_mixin_key.
  rewrite (pick_chars_out_of_range _ _ 62 table_prefix_has_62); [reflexivity|].
  lia.
Qed.

(** With 63 characters or more signing returns. *)
Lemma sign_returns_long (w : world) (params : dict param) :
  (63 <= String.length (img_key (cached_wbi_keys w)
                        ++ sub_key (cached_wbi_keys w)))%nat ->
  exists signed, get_wbi_sign_params params w = (Return signed, tick w).
Proof.
  intros Hlen. destruct (get_mixin_key_ok _ Hlen) as (mixed & Hmixed & _).
  rewrite get_wbi_sign_params_eq. cbv zeta. rewrite Hmixed.
  eexists. reflexivity.
Qed.

(** The test of line 188 is true: the code is 0, the data and its result
    are true. *)
Lemma search_hit_true (result : json) :
  search_hit result = Ok true ->
  exists code data r,
    getitem result "code" = Ok code /\ py_eq code (JInt 0) = true
    /\ getitem result "data" = Ok data /\ truthy data = true
    /\ getitem data "result" = Ok r /\ truthy r = true.
Proof.
  unfold search_hit.
  destruct (getitem result "code") as [code|] eqn:Ec; [|discriminate].
  cbn [res_bind]. destruct (py_eq code (JInt 0)) eqn:E0; [|discriminate].
  destruct (getitem result "data") as [data|] eqn:Ed; [|discriminate].
  cbn [res_bind]. destruct (truthy data) eqn:Et; [|discriminate].
  destruct (getitem data "result") as [r|] eqn:Er; [|discriminate].
  cbn [res_bind]. intros [= Hr].
  now exists code, data, r.
Qed.

(** The part of [get_uid_by_name] inside the [try], from signed
    parameters: it never raises and sends one request; it returns an
    identifier only from an answer with a status 2xx and the code 0. *)
Lemma search_request_total (name : string) (signed : dict param) (w : world) :
  exists found,
    try_except
      (resp <- client_get search_url signed ;;
       raise_for_status resp ;;
       result <- resp_json resp ;;
       hit <- lift (search_hit result) ;;
       if hit : bool then
         data <- lift (getitem result "data") ;;
         r <- lift (getitem data "result") ;;
         users <- lift (iterate r) ;;
         lift (find_user users name)
       else ret None)%M
      (fun _ => ret None) w
    = (Return found, after_requests w [mk_request search_url signed])
    /\ (forall mid, found = Some mid ->
          exists resp result code data r users,
            net w (List.length (sent w)) = Ok resp
            /\ (200 <=? status_code resp) && (status_code resp <=? 299) = true
            /\ body resp = Some result
            /\ getitem result "code" = Ok code
            /\ py_eq code (JInt 0) = true
            /\ getitem result "data" = Ok data
            /\ getitem data "result" = Ok r
            /\ iterate r = Ok users
            /\ find_user users name = Ok (Some mid)).
Proof.
  pose proof (client_get_world search_url signed w) as Hw.
  unfold client_get in Hw. run.
  destruct (net w (List.length (sent w))) as [resp|e] eqn:Enet; run;
    simpl in Hw; rewrite Hw; [|exists None; split; [reflexivity|discriminate]].
  destruct ((200 <=? status_code resp) && (status_code resp <=? 299))
    eqn:Est; run;
    [|exists None; split; [reflexivity|discriminate]].
  destruct (body resp) as [result|] eqn:Ebody; run;
    [|exists None; split; [reflexivity|discriminate]].
  destruct (search_hit result) as [[|]|] eqn:Ehit; run;
    try (exists None; split; [reflexivity|discriminate]).
  destruct (search_hit_true result Ehit)
    as (code & data & r & Ec & E0 & Edata & _ & Er & _).
  rewrite Edata. run. rewrite Er. run.
  destruct (iterate r) as [users|] eqn:Eusers; run;
    [|exists None; split; [reflexivity|discriminate]].
  destruct (find_user users name) as [found|] eqn:Efind; run;
    [|exists None; split; [reflexivity|discriminate]].
  exists found. split; [reflexivity|].
  intros mid ->. exists resp, result, code, data, r, users.
  split; [reflexivity|]. repeat (split; [assumption|]). assumption.
Qed.

(** X13. When the search returns an identifier, the service answered, with
    a status 2xx and the code 0, a list of users, and the identifier is the
    [mid] of the first user of that list whose [uname] is exactly the name
    sought; the users before it have other names. *)
Theorem get_uid_by_name_exact (name : string) (w : world) (mid : json) :
  fst (get_uid_by_name name w) = Return (Some mid) ->
  let w1 := snd (get_wbi_keys w) in
  exists resp result code data r before user after,
    net w1 (List.length (sent w1)) = Ok resp
    /\ (200 <=? status_code resp) && (status_code resp <=? 299) = true
    /\ body resp = Some result
    /\ getitem result "code" = Ok code
    /\ py_eq code (JInt 0) = true
    /\ getitem result "data" = Ok data
    /\ getitem data "result" = Ok r
    /\ iterate r = Ok (before ++ user :: after)
    /\ getitem user "uname" = Ok (JStr name)
    /\ getitem user "mid" = Ok mid
    /\ Forall (fun u => exists n, getitem u "uname" = Ok n /\ n <> JStr name)
              before.
Proof.
  unfold get_uid_by_name. rewrite bind_eq.
  destruct (get_wbi_keys w) as [[ks|e|] w1]; cbn [fst snd]; try discriminate.
  rewrite bind_eq.
  destruct (get_wbi_sign_params_cases (search_params name) w1)
    as [[signed Hsign]|[e Hsign]]; rewrite Hsign; [|discriminate].
  destruct (search_request_total name signed (tick w1)) as (found & E & Hfound).
  rewrite E. cbn [fst]. intros [= ->].
  destruct (Hfound mid eq_refl)
    as (resp & result & code & data & r & users
        & H1 & Hst & H2 & Hc & H0 & H3 & H4 & H5 & H6).
  destruct (find_user_some _ _ _ H6) as (before & user & after & -> & H7 & H8 & H9).
  exists resp, result, code, data, r, before, user, after.
  repeat (split; [assumption|]). assumption.
Qed.

Lemma get_uid_by_name_exact_witness :
  let w1 := snd (get_wbi_keys SearchSample.answered_world) in
  exists resp result code data r before user after,
    net w1 (List.length (sent w1)) = Ok resp
    /\ (200 <=? status_code resp) && (status_code resp <=? 299) = true
    /\ body resp = Some result
    /\ getitem result "code" = Ok code
    /\ py_eq code (JInt 0) = true
    /\ getitem result "data" = Ok data
    /\ getitem data "result" = Ok r
    /\ iterate r = Ok (before ++ user :: after)
    /\ getitem user "uname" = Ok (JStr "kagura_mea")
    /\ getitem user "mid" = Ok (JInt 349991143)
    /\ Forall (fun u => exists n, getitem u "uname" = Ok n
                                  /\ n <> JStr "kagura_mea")
              before.
Proof.
  apply (get_uid_by_name_exact "kagura_mea" SearchSample.answered_world
           (JInt 349991143)).
  vm_compute. reflexivity.
Defined.

(** X14. The key refresh and the signature are outside the [try] of the
    search: an exception of the key refresh is the exception of the search,
    and keys of 62 characters or fewer make it raise [IndexError].  Once
    the parameters are signed the search never raises: it sends one
    request, to the search endpoint with the name as keyword, and returns
    an identifier or nothing. *)
Theorem get_uid_by_name_raises (name : string) (w : world) :
  let w1 := snd (get_wbi_keys w) in
  let c := cached_wbi_keys w1 in
  (forall e, fst (get_wbi_keys w) = Raise e ->
             get_uid_by_name name w = (Raise e, w1))
  /\ (forall ks, fst (get_wbi_keys w) = Return ks ->
                 (String.length (img_key c ++ sub_key c) <= 62)%nat ->
                 get_uid_by_name name w = (Raise IndexError, w1))
  /\ (forall ks, fst (get_wbi_keys w) = Return ks ->
                 (63 <= String.length (img_key c ++ sub_key c))%nat ->
                 exists found q,
                   get_uid_by_name name w
                   = (Return found, after_requests (tick w1) [q])
                   /\ req_url q = search_url
                   /\ dict_get (req_params q) "keyword" = Some (PStr name)).
Proof.
  cbv zeta. unfold get_uid_by_name. rewrite bind_eq.
  destruct (get_wbi_keys w) as [[ks|e|] w1]; cbn [fst snd].
  - split; [discriminate|]. split.
    + intros _ _ Hlen. rewrite bind_eq.
      now rewrite (sign_raises_short w1 _ Hlen).
    + intros _ _ Hlen. rewrite bind_eq.
      destruct (sign_returns_long w1 (search_params name) Hlen)
        as (signed & Hsign).
      rewrite Hsign.
      destruct (search_request_total name signed (tick w1)) as (found & E & _).
      exists found, (mk_request search_url signed).
      split; [exact E|]. split; [reflexivity|].
      destruct (get_wbi_sign_params_returns _ _ _ _ Hsign) as (_ & msg & ->).
      reflexivity.
  - split; [now intros e' [= ->]|]. split; discriminate.
  - split; [discriminate|]. split; discriminate.
Qed.

Lemma get_uid_by_name_raises_witness :
  get_uid_by_name "kagura_mea" Sample.refused_world
  = (Raise (HTTPStatusError 412), snd (get_wbi_keys Sample.refused_world))
  /\ get_uid_by_name "kagura_mea" SearchSample.short_keys_world
     = (Raise IndexError, snd (get_wbi_keys SearchSample.short_keys_world))
  /\ exists found q,
       get_uid_by_name "kagura_mea" SearchSample.answered_world
       = (Return found,
          after_requests (tick (snd (get_wbi_keys SearchSample.answered_world))) [q])
       /\ req_url q = search_url
       /\ dict_get (req_params q) "keyword" = Some (PStr "kagura_mea").
Proof.
  split; [|split].
  - apply (proj1 (get_uid_by_name_raises "kagura_mea" Sample.refused_world)).
    reflexivity.
  - apply (proj1 (proj2 (get_uid_by_name_raises "kagura_mea"
                           SearchSample.short_keys_world))
             ("abc", "def")).
    + reflexivity.
    + simpl. lia.
  - apply (proj2 (proj2 (get_uid_by_name_raises "kagura_mea"
                           SearchSample.answered_world))
             (Sample.image_key, Sample.sub_key)).
    + reflexivity.
    + simpl. lia.
Defined.

(** The sample search: the first exact match, not the first name that
    starts alike; a name nobody has gives nothing. *)
Example get_uid_by_name_examples :
  fst (get_uid_by_name "kagura_mea" SearchSample.answered_world)
  = Return (Some (JInt 349991143))
  /\ fst (get_uid_by_name "kagura_m" SearchSample.answered_world) = Return None.
Proof. vm_compute. split; reflexivity. Qed.

(* ================================================================== *)
(** * The colours of a medal *)

Section HexDigits.

Lemma upper_hex_digit_spec (n : Z) :
  0 <= n < 16 ->
  upper_hex_value (Urllib.upper_hex_digit n) = Some n
  /\ is_upper_hex (Urllib.upper_hex_digit n) = true.
Proof.
  intros Hn.
  assert (E : n = Z.of_nat (Z.to_nat n)) by lia.
  rewrite E. assert (Hk : (Z.to_nat n < 16)%nat) by lia.
  revert Hk. generalize (Z.to_nat n). intros k Hk.
  do 16 (destruct k as [|k]; [split; reflexivity|]). lia.
Qed.

Lemma string_app_assoc (a b c : string) :
  ((a ++ b) ++ c)%string = (a ++ b ++ c)%string.
Proof. induction a as [|x a IH]; simpl; [reflexivity|now rewrite IH]. Qed.

Lemma hex_upper_aux_app (fuel : nat) :
  forall n acc,
    PyFormat.hex_upper_aux fuel n acc
    = (PyFormat.hex_upper_aux fuel n "" ++ acc)%string.
Proof.
  induction fuel as [|fuel IH]; intros n acc; simpl; [reflexivity|].
  destruct (n / 16 =? 0); [reflexivity|].
  rewrite (IH _ (String _ acc)), (IH _ (String _ "")).
  now rewrite string_app_assoc.
Qed.

Lemma hex_value_from_app (s t : string) :
  forall a,
    hex_value_from a (s ++ t)
    = match hex_value_from a s with
      | Some x => hex_value_from x t
      | None => None
      end.
Proof.
  induction s as [|c s IH]; intros a; simpl; [reflexivity|].
  destruct (upper_hex_value c); [apply IH|reflexivity].
Qed.

Lemma string_length_app (s t : string) :
  String.length (s ++ t) = (String.length s + String.length t)%nat.
Proof. induction s as [|c s IH]; simpl; [reflexivity|now rewrite IH]. Qed.

(** With fuel for [k] digits the digits of a number below [16 ^ k] are at
    most [k], they are upper-case hexadecimal and they write the number. *)
Lemma hex_upper_aux_spec (fuel : nat) :
  forall n k,
    0 <= n < 16 ^ Z.of_nat k -> (1 <= k <= fuel)%nat ->
    hex_value_from 0 (PyFormat.hex_upper_aux fuel n "") = Some n
    /\ (1 <= String.length (PyFormat.hex_upper_aux fuel n "") <= k)%nat
    /\ string_all is_upper_hex (PyFormat.hex_upper_aux fuel n "") = true.
Proof.
  induction fuel as [|fuel IH]; intros n k Hn Hk; [lia|].
  simpl.
  assert (Hmod : 0 <= n mod 16 < 16) by (apply Z.mod_pos_bound; lia).
  destruct (upper_hex_digit_spec _ Hmod) as [Hv Hu].
  destruct (Z.eqb_spec (n / 16) 0) as [E|E].
  - simpl. rewrite Hv, Hu.
    assert (n mod 16 = n) by (pose proof (Z.div_mod n 16 ltac:(lia)); lia).
    repeat split; [f_equal; lia|lia|lia].
  - destruct k as [|[|k]]; [lia| |].
    + exfalso. apply E. apply Z.div_small. simpl in Hn. lia.
    + destruct (IH (n / 16) (S k)) as (H1 & H2 & H3).
      * split; [apply Z.div_pos; lia|].
        apply Z.div_lt_upper_bound; [lia|].
        replace (16 * 16 ^ Z.of_nat (S k)) with (16 ^ Z.of_nat (S (S k)));
          [lia|].
        rewrite (Nat2Z.inj_succ (S k)), Z.pow_succ_r by lia. reflexivity.
      * lia.
      * rewrite hex_upper_aux_app, hex_value_from_app, H1.
        rewrite string_length_app, string_all_app, H3.
        cbn [hex_value_from String.length string_all andb].
        rewrite Hv, Hu.
        pose proof (Z.div_mod n 16 ltac:(lia)).
        repeat split; [f_equal; lia|lia|lia].
Qed.

Lemma hex_upper_spec (n : Z) (k : nat) :
  0 <= n < 16 ^ Z.of_nat k -> (1 <= k)%nat ->
  hex_value_from 0 (PyFormat.hex_upper n) = Some n
  /\ (1 <= String.length (PyFormat.hex_upper n) <= k)%nat
  /\ string_all is_upper_hex (PyFormat.hex_upper n) = true.
Proof.
  intros Hn Hk. unfold PyFormat.hex_upper.
  set (fuel := S (Z.to_nat (Z.log2 n))).
  assert (Hfuel : n < 16 ^ Z.of_nat fuel).
  { unfold fuel. destruct (Z.eq_dec n 0) as [->|Hn0]; [reflexivity|].
    pose proof (Z.log2_nonneg n) as Hl.
    destruct (Z.log2_spec n ltac:(lia)) as [_ Hlt].
    rewrite Nat2Z.inj_succ, Z2Nat.id by lia.
    eapply Z.lt_le_trans; [exact Hlt|].
    apply Z.pow_le_mono_l. lia. }
  destruct (hex_upper_aux_spec fuel n fuel) as (H1 & _ & H3);
    [lia|unfold fuel; lia|].
  destruct (le_lt_dec k fuel) as [Hle|Hgt].
  - destruct (hex_upper_aux_spec fuel n k) as (_ & H2 & _); [lia|lia|].
    now repeat split.
  - destruct (hex_upper_aux_spec fuel n fuel) as (_ & H2 & _);
      [lia|unfold fuel; lia|].
    repeat split; try assumption; lia.
Qed.

Lemma zeros_value (k : nat) (s : string) :
  hex_value_from 0 (string_of_list_ascii (repeat "0"%char k) ++ s)
  = hex_value_from 0 s.
Proof. induction k as [|k IH]; simpl; [reflexivity|exact IH]. Qed.

Lemma zeros_shape (k : nat) :
  String.length (string_of_list_ascii (repeat "0"%char k)) = k
  /\ string_all is_upper_hex (string_of_list_ascii (repeat "0"%char k)) = true.
Proof.
  induction k as [|k [IH1 IH2]]; simpl; [now split|].
  split; [now rewrite IH1|exact IH2].
Qed.

End HexDigits.

(** X15. For a colour of 24 bits, [0 <= color < 2^24], the text is [#]
    followed by exactly six upper-case hexadecimal digits, zeros in front,
    and the six digits write the colour. *)
Theorem format_color_rgb (color : Z) :
  0 <= color < 2 ^ 24 ->
  exists digits,
    format_color color = String "#" digits
    /\ String.length digits = 6%nat
    /\ string_all is_upper_hex digits = true
    /\ hex_value digits = Some color.
Proof.
  intros Hc. unfold format_color, PyFormat.format_06X.
  destruct (Z.ltb_spec color 0) as [Hneg|_]; [lia|].
  destruct (hex_upper_spec color 6) as (Hv & Hl & Ha);
    [change (16 ^ Z.of_nat 6) with (2 ^ 24); lia|lia|].
  eexists. split; [reflexivity|].
  unfold PyFormat.zfill.
  destruct (zeros_shape (6 - String.length (PyFormat.hex_upper color)))
    as [Hzl Hza].
  split; [rewrite string_length_app, Hzl; lia|].
  split; [now rewrite string_all_app, Hza, Ha|].
  unfold hex_value.
  destruct (_ ++ _)%string eqn:E.
  - exfalso. apply (f_equal String.length) in E.
    rewrite string_length_app, Hzl in E. simpl in E. lia.
  - rewrite <- E, zeros_value. exact Hv.
Qed.

Lemma format_color_rgb_witness :
  exists digits,
    format_color 6126494 = String "#" digits
    /\ String.length digits = 6%nat
    /\ string_all is_upper_hex digits = true
    /\ hex_value digits = Some 6126494.
Proof. apply (format_color_rgb 6126494). lia. Defined.

(** Values of Python for colours in and out of the range. *)
Example format_color_examples :
  format_color 6126494 = "#5D7B9E" /\ format_color 255 = "#0000FF"
  /\ format_color 0 = "#000000" /\ format_color 16777216 = "#1000000"
  /\ format_color (-255) = "#-000FF".
Proof. repeat split. Qed.

(* ================================================================== *)
(** * Equality of JSON values and dicts keyed by them *)

Section JsonEquality.

Lemma Qeq_bool_trans (x y z : Q) :
  Qeq_bool x y = true -> Qeq_bool y z = true -> Qeq_bool x z = true.
Proof.
  rewrite !Qeq_bool_iff. intros H1 H2. now rewrite H1.
Qed.

Lemma py_eq_refl (a : json) : hashable a = true -> py_eq a a = true.
Proof.
  destruct a; cbn [py_eq number_of hashable]; intros H;
    try discriminate; try reflexivity;
    try apply Qeq_bool_refl; apply String.eqb_refl.
Qed.

Lemma py_eq_sym (a b : json) :
  hashable a = true -> hashable b = true -> py_eq a b = py_eq b a.
Proof.
  destruct a, b; cbn [py_eq number_of hashable]; intros Ha Hb;
    try discriminate; try reflexivity;
    try apply Qeq_bool_comm; apply String.eqb_sym.
Qed.

(** Through a scalar in the middle equality is transitive. *)
Lemma py_eq_trans (a b c : json) :
  hashable b = true ->
  py_eq a b = true -> py_eq b c = true -> py_eq a c = true.
Proof.
  destruct b; cbn [hashable]; intros Hb; try discriminate;
    destruct a; cbn [py_eq number_of]; intros H1; try discriminate;
    destruct c; cbn [py_eq number_of]; intros H2; try discriminate;
    try reflexivity;
    try (eapply Qeq_bool_trans; [exact H1|exact H2]).
  apply String.eqb_eq in H1, H2. subst. apply String.eqb_refl.
Qed.

(** What equals a scalar is a scalar. *)
Lemma py_eq_hashable (a b : json) :
  hashable a = true -> py_eq a b = true -> hashable b = true.
Proof.
  destruct a; cbn [hashable]; intros Ha; try discriminate;
    destruct b; cbn [py_eq number_of hashable]; intros H;
    try discriminate; reflexivity.
Qed.

(** Equal scalars are equal to the same values. *)
Lemma py_eq_class (k k' x : json) :
  hashable k = true -> hashable k' = true -> hashable x = true ->
  py_eq k' k = true -> py_eq k' x = py_eq k x.
Proof.
  intros Hk Hk' Hx Heq.
  destruct (py_eq k x) eqn:E.
  - exact (py_eq_trans k' k x Hk Heq E).
  - destruct (py_eq k' x) eqn:E'; [|reflexivity].
    rewrite <- E. symmetry.
    apply (py_eq_trans k k' x Hk'); [|exact E'].
    now rewrite py_eq_sym.
Qed.

Lemma find_app {A : Type} (p : A -> bool) (l l' : list A) :
  find p (l ++ l') =
  match find p l with
  | Some x => Some x
  | None => find p l'
  end.
Proof.
  induction l as [|x l IH]; simpl; [reflexivity|].
  destruct (p x); [reflexivity|exact IH].
Qed.

Lemma FOP_snoc {A : Type} (R : A -> A -> Prop) (l : list A) (x : A) :
  ForallOrdPairs R l -> Forall (fun y => R y x) l ->
  ForallOrdPairs R (l ++ [x]).
Proof.
  induction 1 as [|y l Hy Hl IH]; simpl; intros Hx.
  - constructor; constructor.
  - inversion Hx; subst. constructor; [|now apply IH].
    apply Forall_app. split; [exact Hy|]. constructor; [assumption|constructor].
Qed.

Lemma FOP_filter {A : Type} (R : A -> A -> Prop) (g : A -> bool) (l : list A) :
  ForallOrdPairs R l -> ForallOrdPairs R (filter g l).
Proof.
  induction 1 as [|y l Hy Hl IH]; simpl; [constructor|].
  destruct (g y); [|exact IH].
  constructor; [|exact IH].
  apply Forall_forall. intros z Hz.
  rewrite Forall_forall in Hy. apply Hy.
  now apply (incl_filter g l).
Qed.

(** What an assignment does to the keys: an equal key keeps them as they
    are, a new key comes last. *)
Lemma jdict_set_keys (d : jdict) (k v : json) :
  jkeys (jdict_set d k v)
  = if existsb (fun k' => py_eq k' k) (jkeys d) then jkeys d
    else jkeys d ++ [k].
Proof.
  induction d as [|[k0 v0] d IH]; simpl; [reflexivity|].
  destruct (py_eq k0 k); simpl; [reflexivity|].
  rewrite IH. now destruct (existsb _ (jkeys d)).
Qed.

(** An entry after an assignment is the new value under a key equal to
    the one assigned, or an entry of before. *)
Lemma jdict_set_entries (d : jdict) (k v : json) (kv : json * json) :
  hashable k = true ->
  In kv (jdict_set d k v) ->
  (snd kv = v /\ py_eq (fst kv) k = true) \/ In kv d.
Proof.
  intros Hk. induction d as [|[k0 v0] d IH]; simpl.
  - intros [<-|[]]. left. split; [reflexivity|now apply py_eq_refl].
  - destruct (py_eq k0 k) eqn:E; simpl.
    + intros [<-|Hin]; [left; now split|right; now right].
    + intros [<-|Hin]; [right; now left|].
      destruct (IH Hin) as [H|H]; [now left|right; now right].
Qed.

Lemma jdict_set_length (d : jdict) (k v : json) :
  (List.length (jdict_set d k v) <= S (List.length d))%nat.
Proof.
  induction d as [|[k0 v0] d IH]; simpl; [lia|].
  destruct (py_eq k0 k); simpl; lia.
Qed.

Lemma jdict_set_hashable (d : jdict) (k v : json) :
  hashable k = true ->
  Forall (fun k' => hashable k' = true) (jkeys d) ->
  Forall (fun k' => hashable k' = true) (jkeys (jdict_set d k v)).
Proof.
  intros Hk Hd. rewrite jdict_set_keys.
  destruct (existsb _ _); [exact Hd|].
  apply Forall_app. split; [exact Hd|]. constructor; [exact Hk|constructor].
Qed.

Lemma jdict_set_distinct (d : jdict) (k v : json) :
  distinct_keys d -> distinct_keys (jdict_set d k v).
Proof.
  unfold distinct_keys. intros Hd. rewrite jdict_set_keys.
  destruct (existsb _ _) eqn:E; [exact Hd|].
  apply FOP_snoc; [exact Hd|].
  apply Forall_forall. intros k' Hk'.
  destruct (py_eq k' k) eqn:E'; [|reflexivity].
  assert (existsb (fun k' => py_eq k' k) (jkeys d) = true)
    by (apply existsb_exists; now exists k').
  congruence.
Qed.

(** After an assignment some key is equal to the key assigned, and the
    keys of before are still there. *)
Lemma jdict_set_covers (d : jdict) (k v : json) :
  hashable k = true ->
  (exists k', In k' (jkeys (jdict_set d k v)) /\ py_eq k' k = true)
  /\ (forall k0, In k0 (jkeys d) -> In k0 (jkeys (jdict_set d k v))).
Proof.
  intros Hk. rewrite jdict_set_keys.
  destruct (existsb _ _) eqn:E.
  - split; [|tauto]. apply existsb_exists in E. exact E.
  - split.
    + exists k. split; [apply in_or_app; right; now left|now apply py_eq_refl].
    + intros k0 H. apply in_or_app. now left.
Qed.

(** Lookup after an assignment. *)
Lemma jdict_get_set (d : jdict) (k v x : json) :
  Forall (fun k' => hashable k' = true) (jkeys d) ->
  hashable k = true -> hashable x = true ->
  jdict_get (jdict_set d k v) x
  = if py_eq k x then Some v else jdict_get d x.
Proof.
  intros Hd Hk Hx. induction d as [|[k0 v0] d IH]; simpl.
  - reflexivity.
  - inversion Hd as [|? ? Hk0 Hd']; subst. simpl in Hk0.
    destruct (py_eq k0 k) eqn:E; simpl.
    + rewrite (py_eq_class k k0 x Hk Hk0 Hx E).
      now destruct (py_eq k x).
    + rewrite (IH Hd').
      destruct (py_eq k0 x) eqn:E0; [|reflexivity].
      destruct (py_eq k x) eqn:E1; [|reflexivity].
      exfalso.
      assert (py_eq k0 k = true); [|congruence].
      apply (py_eq_trans k0 x k Hx E0).
      now rewrite py_eq_sym.
Qed.

End JsonEquality.

(** What a comprehension [{item[field]: item for item in items}] holds
    under a key: the last item whose field equals the key, or what the
    dict held before. *)
Lemma index_by_get (field : string) (items : list json) :
  forall (acc d : jdict) (x : json),
    Forall (fun k' => hashable k' = true) (jkeys acc) ->
    hashable x = true ->
    index_by field items acc = Ok d ->
    jdict_get d x =
    match find (has_key field x) (rev items) with
    | Some item => Some item
    | None => jdict_get acc x
    end.
Proof.
  induction items as [|item items IH]; intros acc d x Hacc Hx; simpl.
  - now intros [= <-].
  - destruct (getitem item field) as [k|] eqn:Ek; [|discriminate].
    cbn [res_bind]. destruct (hashable k) eqn:Hk; [|discriminate].
    intros Hidx.
    rewrite (IH _ _ x (jdict_set_hashable acc k item Hk Hacc) Hx Hidx).
    rewrite find_app. destruct (find _ (rev items)); [reflexivity|].
    simpl. unfold has_key at 1. rewrite Ek.
    rewrite (jdict_get_set acc k item x Hacc Hk Hx).
    now destruct (py_eq k x).
Qed.

(** X18. In the index of the medals by [target_name], and in that of the
    registry by [mid], an item that comes later replaces an earlier one
    with an equal key: what is found under a key is the last item of the
    list whose field equals it, and nothing when there is none. *)
Theorem index_by_last (field : string) (items : list json) (d : jdict)
        (x : json) :
  hashable x = true ->
  index_by field items [] = Ok d ->
  jdict_get d x = find (has_key field x) (rev items).
Proof.
  intros Hx Hidx.
  rewrite (index_by_get field items [] d x (Forall_nil _) Hx Hidx).
  now destruct (find _ _).
Qed.

Lemma index_by_last_witness :
  jdict_get
    [(JStr "kagura_mea", ReportSample.medal "kagura_mea" 21);
     (JStr "nobody", ReportSample.medal "nobody" 9)]
    (JStr "kagura_mea")
  = find (has_key "target_name" (JStr "kagura_mea"))
         (rev ReportSample.medal_list).
Proof.
  apply (index_by_last "target_name" ReportSample.medal_list); reflexivity.
Defined.

(* ================================================================== *)
(** * The matches of the report *)

Section Matching.

Variable field : string.
Variable all_items : list json.

Lemma index_by_inv (items : list json) :
  forall (acc d : jdict),
    index_by field items acc = Ok d ->
    (forall item, In item items -> In item all_items) ->
    Forall (fun k => hashable k = true) (jkeys acc) ->
    distinct_keys acc ->
    Forall (entry_ok field all_items) acc ->
    Forall (fun k => hashable k = true) (jkeys d)
    /\ distinct_keys d
    /\ Forall (entry_ok field all_items) d
    /\ (List.length d <= List.length acc + List.length items)%nat
    /\ (forall k0, In k0 (jkeys acc) -> In k0 (jkeys d))
    /\ Forall (fun item =>
                 exists mid k',
                   getitem item field = Ok mid
                   /\ In k' (jkeys d) /\ py_eq k' mid = true) items.
Proof.
  induction items as [|item items IH]; intros acc d; simpl.
  - intros [= <-] _ Hh Hd He. repeat split; try assumption; try lia.
    + tauto.
    + constructor.
  - destruct (getitem item field) as [k|] eqn:Ek; [|discriminate].
    cbn [res_bind]. destruct (hashable k) eqn:Hk; [|discriminate].
    intros Hidx Hin Hh Hd He.
    destruct (IH (jdict_set acc k item) d Hidx) as (H1 & H2 & H3 & H4 & H5 & H6).
    + intros x Hx. apply Hin. now right.
    + now apply jdict_set_hashable.
    + now apply jdict_set_distinct.
    + apply Forall_forall. intros kv Hkv.
      destruct (jdict_set_entries acc k item kv Hk Hkv) as [[Ev Ekk]|Hold].
      * split; [rewrite Ev; apply Hin; now left|].
        exists k. rewrite Ev. split; [exact Ek|now split].
      * rewrite Forall_forall in He. now apply He.
    + destruct (jdict_set_covers acc k item Hk) as [(k' & Hk' & Ekk) Hkeep].
      pose proof (jdict_set_length acc k item) as Hlen.
      split; [exact H1|]. split; [exact H2|]. split; [exact H3|].
      split; [lia|]. split; [intros k0 Hk0; now apply H5, Hkeep|].
      constructor; [|exact H6].
      exists k, k'. split; [exact Ek|]. split; [now apply H5|exact Ekk].
Qed.

End Matching.

Lemma format_vtb_info_fields (info : json) (medal_dict : jdict) (v : json) :
  format_vtb_info info medal_dict = Ok v ->
  exists name uid medal,
    getitem info "uname" = Ok name
    /\ getitem info "mid" = Ok uid
    /\ v = JDict [("name", name); ("uid", uid); ("medal", medal)].
Proof.
  unfold format_vtb_info.
  destruct (getitem info "uname") as [name|]; [|discriminate].
  destruct (getitem info "mid") as [uid|]; [|discriminate].
  cbn [res_bind]. destruct (hashable name); [|discriminate].
  destruct (jdict_get medal_dict name) as [medal|].
  - destruct (getitem medal "medal_info") as [mi|]; [|discriminate].
    cbn [res_bind].
    destruct (getitem mi "medal_name") as [mn|]; [|discriminate].
    destruct (getitem mi "level") as [lv|]; [|discriminate].
    destruct (getitem mi "medal_color_border") as [b|]; [|discriminate].
    cbn [res_bind].
    destruct (format_color_of b) as [cb|]; [|discriminate].
    destruct (getitem mi "medal_color_start") as [s|]; [|discriminate].
    cbn [res_bind].
    destruct (format_color_of s) as [cs|]; [|discriminate].
    destruct (getitem mi "medal_color_end") as [e|]; [|discriminate].
    cbn [res_bind].
    destruct (format_color_of e) as [ce|]; [|discriminate].
    cbn [res_bind]. intros [= <-]. now eexists _, _, _.
  - intros [= <-]. now eexists _, _, _.
Qed.

(** The entries of the report come one by one from the entries of the
    index that were kept. *)
Lemma format_all_entries (kept : jdict) (medal_dict : jdict) :
  forall vtbs,
    format_all (map snd kept) medal_dict = Ok vtbs ->
    Forall2 (fun kv v => format_vtb_info (snd kv) medal_dict = Ok v)
            kept vtbs.
Proof.
  induction kept as [|kv kept IH]; simpl; intros vtbs.
  - intros [= <-]. constructor.
  - destruct (format_vtb_info (snd kv) medal_dict) as [v|] eqn:Ev;
      [|discriminate].
    cbn [res_bind].
    destruct (format_all (map snd kept) medal_dict) as [vs|]; [|discriminate].
    cbn [res_bind]. intros [= <-]. constructor; [exact Ev|now apply IH].
Qed.

(** What [match_vtbs] returns, with the index it went through. *)
Lemma match_vtbs_index (vtb_list attentions medal_list vtbs : list json) :
  match_vtbs vtb_list attentions medal_list = Ok vtbs ->
  exists vtb_dict medal_dict,
    index_by "mid" vtb_list [] = Ok vtb_dict
    /\ Forall2 (fun kv v => format_vtb_info (snd kv) medal_dict = Ok v)
         (filter (fun kv => contains attentions (fst kv)) vtb_dict) vtbs.
Proof.
  unfold match_vtbs.
  destruct (index_by "mid" vtb_list []) as [vd|]; [|discriminate].
  cbn [res_bind].
  destruct (index_by "target_name" medal_list []) as [md|]; [|discriminate].
  cbn [res_bind]. intros H. exists vd, md. split; [reflexivity|].
  now apply format_all_entries.
Qed.

Lemma index_by_start (vtb_list : list json) (vtb_dict : jdict) :
  index_by "mid" vtb_list [] = Ok vtb_dict ->
  Forall (fun k => hashable k = true) (jkeys vtb_dict)
  /\ distinct_keys vtb_dict
  /\ Forall (entry_ok "mid" vtb_list) vtb_dict
  /\ (List.length vtb_dict <= List.length vtb_list)%nat
  /\ Forall (fun item =>
               exists mid k',
                 getitem item "mid" = Ok mid
                 /\ In k' (jkeys vtb_dict) /\ py_eq k' mid = true) vtb_list.
Proof.
  intros H.
  destruct (index_by_inv "mid" vtb_list vtb_list [] vtb_dict H)
    as (H1 & H2 & H3 & H4 & _ & H6).
  - tauto.
  - apply Forall_nil.
  - apply FOP_nil.
  - apply Forall_nil.
  - simpl in H4. repeat split; assumption.
Qed.

Lemma contains_class (attentions : list json) (k mid : json) :
  hashable k = true ->
  py_eq k mid = true -> contains attentions k = true ->
  contains attentions mid = true.
Proof.
  unfold contains. intros Hk Heq Hc.
  apply existsb_exists in Hc. destruct Hc as (x & Hx & Exk).
  apply existsb_exists. exists x. split; [exact Hx|].
  exact (py_eq_trans x k mid Hk Exk Heq).
Qed.

(** X16. The matches are found by [mid] and by nothing else.  Every entry
    of the report comes from a record of the registry whose [mid] is among
    the follows, with that [mid] as [uid] and that record's [uname] as
    [name]; every record of the registry whose [mid] is among the follows
    has an entry with an equal [uid]; and there are no more entries than
    records. *)
Theorem match_vtbs_by_mid (vtb_list attentions medal_list vtbs : list json) :
  match_vtbs vtb_list attentions medal_list = Ok vtbs ->
  (List.length vtbs <= List.length vtb_list)%nat
  /\ Forall (fun v =>
               exists info mid,
                 In info vtb_list
                 /\ getitem info "mid" = Ok mid
                 /\ contains attentions mid = true
                 /\ getitem v "uid" = Ok mid
                 /\ getitem v "name" = getitem info "uname") vtbs
  /\ (forall info mid,
         In info vtb_list -> getitem info "mid" = Ok mid ->
         contains attentions mid = true ->
         exists v uid,
           In v vtbs /\ getitem v "uid" = Ok uid /\ py_eq uid mid = true).
Proof.
  intros Hm.
  destruct (match_vtbs_index _ _ _ _ Hm) as (vd & md & Hidx & Hall).
  destruct (index_by_start _ _ Hidx) as (Hh & Hd & He & Hlen & Hcov).
  set (f := fun kv : json * json => contains attentions (fst kv)) in *.
  assert (Hkept : forall kv, In kv (filter f vd) ->
                             In kv vd /\ contains attentions (fst kv) = true)
    by (intros kv; apply filter_In).
  assert (Hhash : forall kv, In kv vd -> hashable (fst kv) = true).
  { intros kv Hkv. rewrite Forall_forall in Hh. apply Hh.
    unfold jkeys. now apply in_map. }
  assert (Hlenk : (List.length (filter f vd) <= List.length vd)%nat)
    by apply filter_length_le.
  assert (Hpass : forall kv, In kv vd -> contains attentions (fst kv) = true ->
                             In kv (filter f vd))
    by (intros kv H1 H2; apply filter_In; now split).
  remember (filter f vd) as kept0 eqn:Ekept. clear Ekept.
  split; [|split].
  - rewrite <- (Forall2_length Hall). lia.
  - clear Hcov Hlen Hd Hpass Hlenk Hm Hidx. revert Hkept.
    induction Hall as [|kv v kept vs Hv _ IH]; intros Hkept; constructor.
    + destruct (Hkept kv (or_introl eq_refl)) as [Hin Hc].
      rewrite Forall_forall in He.
      destruct (He kv Hin) as (Hinfo & mid & Emid & Hmid & Ek).
      destruct (format_vtb_info_fields _ _ _ Hv) as (name & uid & medal & En & Eu & ->).
      exists (snd kv), mid. repeat split; try assumption.
      * exact (contains_class attentions (fst kv) mid (Hhash kv Hin) Ek Hc).
      * simpl. congruence.
      * simpl. now rewrite En.
    + apply IH. intros kv' Hkv'. apply Hkept. now right.
  - intros info mid Hin Emid Hc.
    rewrite Forall_forall in Hcov.
    destruct (Hcov info Hin) as (mid' & k' & Emid' & Hk' & Ek').
    assert (mid' = mid) by congruence. subst mid'.
    unfold jkeys in Hk'. apply in_map_iff in Hk'.
    destruct Hk' as (kv & <- & Hkv).
    rewrite Forall_forall in He.
    destruct (He kv Hkv) as (_ & m & Em & Hm' & Ekm).
    assert (Hmid : hashable mid = true)
      by exact (py_eq_hashable (fst kv) mid (Hhash kv Hkv) Ek').
    assert (Hin0 : In kv kept0).
    { apply Hpass; [exact Hkv|].
      apply (contains_class attentions mid (fst kv) Hmid); [|exact Hc].
      rewrite py_eq_sym; [exact Ek'|exact Hmid|now apply Hhash]. }
    clear Hkept Hpass Hlenk Hm.
    assert (Hex : exists v, In v vtbs /\ format_vtb_info (snd kv) md = Ok v).
    { revert Hin0. induction Hall as [|kv0 v0 kept vs Hv0 _ IH].
      - intros [].
      - intros [->|Hp]; [exists v0; split; [now left|exact Hv0]|].
        destruct (IH Hp) as (v & Hv & Ev). exists v. split; [now right|exact Ev]. }
    destruct Hex as (v & Hv & Ev).
    destruct (format_vtb_info_fields _ _ _ Ev) as (name & uid & medal & _ & Eu & ->).
    exists (JDict [("name", name); ("uid", uid); ("medal", medal)]), uid.
    split; [exact Hv|]. split; [reflexivity|].
    assert (uid = m) by congruence. subst uid.
    apply (py_eq_trans m (fst kv) mid (Hhash kv Hkv)); [|exact Ek'].
    rewrite py_eq_sym; [exact Ekm|exact Hm'|now apply Hhash].
Qed.

Lemma match_vtbs_by_mid_witness :
  (List.length ReportSample.vtbs <= List.length ReportSample.vtb_list)%nat
  /\ Forall (fun v =>
               exists info mid,
                 In info ReportSample.vtb_list
                 /\ getitem info "mid" = Ok mid
                 /\ contains ReportSample.attentions mid = true
                 /\ getitem v "uid" = Ok mid
                 /\ getitem v "name" = getitem info "uname")
            ReportSample.vtbs
  /\ (forall info mid,
         In info ReportSample.vtb_list -> getitem info "mid" = Ok mid ->
         contains ReportSample.attentions mid = true ->
         exists v uid,
           In v ReportSample.vtbs
           /\ getitem v "uid" = Ok uid /\ py_eq uid mid = true).
Proof.
  apply (match_vtbs_by_mid ReportSample.vtb_list ReportSample.attentions
           ReportSample.medal_list ReportSample.vtbs).
  reflexivity.
Defined.

(** X17. No account is counted twice: the [uid]s of the entries of the
    report are different from one another, even when the registry holds a
    [mid] several times. *)
Theorem match_vtbs_distinct (vtb_list attentions medal_list vtbs : list json) :
  match_vtbs vtb_list attentions medal_list = Ok vtbs ->
  ForallOrdPairs other_uid vtbs.
Proof.
  intros Hm.
  destruct (match_vtbs_index _ _ _ _ Hm) as (vd & md & Hidx & Hall).
  destruct (index_by_start _ _ Hidx) as (Hh & Hd & He & _ & _).
  set (f := fun kv : json * json => contains attentions (fst kv)) in *.
  assert (Hsub : forall kv, In kv (filter f vd) -> In kv vd)
    by (intros kv H; now apply (incl_filter f vd)).
  assert (Hdist : ForallOrdPairs (fun p q => py_eq (fst p) (fst q) = false)
                                 (filter f vd)).
  { apply FOP_filter. unfold distinct_keys, jkeys in Hd.
    clear - Hd. induction vd as [|kv vd IH]; [constructor|].
    simpl in Hd. inversion Hd as [|? ? Hk Hrest]; subst.
    constructor; [|now apply IH].
    rewrite Forall_forall in *. intros q Hq. apply Hk. now apply in_map. }
  assert (Hfacts : forall kv v,
             In kv vd -> format_vtb_info (snd kv) md = Ok v ->
             hashable (fst kv) = true
             /\ exists m, getitem v "uid" = Ok m /\ hashable m = true
                          /\ py_eq (fst kv) m = true).
  { intros kv v Hkv Hv. rewrite Forall_forall in Hh, He.
    split; [apply Hh; unfold jkeys; now apply in_map|].
    destruct (He kv Hkv) as (_ & m & Em & Hm' & Ekm).
    destruct (format_vtb_info_fields _ _ _ Hv) as (name & uid & medal & _ & Eu & ->).
    exists m. simpl. split; [congruence|now split]. }
  clear Hidx Hm. remember (filter f vd) as kept0 eqn:Ekept. clear Ekept.
  revert Hsub Hdist.
  induction Hall as [|kv v kept vs Hv Hall IH]; intros Hsub Hdist;
    [constructor|].
  inversion Hdist as [|? ? Hk Hrest]; subst.
  constructor; [|apply IH; [intros q Hq; apply Hsub; now right|exact Hrest]].
  destruct (Hfacts kv v (Hsub kv (or_introl eq_refl)) Hv)
    as (Hkh & m & Em & Hmh & Ekm).
  assert (Hsub' : forall q, In q kept -> In q vd)
    by (intros q Hq; apply Hsub; now right).
  clear IH Hdist Hrest Hsub. revert Hk Hsub'.
  induction Hall as [|kv' v' kept vs Hv' _ IH]; intros Hk Hsub';
    constructor.
  - inversion Hk as [|? ? Hkk _]; subst.
    destruct (Hfacts kv' v' (Hsub' kv' (or_introl eq_refl)) Hv')
      as (Hkh' & m' & Em' & Hmh' & Ekm').
    intros u1 u2 E1 E2.
    assert (u1 = m) by congruence. assert (u2 = m') by congruence. subst.
    destruct (py_eq m m') eqn:E; [|reflexivity].
    exfalso.
    assert (py_eq (fst kv) (fst kv') = true); [|congruence].
    apply (py_eq_trans (fst kv) m' (fst kv') Hmh').
    + exact (py_eq_trans (fst kv) m m' Hmh Ekm E).
    + rewrite py_eq_sym; [exact Ekm'|exact Hmh'|exact Hkh'].
  - inversion Hk; subst. apply IH; [assumption|].
    intros q Hq. apply Hsub'. now right.
Qed.

Lemma match_vtbs_distinct_witness : ForallOrdPairs other_uid ReportSample.vtbs.
Proof.
  apply (match_vtbs_distinct ReportSample.vtb_list ReportSample.attentions
           ReportSample.medal_list ReportSample.vtbs).
  reflexivity.
Defined.

Lemma filter_none {A : Type} (f : A -> bool) (l : list A) :
  (forall x, In x l -> f x = false) -> filter f l = [].
Proof.
  induction l as [|x l IH]; simpl; intros H; [reflexivity|].
  rewrite (H x (or_introl eq_refl)). apply IH. intros y Hy. apply H. now right.
Qed.

(** X19. Entries of the follow list as [get_user_attentions] returns them,
    dicts with [mid] and [uname], match no record of the registry: a [mid]
    is compared with the whole entry, never with the [mid] inside it, so
    the list of matches is empty. *)
Theorem match_vtbs_entries_never_match
        (vtb_list attentions medal_list vtbs : list json) :
  Forall attention_entry attentions ->
  match_vtbs vtb_list attentions medal_list = Ok vtbs ->
  vtbs = [].
Proof.
  intros Hat Hm.
  destruct (match_vtbs_index _ _ _ _ Hm) as (vd & md & Hidx & Hall).
  destruct (index_by_start _ _ Hidx) as (Hh & _).
  rewrite filter_none in Hall; [now inversion Hall|].
  intros kv Hkv. unfold contains.
  destruct (existsb _ attentions) eqn:E; [|reflexivity].
  apply existsb_exists in E. destruct E as (x & Hx & Ex).
  rewrite Forall_forall in Hat, Hh.
  destruct (Hat x Hx) as (mid & uname & ->).
  assert (Hk : hashable (fst kv) = true)
    by (apply Hh; unfold jkeys; now apply in_map).
  destruct (fst kv); try discriminate Hk; discriminate Ex.
Qed.

Lemma match_vtbs_entries_never_match_witness : @nil json = [].
Proof.
  apply (match_vtbs_entries_never_match ReportSample.vtb_list
           [JDict [("mid", JInt 349991143); ("uname", JStr "kagura_mea")]]
           ReportSample.medal_list []).
  - constructor; [|constructor].
    now exists (JInt 349991143), (JStr "kagura_mea").
  - reflexivity.
Defined.

(** The follows given as entries match nothing, given as the [mid]s of the
    same entries they match. *)
Example match_vtbs_entries_and_mids :
  match_vtbs ReportSample.vtb_list
    [JDict [("mid", JInt 349991143); ("uname", JStr "kagura_mea")]]
    ReportSample.medal_list
  = Ok []
  /\ match_vtbs ReportSample.vtb_list [JInt 349991143]
       ReportSample.medal_list
     = Ok ReportSample.vtbs.
Proof. split; reflexivity. Qed.

Lemma index_by_returns (field : string) (items : list json) :
  Forall (fun item => exists k, getitem item field = Ok k
                                /\ hashable k = true) items ->
  forall acc, exists d, index_by field items acc = Ok d.
Proof.
  induction 1 as [|item items (k & Ek & Hk) _ IH]; intros acc; simpl.
  - now exists acc.
  - rewrite Ek. cbn [res_bind]. rewrite Hk. apply IH.
Qed.

Lemma readable_fields (info : json) :
  readable_record info ->
  (exists k, getitem info "mid" = Ok k /\ hashable k = true)
  /\ exists v,
       format_vtb_info info []
       = Ok v /\ getitem v "medal" = Ok (JDict []).
Proof.
  intros (d & mid & uname & -> & Em & Hm & En & Hn). split.
  - exists mid. simpl. now rewrite Em.
  - unfold format_vtb_info. simpl. rewrite En, Em. cbn [res_bind].
    rewrite Hn. eexists. split; reflexivity.
Qed.

(** X20. With records whose [mid] and [uname] are scalars, as the records
    a refresh builds from numbers and strings are, and without medals, the
    matching does not raise, and every entry of the report has the empty
    medal. *)
Theorem match_vtbs_readable (vtb_list attentions : list json) :
  Forall readable_record vtb_list ->
  exists vtbs,
    match_vtbs vtb_list attentions [] = Ok vtbs
    /\ Forall (fun v => getitem v "medal" = Ok (JDict [])) vtbs.
Proof.
  intros Hvl.
  destruct (index_by_returns "mid" vtb_list) with (acc := @nil (json * json))
    as (vd & Hidx).
  { eapply Forall_impl; [|exact Hvl]. intros info H.
    apply (readable_fields info H). }
  destruct (index_by_start _ _ Hidx) as (_ & _ & He & _).
  unfold match_vtbs. rewrite Hidx. cbn [res_bind index_by].
  assert (Hkept : Forall readable_record
                    (map snd (filter (fun kv : json * json =>
                                        contains attentions (fst kv)) vd))).
  { apply Forall_forall. intros info Hin.
    apply in_map_iff in Hin. destruct Hin as (kv & <- & Hkv).
    apply filter_In in Hkv. destruct Hkv as [Hkv _].
    rewrite Forall_forall in He, Hvl.
    apply Hvl. now apply (He kv Hkv). }
  induction Hkept as [|info infos Hinfo _ (vs & Evs & Hvs)]; simpl.
  - exists []. split; [reflexivity|constructor].
  - destruct (readable_fields info Hinfo) as (_ & v & Ev & Hmedal).
    rewrite Ev. cbn [res_bind]. rewrite Evs. cbn [res_bind].
    exists (v :: vs). split; [reflexivity|now constructor].
Qed.

Lemma match_vtbs_readable_witness :
  exists vtbs,
    match_vtbs ReportSample.vtb_list ReportSample.attentions [] = Ok vtbs
    /\ Forall (fun v => getitem v "medal" = Ok (JDict [])) vtbs.
Proof.
  apply (match_vtbs_readable ReportSample.vtb_list ReportSample.attentions).
  repeat constructor;
    eexists _, _, _; repeat split; reflexivity.
Defined.

(** A record whose [mid] is a list passes the refresh and makes the
    matching raise. *)
Example match_vtbs_unhashable :
  fst (add_info (JDict [("mid", JList [JInt 1]); ("uname", JStr "x")]) [])
  = [JDict [("mid", JList [JInt 1]); ("uname", JStr "x")]]
  /\ match_vtbs [JDict [("mid", JList [JInt 1]); ("uname", JStr "x")]] [] []
     = Err TypeError.
Proof. split; reflexivity. Qed.

(* ================================================================== *)
(** * More on the refresh and the layout *)

(** A mirror whose list breaks off at an item goes on to the next mirror
    with what it appended. *)
Lemma try_mirror_breaks (url : string) (vtb_list l : list json) (w : world)
      (resp : response) (result : json) (infos : list json) (e : exn) :
  net w (List.length (sent w)) = Ok resp ->
  body resp = Some result ->
  truthy result = true ->
  iterate result = Ok infos ->
  add_infos infos vtb_list = (l, Some e) ->
  try_mirror url vtb_list w
  = (Return (l, Next), after_requests w [mirror_request url]).
Proof.
  intros Hnet Hbody Htrue Hiter Hadd.
  pose proof (client_get_world url [] w) as Hw.
  unfold try_mirror. unfold client_get in *. run.
  rewrite Hnet in *. run. simpl in Hw. rewrite Hw, Hbody. run.
  rewrite Htrue. cbn [negb]. rewrite Hiter. run. now rewrite Hadd.
Qed.

(** X21. The list [vtb_list] is not emptied between two mirrors: when the
    list of the first mirror breaks off at an item after some records and
    the second mirror passes, two requests have been sent and the list
    handed to the dump holds the records of the broken list followed by
    those of the second mirror; it is written to the registry file, unless
    one of its records has a lone surrogate and the dump raises. *)
Theorem update_vtb_list_keeps_partial (w : world) (resp1 resp2 : response)
        (result1 : json) (infos1 infos2 l1 l2 : list json) (e : exn) :
  net w (List.length (sent w)) = Ok resp1 ->
  body resp1 = Some result1 ->
  truthy result1 = true ->
  iterate result1 = Ok infos1 ->
  add_infos infos1 [] = (l1, Some e) ->
  net w (List.length (sent w) + 1) = Ok resp2 ->
  body resp2 = Some (JList infos2) ->
  infos2 <> [] ->
  add_infos infos2 l1 = (l2, None) ->
  update_vtb_list w
  = (if existsb (unencodable w) l2
     then (Raise UnicodeEncodeError,
           set_file Corrupt
             (after_requests w (map mirror_request (firstn 2 urls))))
     else (Return tt,
           set_file (Content (JList l2))
             (after_requests w (map mirror_request (firstn 2 urls)))))
  /\ exists added, l2 = l1 ++ added.
Proof.
  intros Hn1 Hb1 Ht1 Hi1 Ha1 Hn2 Hb2 Hne Ha2.
  split.
  - unfold update_vtb_list, bind, urls.
    rewrite for_urls_cons.
    rewrite (try_mirror_breaks _ [] l1 w resp1 result1 infos1 e); try assumption.
    rewrite for_urls_cons.
    rewrite (try_mirror_good _ l1 l2 _ resp2 infos2); try assumption.
    + rewrite after_requests_app. reflexivity.
    + unfold after_requests. cbn [net sent]. now rewrite length_app.
  - destruct (add_infos_appends infos2 l1) as (added & E & _).
    rewrite Ha2 in E. now exists added.
Qed.

Lemma update_vtb_list_keeps_partial_witness :
  update_vtb_list PartialSample.broken_then_good
  = (Return tt,
     set_file
       (Content
          (JList [Sample.mid_item;
                  JDict [("mid", JInt 349991143);
                         ("uname", JStr "kagura_mea")]]))
       (after_requests PartialSample.broken_then_good
          (map mirror_request (firstn 2 urls))))
  /\ exists added,
       [Sample.mid_item;
        JDict [("mid", JInt 349991143); ("uname", JStr "kagura_mea")]]
       = [Sample.mid_item] ++ added.
Proof.
  apply (update_vtb_list_keeps_partial PartialSample.broken_then_good
           (mk_response 200 (Some (JList [Sample.mid_item; JInt 5])))
           (mk_response 200 (Some (JList [Sample.uid_item])))
           (JList [Sample.mid_item; JInt 5])
           [Sample.mid_item; JInt 5] [Sample.uid_item]
           [Sample.mid_item]
           [Sample.mid_item;
            JDict [("mid", JInt 349991143); ("uname", JStr "kagura_mea")]]
           AttributeError);
    try reflexivity.
  discriminate.
Defined.

(** X22. The layout holds every match: with [ceil (m / 100)] columns of
    [num_per_col] rows there is room for the [m] matches, a column has
    between 1 and 100 rows, and one row less would not do. *)
Theorem num_per_col_layout (vtbs_num : Z) :
  0 < vtbs_num ->
  exists rows,
    num_per_col vtbs_num = Ok rows
    /\ 1 <= rows <= 100
    /\ (rows - 1) * ceil_div vtbs_num 100 < vtbs_num
       <= rows * ceil_div vtbs_num 100.
Proof.
  intros Hm. unfold num_per_col.
  destruct (Z.eqb_spec vtbs_num 0) as [E|E]; [lia|]. simpl.
  unfold truediv at 1. simpl. rewrite Qceiling_truediv.
  pose proof (ceil_div_spec vtbs_num 100 ltac:(lia)) as Hc.
  unfold truediv.
  destruct (Z.eqb_spec (ceil_div vtbs_num 100) 0) as [E0|E0]; [lia|].
  simpl. rewrite Qceiling_truediv.
  eexists. split; [reflexivity|].
  pose proof (ceil_div_spec vtbs_num (ceil_div vtbs_num 100) ltac:(lia)).
  split; nia.
Qed.

Lemma num_per_col_layout_witness :
  exists rows,
    num_per_col 250 = Ok rows
    /\ 1 <= rows <= 100
    /\ (rows - 1) * ceil_div 250 100 < 250 <= rows * ceil_div 250 100.
Proof. apply (num_per_col_layout 250). lia. Defined.
